(** * EcommerceBackEnd: the request handlers of [index.js]

    A shallow embedding of the fourteen Express handlers of [index.js] and
    of the four Mongoose collections they work on, followed by the
    properties of the order workflow, of registration and login, and of
    the payload size limits.

    Conventions of the model.
    - A request body is the JavaScript value [express.json] produced; JSON
      numbers are exact rationals ([Q]).  The only arithmetic the handlers
      do on numbers is comparison and two divisions by 1024, a power of
      two, which binary floating point performs exactly on a buffer
      length, so the rational reading agrees with the doubles of the
      source on every comparison below.
    - What the handlers call in their libraries (Mongoose casting and
      identifier syntax, bcrypt, the base64 decoder of [Buffer], string
      interpolation) is a [Platform]; what the outside world answers
      during one request (the clock, fresh identifiers, the S3 upload) is
      a [World].  The database is an in-memory [Db]; a database that
      cannot be reached is not modelled.
    - [try { ... } catch] with early [return res.status(..).json(..)] is
      the [Handler] monad: a computation goes on, has sent its response,
      or has thrown. *)

From Stdlib Require Import List String Ascii ZArith QArith Bool Lia DecimalString.
Import ListNotations.

Local Open Scope string_scope.
Local Open Scope Z_scope.

(** ** JavaScript values *)

#[local] Set Warnings "-register-all".

Inductive JsVal : Type :=
| JUndefined
| JNull
| JBool (b : bool)
| JNum (q : Q)
| JStr (s : string)
| JArr (xs : list JsVal)
| JObj (fs : list (string * JsVal)).

(** [!v] is [negb (truthy v)]: [undefined], [null], [false], [0] and [''] are
    falsy, everything else (the empty array and the empty object too) is
    truthy. *)
Definition truthy (v : JsVal) : bool :=
  match v with
  | JUndefined | JNull => false
  | JBool b => b
  | JNum q => negb (Qeq_bool q 0)
  | JStr s => negb (String.eqb s "")
  | JArr _ | JObj _ => true
  end.

Definition Array_isArray (v : JsVal) : bool :=
  match v with JArr _ => true | _ => false end.

(** [Number.isInteger(v)]: a number whose value is integral. *)
Definition Number_isInteger (v : JsVal) : bool :=
  match v with
  | JNum q => Z.eqb (Z.modulo (Qnum q) (Zpos (Qden q))) 0
  | _ => false
  end.

(** [a < b] on numbers. *)
Definition Qltb (a b : Q) : bool := negb (Qle_bool b a).

Fixpoint lookup (k : string) (fs : list (string * JsVal)) : JsVal :=
  match fs with
  | [] => JUndefined
  | (k', v) :: rest => if String.eqb k k' then v else lookup k rest
  end.

(** [const { k } = body]: own property [k] of the parsed body. *)
Definition field (k : string) (body : JsVal) : JsVal :=
  match body with
  | JObj fs => lookup k fs
  | _ => JUndefined
  end.

(** [v.k] for a property name no primitive wrapper defines ([productId],
    [quantity]): [None] is the TypeError of reading a property of
    [undefined] or [null]. *)
Definition get_prop (k : string) (v : JsVal) : option JsVal :=
  match v with
  | JUndefined | JNull => None
  | JObj fs => Some (lookup k fs)
  | _ => Some JUndefined
  end.

(** The elements [for (const item of v)] visits; [None] when [v] is not
    iterable.  A string iterates over its characters. *)
Fixpoint chars (s : string) : list JsVal :=
  match s with
  | EmptyString => []
  | String c rest => JStr (String c EmptyString) :: chars rest
  end.

Definition iterate (v : JsVal) : option (list JsVal) :=
  match v with
  | JArr xs => Some xs
  | JStr s => Some (chars s)
  | _ => None
  end.

(** Does some object inside [v], at any depth, have a property named [k]? *)
Fixpoint mentions (k : string) (v : JsVal) : bool :=
  match v with
  | JArr xs =>
      (fix any (l : list JsVal) : bool :=
         match l with
         | [] => false
         | x :: l' => mentions k x || any l'
         end) xs
  | JObj fs =>
      (fix any (l : list (string * JsVal)) : bool :=
         match l with
         | [] => false
         | (k', x) :: l' => String.eqb k k' || mentions k x || any l'
         end) fs
  | _ => false
  end.

(** ** Strings *)

Definition startsWith (s p : string) : bool := String.prefix p s.

(** [s.split(sep)] for a one-character separator. *)
Fixpoint split (sep : ascii) (s : string) : list string :=
  match s with
  | EmptyString => [EmptyString]
  | String c rest =>
      if Ascii.eqb c sep then EmptyString :: split sep rest
      else match split sep rest with
           | [] => [String c EmptyString]
           | h :: t => String c h :: t
           end
  end.

Fixpoint strip_prefix (p s : string) : option string :=
  match p, s with
  | EmptyString, _ => Some s
  | String a p', String b s' => if Ascii.eqb a b then strip_prefix p' s' else None
  | String _ _, EmptyString => None
  end.

(** The class [\w] of a JavaScript regular expression: [A-Za-z0-9_]. *)
Definition is_word (c : ascii) : bool :=
  let n := nat_of_ascii c in
  ((65 <=? n) && (n <=? 90) || (97 <=? n) && (n <=? 122)
   || (48 <=? n) && (n <=? 57) || (n =? 95))%nat.

Fixpoint skip_word (s : string) : string :=
  match s with
  | String c rest => if is_word c then skip_word rest else s
  | EmptyString => EmptyString
  end.

(** [s.replace(/^data:image\/\w+;base64,/, '')].  The character after the
    run of [\w] must be [;], which is not a word character, so the greedy
    run is the only way the expression can match. *)
Definition strip_data_uri (s : string) : string :=
  match strip_prefix "data:image/" s with
  | Some (String c rest) =>
      if is_word c then
        match strip_prefix ";base64," (skip_word rest) with
        | Some payload => payload
        | None => s
        end
      else s
  | _ => s
  end.

(** [s.split(';')[0].split('/')[1]]: [None] is [undefined]. *)
Definition media_subtype (s : string) : option string :=
  nth_error (split "/" (hd EmptyString (split ";" s))) 1.

(** [url.split('/').pop()] *)
Definition last_segment (url : string) : string :=
  last (split "/" url) EmptyString.

(** ** Responses, exceptions, libraries and the outside world *)

Record Response := { status : Z; body : JsVal }.

(** [res.status(code).json({ error: msg })] *)
Definition error_response (code : Z) (msg : string) : Response :=
  {| status := code; body := JObj [("error", JStr msg)] |}.

Definition ObjectId := string.

Inductive Exn : Type :=
| TypeError (what : string)
| CastError (path : string) (v : JsVal)
| ValidatorError (path : string)
| DuplicateKeyError (path : string)
| BcryptError
| S3Error (msg : string).

(** The library functions the handlers call.  [None] is a thrown error. *)
Record Platform := {
  (** [mongoose.Types.ObjectId.isValid] *)
  ObjectId_isValid : JsVal -> bool;
  (** Mongoose's cast to an ObjectId path, in documents and in [_id]
      conditions; [Some None] is a value cast to [null]. *)
  cast_ObjectId : JsVal -> option (option ObjectId);
  (** Mongoose's cast to a String path and to a Number path. *)
  cast_String : JsVal -> option string;
  cast_Number : JsVal -> option Q;
  (** The strings a condition [{ email: v }] selects. *)
  query_String : JsVal -> option (string -> bool);
  (** [parseFloat]; [None] is [NaN]. *)
  parseFloat : JsVal -> option Q;
  (** String interpolation [`${v}`]. *)
  ToString : JsVal -> string;
  (** [bcrypt.compare(data, hash)] *)
  bcrypt_compare : JsVal -> string -> option bool;
  (** [Buffer.from(s, 'base64').length] *)
  Buffer_base64_length : string -> Z;
  Date_toJSON : Z -> string;
  exn_message : Exn -> string
}.

(** The parameters of [s3.upload] that vary with the request ([Bucket] is
    read from the environment, [ACL] is ['public-read']).  [Body] is the
    base64 text the buffer was decoded from. *)
Record S3Params := {
  Key : string;
  Body : string;
  ContentType : string
}.

(** What the outside world answers during one request. *)
Record World := {
  Date_now : Z;
  (** the n-th identifier Mongoose generates *)
  new_ObjectId : nat -> ObjectId;
  (** [bcrypt.hash(data, saltRounds)] with the salt it draws *)
  bcrypt_hash : JsVal -> Z -> option string;
  (** [s3.upload(params).promise()]: the [Location] or the error message *)
  s3_upload : S3Params -> string + string;
  (** [s3.deleteObject({ Bucket, Key }).promise()]: did it succeed? *)
  s3_deleteObject : string -> bool
}.

(** ** Collections *)

(** [userSchema] and [adminSchema] declare the same five paths. *)
Record Account := {
  account_id : ObjectId;
  firstName : string;
  secondName : string;
  email : string;
  password : string;
  profilePicture : string
}.

Record ImageDoc := {
  image_id : ObjectId;
  url : string;
  image_name : string;
  price : Q;
  description : string
}.

(** A subdocument of [products].  Its [_id] is the one Mongoose generated,
    or the cast of the [_id] the caller put in the line item ([None] when
    that cast is [null]). *)
Record LineItem := {
  productId : ObjectId;
  quantity : Q;
  item_id : option ObjectId
}.

Record OrderDoc := {
  order_id : ObjectId;
  userId : ObjectId;
  products : list LineItem;
  order_name : string;
  address : string;
  paymentType : string;
  amount : Q;
  paymentStatus : string;
  createdAt : Z
}.

Record Db := {
  userModel : list Account;
  adminModel : list Account;
  Image : list ImageDoc;
  Order : list OrderDoc
}.

Definition set_userModel (l : list Account) (db : Db) : Db :=
  {| userModel := l; adminModel := adminModel db; Image := Image db; Order := Order db |}.
Definition set_adminModel (l : list Account) (db : Db) : Db :=
  {| userModel := userModel db; adminModel := l; Image := Image db; Order := Order db |}.
Definition set_Image (l : list ImageDoc) (db : Db) : Db :=
  {| userModel := userModel db; adminModel := adminModel db; Image := l; Order := Order db |}.
Definition set_Order (l : list OrderDoc) (db : Db) : Db :=
  {| userModel := userModel db; adminModel := adminModel db; Image := Image db; Order := l |}.

(** ** Documents as JSON *)

Definition account_json (a : Account) : JsVal :=
  JObj [("_id", JStr (account_id a));
        ("firstName", JStr (firstName a));
        ("secondName", JStr (secondName a));
        ("email", JStr (email a));
        ("password", JStr (password a));
        ("profilePicture", JStr (profilePicture a));
        ("__v", JNum 0)].

Definition image_json (i : ImageDoc) : JsVal :=
  JObj [("_id", JStr (image_id i));
        ("url", JStr (url i));
        ("name", JStr (image_name i));
        ("price", JNum (price i));
        ("description", JStr (description i));
        ("__v", JNum 0)].

(** A projection ['-k']: every path but [k]. *)
Definition select_minus (k : string) (doc : JsVal) : JsVal :=
  match doc with
  | JObj fs => JObj (filter (fun kv => negb (String.eqb (fst kv) k)) fs)
  | _ => doc
  end.

(** A projection ['k1 k2 ...']: [_id] and the listed paths. *)
Definition select_only (ks : list string) (doc : JsVal) : JsVal :=
  match doc with
  | JObj fs => JObj (filter (fun kv => existsb (String.eqb (fst kv)) ("_id" :: ks)) fs)
  | _ => doc
  end.

Section Documents.
Variable pf : Platform.

(** The [_id] of a subdocument: an identifier, or the [null] the caller
    gave. *)
Definition id_json (id : option ObjectId) : JsVal :=
  match id with Some i => JStr i | None => JNull end.

(** An order with [userId] and each [productId] rendered by [ref_user]
    and [ref_image]: the identifier itself, or what [populate] put in
    its place. *)
Definition line_item_json (ref_image : ObjectId -> JsVal) (l : LineItem) : JsVal :=
  JObj [("productId", ref_image (productId l));
        ("quantity", JNum (quantity l));
        ("_id", id_json (item_id l))].

Definition order_json (ref_user ref_image : ObjectId -> JsVal) (o : OrderDoc) : JsVal :=
  JObj [("_id", JStr (order_id o));
        ("userId", ref_user (userId o));
        ("products", JArr (map (line_item_json ref_image) (products o)));
        ("name", JStr (order_name o));
        ("address", JStr (address o));
        ("paymentType", JStr (paymentType o));
        ("amount", JNum (amount o));
        ("paymentStatus", JStr (paymentStatus o));
        ("createdAt", JStr (Date_toJSON pf (createdAt o)));
        ("__v", JNum 0)].
End Documents.

(** [populate(path, fields)]: the referenced document under the projection,
    [null] when it no longer exists. *)
Definition populate_user (fields : list string) (db : Db) (id : ObjectId) : JsVal :=
  match find (fun a => String.eqb (account_id a) id) (userModel db) with
  | Some a => select_only fields (account_json a)
  | None => JNull
  end.

Definition populate_image (fields : option (list string)) (db : Db) (id : ObjectId) : JsVal :=
  match find (fun i => String.eqb (image_id i) id) (Image db) with
  | Some i => match fields with
              | Some ks => select_only ks (image_json i)
              | None => image_json i
              end
  | None => JNull
  end.

(** ** The handler monad *)

Inductive Outcome (A : Type) : Type :=
| Next (a : A)
| Sent (r : Response)
| Thrown (e : Exn).
Arguments Next {A} a.
Arguments Sent {A} r.
Arguments Thrown {A} e.

Definition Handler (A : Type) : Type := Db -> Outcome A * Db.

Definition ret {A} (a : A) : Handler A := fun db => (Next a, db).

Definition bind {A B} (m : Handler A) (k : A -> Handler B) : Handler B :=
  fun db =>
    match m db with
    | (Next a, db') => k a db'
    | (Sent r, db') => (Sent r, db')
    | (Thrown e, db') => (Thrown e, db')
    end.

(** [return res.status(code).json(body)] *)
Definition reply {A} (code : Z) (b : JsVal) : Handler A :=
  fun db => (Sent {| status := code; body := b |}, db).

Definition throw {A} (e : Exn) : Handler A := fun db => (Thrown e, db).

Definition read {A} (q : Db -> A) : Handler A := fun db => (Next (q db), db).

Definition write (f : Db -> Db) : Handler unit := fun db => (Next tt, f db).

Declare Scope handler_scope.
Delimit Scope handler_scope with handler.
Notation "x <- m ;; k" := (bind m (fun x => k))
  (at level 61, m at next level, right associativity) : handler_scope.
Notation "m ;; k" := (bind m (fun _ => k))
  (at level 61, right associativity) : handler_scope.
Local Open Scope handler_scope.

(** [if (c) return res.status(code).json({ error: msg });] *)
Definition reject_if (c : bool) (code : Z) (msg : string) : Handler unit :=
  if c then reply code (JObj [("error", JStr msg)]) else ret tt.

(** A library call that may throw. *)
Definition attempt {A} (o : option A) (e : Exn) : Handler A :=
  match o with
  | Some a => ret a
  | None => throw e
  end.

(** A handler always ends by sending a response or by throwing. *)
Definition Route : Type := Handler Empty_set.

Section Run.
Variable pf : Platform.

(** [try { h } catch (err) { res.status(500).json({ error, details: err.message }) }] *)
Definition run (h : Route) (failure : string) (db : Db) : Response * Db :=
  match h db with
  | (Sent r, db') => (r, db')
  | (Thrown e, db') =>
      ({| status := 500;
          body := JObj [("error", JStr failure); ("details", JStr (exn_message pf e))] |},
       db')
  | (Next a, _) => match a with end
  end.
End Run.

(** ** Mongoose operations *)

Section Mongoose.
Variable pf : Platform.
Variable w : World.

(** [Model.findOne({ email: v })] *)
Definition findOne_email (coll : Db -> list Account) (v : JsVal)
  : Handler (option Account) :=
  sel <- attempt (query_String pf v) (CastError "email" v) ;;
  read (fun db => find (fun a => sel (email a)) (coll db)).

(** [Model.findById(v)] *)
Definition findById {D} (coll : Db -> list D) (id_of : D -> ObjectId) (v : JsVal)
  : Handler (option D) :=
  id <- attempt (cast_ObjectId pf v) (CastError "_id" v) ;;
  read (fun db =>
          match id with
          | Some i => find (fun d => String.eqb (id_of d) i) (coll db)
          | None => None
          end).

(** The identifiers of an [$in] list: the first element that does not
    cast, or the identifiers (an element cast to [null] selects nothing). *)
Fixpoint cast_ids (vs : list JsVal) : JsVal + list ObjectId :=
  match vs with
  | [] => inr []
  | v :: rest =>
      match cast_ObjectId pf v with
      | None => inl v
      | Some o =>
          match cast_ids rest with
          | inl bad => inl bad
          | inr ids => inr (match o with Some i => i :: ids | None => ids end)
          end
      end
  end.

(** [Image.find({ _id: { $in: vs } })] *)
Definition Image_find_in (vs : list JsVal) : Handler (list ImageDoc) :=
  match cast_ids vs with
  | inl bad => throw (CastError "_id" bad)
  | inr ids =>
      read (fun db => filter (fun i => existsb (String.eqb (image_id i)) ids) (Image db))
  end.

(** A String path with [required: true]. *)
Definition required_String (path : string) (v : JsVal) : Handler string :=
  s <- attempt (cast_String pf v) (CastError path v) ;;
  if String.eqb s "" then throw (ValidatorError path) else ret s.

(** An ObjectId path with [required: true]. *)
Definition required_ObjectId (path : string) (v : JsVal) : Handler ObjectId :=
  o <- attempt (cast_ObjectId pf v) (CastError path v) ;;
  attempt o (ValidatorError path).

(** [Model.create({ firstName, secondName, email, password, profilePicture })]
    on [userSchema] or [adminSchema]; [email] carries a unique index. *)
Definition Account_create (coll : Db -> list Account)
    (set : list Account -> Db -> Db)
    (first second mail : JsVal) (hashed picture : string) : Handler Account :=
  fn <- required_String "firstName" first ;;
  sn <- required_String "secondName" second ;;
  em <- required_String "email" mail ;;
  (if String.eqb hashed "" then throw (ValidatorError "password") else ret tt) ;;
  taken <- read (fun db => existsb (fun a => String.eqb (email a) em) (coll db)) ;;
  if taken : bool then throw (DuplicateKeyError "email")
  else
    let doc := {| account_id := new_ObjectId w 0;
                  firstName := fn; secondName := sn; email := em;
                  password := hashed; profilePicture := picture |} in
    write (fun db => set (coll db ++ [doc])%list db) ;;
    ret doc.

(** [new Image({ url, name, price, description }).save()] *)
Definition Image_save (location : string) (name : JsVal) (parsedPrice : Q)
    (descr : JsVal) : Handler ImageDoc :=
  (if String.eqb location "" then throw (ValidatorError "url") else ret tt) ;;
  nm <- required_String "name" name ;;
  (if Qltb parsedPrice 0 then throw (ValidatorError "price") else ret tt) ;;
  ds <- attempt (cast_String pf descr) (CastError "description" descr) ;;
  let doc := {| image_id := new_ObjectId w 0; url := location; image_name := nm;
                price := parsedPrice; description := ds |} in
  write (fun db => set_Image (Image db ++ [doc])%list db) ;;
  ret doc.

(** The [_id] path of a subdocument: generated when the line item has
    none, the cast of the caller's otherwise (a value that does not cast
    fails the validation of the order). *)
Definition cast_item_id (n : nat) (v : JsVal) : Handler (option ObjectId) :=
  match v with
  | JUndefined => ret (Some (new_ObjectId w (S n)))
  | _ => attempt (cast_ObjectId pf v) (CastError "products._id" v)
  end.

(** The subdocuments of [products]: [productId] required, [quantity]
    required with [min: 1], and [_id]; every other property is dropped. *)
Fixpoint cast_line_items (n : nat) (items : list JsVal) : Handler (list LineItem) :=
  match items with
  | [] => ret []
  | JObj fs :: rest =>
      pid <- required_ObjectId "products.productId" (lookup "productId" fs) ;;
      q <- attempt (cast_Number pf (lookup "quantity" fs))
             (CastError "products.quantity" (lookup "quantity" fs)) ;;
      (if Qltb q 1 then throw (ValidatorError "products.quantity") else ret tt) ;;
      id <- cast_item_id n (lookup "_id" fs) ;;
      tl <- cast_line_items (S n) rest ;;
      ret ({| productId := pid; quantity := q; item_id := id |} :: tl)
  | item :: _ => throw (CastError "products" item)
  end.

(** [Order.create({ userId, products, name, address, paymentType, amount })]:
    [paymentStatus] and [createdAt] are not among the properties passed,
    so the schema defaults ['pending'] and [Date.now] apply. *)
Definition Order_create (user items name addr payment total : JsVal)
  : Handler OrderDoc :=
  uid <- required_ObjectId "userId" user ;;
  lines <- match items with
           | JArr xs => cast_line_items 0 xs
           | _ => throw (CastError "products" items)
           end ;;
  nm <- required_String "name" name ;;
  ad <- required_String "address" addr ;;
  pt <- required_String "paymentType" payment ;;
  am <- attempt (cast_Number pf total) (CastError "amount" total) ;;
  let doc := {| order_id := new_ObjectId w 0; userId := uid; products := lines;
                order_name := nm; address := ad; paymentType := pt; amount := am;
                paymentStatus := "pending"; createdAt := Date_now w |} in
  write (fun db => set_Order (Order db ++ [doc])%list db) ;;
  ret doc.

(** [Image.findByIdAndDelete(v)] *)
Fixpoint remove_image (i : ObjectId) (l : list ImageDoc) : list ImageDoc :=
  match l with
  | [] => []
  | d :: rest => if String.eqb (image_id d) i then rest else d :: remove_image i rest
  end.

Definition Image_findByIdAndDelete (v : JsVal) : Handler unit :=
  id <- attempt (cast_ObjectId pf v) (CastError "_id" v) ;;
  match id with
  | Some i => write (fun db => set_Image (remove_image i (Image db)) db)
  | None => ret tt
  end.
End Mongoose.

(** ** The handlers *)

Section Handlers.
Variable pf : Platform.
Variable w : World.

(** [fileSize > limit] where [fileSize = length / 1024 / 1024]. *)
Definition exceeds_MB (length : Z) (limit : Q) : bool :=
  Qltb limit (inject_Z length / 1024 / 1024).

Definition type_json (t : option string) : JsVal :=
  match t with Some x => JStr x | None => JUndefined end.

(** *** POST /upload *)
Definition post_upload (body : JsVal) : Route :=
  let image := field "image" body in
  let name := field "name" body in
  let price := field "price" body in
  let descr := field "description" body in
  reject_if (negb (truthy image) || negb (truthy name)
             || match price with JUndefined => true | _ => false end)
    400 "Image, name, and price are required" ;;
  match parseFloat pf price with
  | None => reply 400 (JObj [("error", JStr "Price must be a positive number")])
  | Some parsedPrice =>
      reject_if (Qltb parsedPrice 0) 400 "Price must be a positive number" ;;
      match image with
      | JStr s =>
          let base64Data := strip_data_uri s in
          let type := type_json (media_subtype s) in
          reject_if (exceeds_MB (Buffer_base64_length pf base64Data) 5)
            413 "Image size exceeds 5MB limit" ;;
          let params :=
            {| Key := ToString pf (JNum (inject_Z (Date_now w))) ++ "."
                             ++ ToString pf type;
               Body := base64Data;
               ContentType := "image/" ++ ToString pf type |} in
          match s3_upload w params with
          | inr msg => throw (S3Error msg)
          | inl location =>
              Image_save pf w location name parsedPrice
                (if truthy descr then descr else JStr "") ;;
              reply 200 (JObj [("url", JStr location)])
          end
      | _ => throw (TypeError "image.replace is not a function")
      end
  end.

(** *** GET /images *)
Definition get_images : Route :=
  images <- read Image ;;
  reply 200 (JArr (map image_json images)).

(** *** POST /cart-items *)
Definition post_cart_items (body : JsVal) : Route :=
  match field "ids" body with
  | JArr ids =>
      images <- Image_find_in pf ids ;;
      reply 200 (JArr (map image_json images))
  | _ => reply 400 (JObj [("error", JStr "IDs must be an array")])
  end.

(** *** DELETE /delete-image/:id
    A failure of [s3.deleteObject] is caught and logged inside the handler:
    both outcomes go on to delete the record. *)
Definition delete_image (id : string) : Route :=
  reject_if (negb (ObjectId_isValid pf (JStr id))) 400 "Invalid image ID" ;;
  image <- findById pf Image image_id (JStr id) ;;
  match image with
  | None => reply 404 (JObj [("error", JStr "Image not found")])
  | Some i =>
      let key := last_segment (url i) in
      (if s3_deleteObject w key then ret tt else ret tt) ;;
      Image_findByIdAndDelete pf (JStr id) ;;
      reply 200 (JObj [("message", JStr "Product deleted successfully")])
  end.

(** The [if (profilePicture) { ... }] block of both registrations: the
    value stored as [profilePicData]. *)
Definition profile_picture_data (picture : JsVal) : Handler string :=
  if truthy picture then
    match picture with
    | JStr s =>
        reject_if (negb (startsWith s "data:image/")) 400 "Invalid base64 image format" ;;
        let base64Data := strip_data_uri s in
        let type := media_subtype s in
        reject_if (negb (match type with
                         | Some t => existsb (String.eqb t) ["jpeg"; "jpg"; "png"]
                         | None => false
                         end))
          400 "Invalid image format. Use JPEG or PNG" ;;
        reject_if (exceeds_MB (Buffer_base64_length pf base64Data) 1)
          413 "Profile picture size exceeds 1MB limit" ;;
        ret s
    | _ => throw (TypeError "profilePicture.startsWith is not a function")
    end
  else ret "".

(** *** POST /create-admins and POST /create-users
    The two handlers are the same text over [adminModel] and [userModel],
    with ['Admin'] / [admin] and ['User'] / [user] in the response. *)
Definition register (coll : Db -> list Account) (set : list Account -> Db -> Db)
    (label key : string) (body : JsVal) : Route :=
  let first := field "firstName" body in
  let second := field "secondName" body in
  let mail := field "email" body in
  let pass := field "password" body in
  let picture := field "profilePicture" body in
  reject_if (negb (truthy first) || negb (truthy second)
             || negb (truthy mail) || negb (truthy pass))
    400 "All fields are required" ;;
  existing <- findOne_email pf coll mail ;;
  reject_if (match existing with Some _ => true | None => false end)
    400 "Email already registered" ;;
  profilePicData <- profile_picture_data picture ;;
  hashedPassword <- attempt (bcrypt_hash w pass 10) BcryptError ;;
  Account_create pf w coll set first second mail hashedPassword profilePicData ;;
  reply 201
    (JObj [("message", JStr (label ++ " registered successfully"));
           (key, JObj [("firstName", first); ("email", mail);
                       ("profilePicture", JStr profilePicData)])]).

Definition post_create_admins : JsVal -> Route :=
  register adminModel set_adminModel "Admin" "admin".

Definition post_create_users : JsVal -> Route :=
  register userModel set_userModel "User" "user".

(** *** POST /admin-login and POST /user-login
    The same text but for the collection and the summary returned. *)
Definition login (coll : Db -> list Account) (key : string)
    (summary : Account -> JsVal) (body : JsVal) : Route :=
  let mail := field "email" body in
  let pass := field "password" body in
  reject_if (negb (truthy mail) || negb (truthy pass))
    400 "Email and password are required" ;;
  found <- findOne_email pf coll mail ;;
  match found with
  | None => reply 401 (JObj [("error", JStr "Invalid email or password")])
  | Some account =>
      isMatch <- attempt (bcrypt_compare pf pass (password account)) BcryptError ;;
      if isMatch : bool then
        reply 200 (JObj [("message", JStr "Login successful"); (key, summary account)])
      else reply 401 (JObj [("error", JStr "Invalid email or password")])
  end.

Definition admin_summary (a : Account) : JsVal :=
  JObj [("firstName", JStr (firstName a)); ("email", JStr (email a));
        ("profilePicture", JStr (profilePicture a))].

Definition user_summary (a : Account) : JsVal :=
  JObj [("_id", JStr (account_id a)); ("firstName", JStr (firstName a));
        ("secondName", JStr (secondName a)); ("email", JStr (email a));
        ("profilePicture", JStr (profilePicture a))].

Definition post_admin_login : JsVal -> Route := login adminModel "admin" admin_summary.
Definition post_user_login : JsVal -> Route := login userModel "user" user_summary.

(** *** GET /admin/profile *)
Definition get_admin_profile (query : JsVal) : Route :=
  let mail := field "email" query in
  reject_if (negb (truthy mail)) 400 "Email is required" ;;
  admin <- findOne_email pf adminModel mail ;;
  match admin with
  | None => reply 404 (JObj [("error", JStr "Admin not found")])
  | Some a => reply 200 (JObj [("admin", select_minus "password" (account_json a))])
  end.

(** *** GET /admin/admins and GET /admin/users *)
Definition get_admin_admins : Route :=
  admins <- read adminModel ;;
  reply 200 (JArr (map (fun a => select_minus "password" (account_json a)) admins)).

Definition get_admin_users : Route :=
  users <- read userModel ;;
  reply 200 (JArr (map (fun a => select_minus "password" (account_json a)) users)).

(** *** POST /create-order *)

(** [v < q], reached only after [Number.isInteger(v)]. *)
Definition number_lt (v : JsVal) (q : Q) : bool :=
  match v with JNum x => Qltb x q | _ => false end.

(** The [for (const item of products)] loop. *)
Fixpoint check_items (items : list JsVal) : Handler unit :=
  match items with
  | [] => ret tt
  | item :: rest =>
      pid <- attempt (get_prop "productId" item)
               (TypeError "Cannot read properties of null (reading 'productId')") ;;
      reject_if (negb (ObjectId_isValid pf pid))
        400 ("Invalid product ID: " ++ ToString pf pid) ;;
      qty <- attempt (get_prop "quantity" item)
               (TypeError "Cannot read properties of null (reading 'quantity')") ;;
      reject_if (negb (Number_isInteger qty) || number_lt qty 1)
        400 ("Invalid quantity for product " ++ ToString pf pid) ;;
      check_items rest
  end.

(** [products.map(p => p.productId)] *)
Fixpoint map_productId (items : list JsVal) : option (list JsVal) :=
  match items with
  | [] => Some []
  | item :: rest =>
      match get_prop "productId" item, map_productId rest with
      | Some pid, Some pids => Some (pid :: pids)
      | _, _ => None
      end
  end.

Definition products_map_productId (items : JsVal) : Handler (list JsVal) :=
  match items with
  | JArr xs =>
      attempt (map_productId xs)
        (TypeError "Cannot read properties of null (reading 'productId')")
  | _ => throw (TypeError "products.map is not a function")
  end.

Definition post_create_order (body : JsVal) : Route :=
  let user := field "userId" body in
  let items := field "products" body in
  let name := field "name" body in
  let addr := field "address" body in
  let payment := field "paymentType" body in
  let total := field "amount" body in
  reject_if (negb (truthy user) || negb (truthy items) || negb (truthy name)
             || negb (truthy addr) || negb (truthy payment) || negb (truthy total))
    400 "All fields are required" ;;
  reject_if (negb (ObjectId_isValid pf user)) 400 "Invalid user ID" ;;
  each <- attempt (iterate items) (TypeError "products is not iterable") ;;
  check_items each ;;
  found <- findById pf userModel account_id user ;;
  reject_if (match found with None => true | Some _ => false end)
    404 "User not found" ;;
  productIds <- products_map_productId items ;;
  foundProducts <- Image_find_in pf productIds ;;
  reject_if (negb (Nat.eqb (List.length foundProducts) (List.length productIds)))
    404 "One or more products not found" ;;
  order <- Order_create pf w user items name addr payment total ;;
  reply 201 (JObj [("order", order_json pf JStr JStr order)]).

(** *** GET /orders *)
Definition get_orders : Route :=
  db <- read (fun db => db) ;;
  reply 200
    (JArr (map (order_json pf
                  (populate_user ["firstName"; "secondName"; "email"] db)
                  (populate_image (Some ["name"; "price"]) db))
             (Order db))).

(** *** GET /order/:id *)
Definition get_order (id : string) : Route :=
  reject_if (negb (ObjectId_isValid pf (JStr id))) 400 "Invalid order ID" ;;
  order <- findById pf Order order_id (JStr id) ;;
  match order with
  | None => reply 404 (JObj [("error", JStr "Order not found")])
  | Some o =>
      db <- read (fun db => db) ;;
      reply 200 (JObj [("order", order_json pf JStr (populate_image None db) o)])
  end.

(** *** The application *)

Inductive Request : Type :=
| POST_upload (body : JsVal)
| GET_images
| POST_cart_items (body : JsVal)
| DELETE_delete_image (id : string)
| POST_create_admins (body : JsVal)
| POST_admin_login (body : JsVal)
| GET_admin_profile (query : JsVal)
| GET_admin_admins
| POST_create_users (body : JsVal)
| POST_user_login (body : JsVal)
| POST_create_order (body : JsVal)
| GET_orders
| GET_order (id : string)
| GET_admin_users.

Definition app (req : Request) (db : Db) : Response * Db :=
  match req with
  | POST_upload b => run pf (post_upload b) "Upload failed" db
  | GET_images => run pf get_images "Fetch failed" db
  | POST_cart_items b => run pf (post_cart_items b) "Fetch failed" db
  | DELETE_delete_image id => run pf (delete_image id) "Delete failed" db
  | POST_create_admins b => run pf (post_create_admins b) "Registration failed" db
  | POST_admin_login b => run pf (post_admin_login b) "Login failed" db
  | GET_admin_profile q => run pf (get_admin_profile q) "Failed to fetch profile" db
  | GET_admin_admins => run pf get_admin_admins "Fetch failed" db
  | POST_create_users b => run pf (post_create_users b) "Registration failed" db
  | POST_user_login b => run pf (post_user_login b) "Login failed" db
  | POST_create_order b => run pf (post_create_order b) "Order creation failed" db
  | GET_orders => run pf get_orders "Fetch failed" db
  | GET_order id => run pf (get_order id) "Fetch failed" db
  | GET_admin_users => run pf get_admin_users "Fetch failed" db
  end.
End Handlers.

(** ** A sample platform

    The examples below run the handlers on this platform.  It reads
    identifiers as Mongoose does the ones the examples use (24 hexadecimal
    digits, compared in lower case), casts strings and integers, and puts a
    transparent stand-in in the place of bcrypt: [compare] accepts exactly
    what [hash] produced.  Numbers that are not integers have no decimal
    printer here; no example prints one. *)
Module Sample.

Definition is_hex (c : ascii) : bool :=
  let n := nat_of_ascii c in
  ((48 <=? n) && (n <=? 57) || (97 <=? n) && (n <=? 102)
   || (65 <=? n) && (n <=? 70))%nat.

Fixpoint all_hex (s : string) : bool :=
  match s with
  | EmptyString => true
  | String c rest => is_hex c && all_hex rest
  end.

Definition hex24 (s : string) : bool :=
  Nat.eqb (String.length s) 24 && all_hex s.

Fixpoint lowercase (s : string) : string :=
  match s with
  | EmptyString => EmptyString
  | String c rest =>
      let n := nat_of_ascii c in
      String (if ((65 <=? n) && (n <=? 90))%nat then ascii_of_nat (n + 32) else c)
        (lowercase rest)
  end.

Definition decimal (z : Z) : string := NilZero.string_of_int (Z.to_int z).

Definition integral (q : Q) : option Z :=
  if Z.eqb (Z.modulo (Qnum q) (Zpos (Qden q))) 0
  then Some (Z.div (Qnum q) (Zpos (Qden q)))
  else None.

Definition isValid (v : JsVal) : bool :=
  match v with JStr s => hex24 s | _ => false end.

Definition castObjectId (v : JsVal) : option (option ObjectId) :=
  match v with
  | JUndefined | JNull => Some None
  | JStr s => if hex24 s then Some (Some (lowercase s)) else None
  | _ => None
  end.

Definition castString (v : JsVal) : option string :=
  match v with
  | JStr s => Some s
  | JBool b => Some (if b then "true" else "false")
  | JNum q => option_map decimal (integral q)
  | JObj fs => match lookup "_id" fs with JStr i => Some i | _ => None end
  | _ => None
  end.

Definition castNumber (v : JsVal) : option Q :=
  match v with
  | JNum q => Some q
  | JBool b => Some (if b then 1 else 0)%Q
  | JStr s => option_map (fun i => inject_Z (Z.of_int i)) (NilZero.int_of_string s)
  | _ => None
  end.

Definition queryString (v : JsVal) : option (string -> bool) :=
  option_map String.eqb (castString v).

Definition parse_float (v : JsVal) : option Q :=
  match v with
  | JNum q => Some q
  | JStr s => option_map (fun i => inject_Z (Z.of_int i)) (NilZero.int_of_string s)
  | _ => None
  end.

Fixpoint to_string (v : JsVal) : string :=
  match v with
  | JUndefined => "undefined"
  | JNull => "null"
  | JBool b => if b then "true" else "false"
  | JNum q => match integral q with
              | Some z => decimal z
              | None => decimal (Qnum q) ++ "/" ++ decimal (Zpos (Qden q))
              end
  | JStr s => s
  | JArr xs =>
      (fix join (l : list JsVal) : string :=
         match l with
         | [] => ""
         | [x] => match x with JUndefined | JNull => "" | _ => to_string x end
         | x :: l' =>
             match x with JUndefined | JNull => "" | _ => to_string x end
             ++ "," ++ join l'
         end) xs
  | JObj _ => "[object Object]"
  end.

Definition compare (data : JsVal) (hash : string) : option bool :=
  match data with
  | JStr d => Some (String.eqb hash ("$2b$10$" ++ d))
  | _ => None
  end.

Fixpoint before_padding (s : string) : nat :=
  match s with
  | EmptyString => 0
  | String c rest => if Ascii.eqb c "=" then 0 else S (before_padding rest)
  end.

Definition base64_length (s : string) : Z :=
  3 * Z.of_nat (before_padding s) / 4.

Definition message (e : Exn) : string :=
  match e with
  | TypeError what => what
  | CastError path v => "Cast failed for value " ++ to_string v ++ " at path " ++ path
  | ValidatorError path => "Path " ++ path ++ " is required."
  | DuplicateKeyError path => "E11000 duplicate key error: " ++ path
  | BcryptError => "data and hash must be strings"
  | S3Error msg => msg
  end.

Definition platform : Platform :=
  {| ObjectId_isValid := isValid;
     cast_ObjectId := castObjectId;
     cast_String := castString;
     cast_Number := castNumber;
     query_String := queryString;
     parseFloat := parse_float;
     ToString := to_string;
     bcrypt_compare := compare;
     Buffer_base64_length := base64_length;
     Date_toJSON := decimal;
     exn_message := message |}.

(** The same platform over a decoder that answers [n] bytes. *)
Definition platform_decoding (n : Z) : Platform :=
  {| ObjectId_isValid := isValid;
     cast_ObjectId := castObjectId;
     cast_String := castString;
     cast_Number := castNumber;
     query_String := queryString;
     parseFloat := parse_float;
     ToString := to_string;
     bcrypt_compare := compare;
     Buffer_base64_length := fun _ => n;
     Date_toJSON := decimal;
     exn_message := message |}.

Definition pad3 (s : string) : string :=
  match String.length s with
  | 1%nat => "00" ++ s
  | 2%nat => "0" ++ s
  | _ => s
  end.

Definition world : World :=
  {| Date_now := 1700000000000;
     new_ObjectId := fun n =>
       "6553f1000000000000000" ++ pad3 (NilZero.string_of_uint (Nat.to_uint n));
     bcrypt_hash := fun data _ =>
       match data with JStr d => Some ("$2b$10$" ++ d) | _ => None end;
     s3_upload := fun params =>
       inl ("https://shop.s3.eu-north-1.amazonaws.com/" ++ Key params);
     s3_deleteObject := fun _ => true |}.

Definition alice : Account :=
  {| account_id := "64b000000000000000000001";
     firstName := "Alice"; secondName := "Martin"; email := "alice@example.com";
     password := "$2b$10$correct horse"; profilePicture := "" |}.

Definition mug : ImageDoc :=
  {| image_id := "64c0000000000000000000a1";
     url := "https://shop.s3.eu-north-1.amazonaws.com/1699999999999.png";
     image_name := "Mug"; price := 12; description := "" |}.

Definition db : Db :=
  {| userModel := [alice]; adminModel := [alice]; Image := [mug]; Order := [] |}.

Definition line (product : string) (qty : Q) : JsVal :=
  JObj [("productId", JStr product); ("quantity", JNum qty)].

(** An order for [items], with every other property in place. *)
Definition order_body (items total : JsVal) : JsVal :=
  JObj [("userId", JStr "64b000000000000000000001");
        ("products", items);
        ("name", JStr "Alice Martin");
        ("address", JStr "1 Main Street");
        ("paymentType", JStr "card");
        ("amount", total)].

End Sample.

(** ** The vocabulary of the properties *)

(** [hoare h db N S T]: run from [db], the computation [h] either goes on
    with a value and a database satisfying [N], or has sent a response
    satisfying [S], or has thrown an exception satisfying [T]. *)
Definition hoare {A} (h : Handler A) (db : Db)
    (N : A -> Db -> Prop) (S : Response -> Db -> Prop) (T : Exn -> Db -> Prop) : Prop :=
  match h db with
  | (Next a, d) => N a d
  | (Sent r, d) => S r d
  | (Thrown e, d) => T e d
  end.

(** Mongoose selects by equality when the condition on a String path is a
    string. *)
Definition exact_match (pf : Platform) : Prop :=
  forall s, query_String pf (JStr s) = Some (String.eqb s).

Section Checks.
Variable pf : Platform.
Variable db : Db.

(** The checks of the order workflow, as the payload meets them. *)
Definition required_present (body : JsVal) : Prop :=
  truthy (field "userId" body) = true /\ truthy (field "products" body) = true
  /\ truthy (field "name" body) = true /\ truthy (field "address" body) = true
  /\ truthy (field "paymentType" body) = true /\ truthy (field "amount" body) = true.

Definition item_ok (item : JsVal) : Prop :=
  exists pid qty,
    get_prop "productId" item = Some pid /\ ObjectId_isValid pf pid = true
    /\ get_prop "quantity" item = Some qty
    /\ Number_isInteger qty = true /\ number_lt qty 1 = false.

Definition resolves_user (v : JsVal) : Prop :=
  exists u, In u (userModel db) /\ cast_ObjectId pf v = Some (Some (account_id u)).

Definition resolves_image (v : JsVal) : Prop :=
  exists i, In i (Image db) /\ cast_ObjectId pf v = Some (Some (image_id i)).

Definition item_resolves (item : JsVal) : Prop :=
  exists pid, get_prop "productId" item = Some pid /\ resolves_image pid.

Definition passes_checks (body : JsVal) : Prop :=
  required_present body
  /\ ObjectId_isValid pf (field "userId" body) = true
  /\ resolves_user (field "userId" body)
  /\ exists items, field "products" body = JArr items
                   /\ Forall item_ok items /\ Forall item_resolves items.

(** What the handler itself establishes before [Order.create]: the product
    check is the comparison of two lengths. *)
Definition counted (body : JsVal) : Prop :=
  required_present body
  /\ ObjectId_isValid pf (field "userId" body) = true
  /\ resolves_user (field "userId" body)
  /\ exists items pids ids,
       field "products" body = JArr items /\ Forall item_ok items
       /\ map_productId items = Some pids /\ cast_ids pf pids = inr ids
       /\ List.length (filter (fun i => existsb (String.eqb (image_id i)) ids) (Image db))
          = List.length pids.
End Checks.

(** The request a registration of an admin or of a user is. *)
Definition registration (admin : bool) (body : JsVal) : Request :=
  if admin then POST_create_admins body else POST_create_users body.

Definition login_request (admin : bool) (body : JsVal) : Request :=
  if admin then POST_admin_login body else POST_user_login body.

Definition accounts (admin : bool) : Db -> list Account :=
  if admin then adminModel else userModel.

(** The registration of [b] gets as far as the size of its picture [s]. *)
Definition picture_checked (pf : Platform) (db : Db) (admin : bool) (b : JsVal)
    (s : string) : Prop :=
  truthy (field "firstName" b) = true /\ truthy (field "secondName" b) = true
  /\ truthy (field "email" b) = true /\ truthy (field "password" b) = true
  /\ (exists sel, query_String pf (field "email" b) = Some sel
                  /\ find (fun a => sel (email a)) (accounts admin db) = None)
  /\ field "profilePicture" b = JStr s
  /\ startsWith s "data:image/" = true
  /\ exists t, media_subtype s = Some t
               /\ existsb (String.eqb t) ["jpeg"; "jpg"; "png"] = true.

(** The upload of [b] gets as far as the size of its image [s]. *)
Definition upload_checked (pf : Platform) (b : JsVal) (s : string) : Prop :=
  field "image" b = JStr s /\ s <> "" /\ truthy (field "name" b) = true
  /\ field "price" b <> JUndefined
  /\ exists p, parseFloat pf (field "price" b) = Some p /\ Qltb p 0 = false.

(** A computation none of whose responses has a property named [password]. *)
Definition discreet {A} (h : Handler A) : Prop :=
  forall db, hoare h db (fun _ _ => True)
               (fun r _ => mentions "password" (body r) = false) (fun _ _ => True).

(** A property of both kinds of account. *)
Definition forall_both (P : bool -> Prop) : Prop := P true /\ P false.

(** The values of the request a response repeats as they came. *)
Definition echoed (req : Request) : list JsVal :=
  match req with
  | POST_create_admins b | POST_create_users b => [field "firstName" b; field "email" b]
  | _ => []
  end.

(** [pf] with another reading of [ObjectId.isValid]. *)
Definition with_isValid (f : JsVal -> bool) (pf : Platform) : Platform :=
  {| ObjectId_isValid := f;
     cast_ObjectId := cast_ObjectId pf;
     cast_String := cast_String pf;
     cast_Number := cast_Number pf;
     query_String := query_String pf;
     parseFloat := parseFloat pf;
     ToString := ToString pf;
     bcrypt_compare := bcrypt_compare pf;
     Buffer_base64_length := Buffer_base64_length pf;
     Date_toJSON := Date_toJSON pf;
     exn_message := exn_message pf |}.

(** What one request can do to the database: nothing, or exactly one
    write, of one of four kinds. *)
Inductive effect (w : World) (db db' : Db) : Prop :=
| unchanged : db' = db -> effect w db db'
| image_added doc :
    db' = set_Image (Image db ++ [doc])%list db ->
    image_id doc = new_ObjectId w 0 -> effect w db db'
| image_removed i :
    db' = set_Image (remove_image i (Image db)) db -> effect w db db'
| account_added (admin : bool) a :
    db' = (if admin then set_adminModel else set_userModel)
            (accounts admin db ++ [a])%list db ->
    account_id a = new_ObjectId w 0 ->
    (forall x, In x (accounts admin db) -> email x <> email a) ->
    effect w db db'
| order_added o :
    db' = set_Order (Order db ++ [o])%list db ->
    order_id o = new_ObjectId w 0 -> effect w db db'.

(** The requests whose handlers only read. *)
Definition read_only (req : Request) : bool :=
  match req with
  | POST_upload _ | DELETE_delete_image _ | POST_create_admins _
  | POST_create_users _ | POST_create_order _ => false
  | _ => true
  end.

(** A string of word characters, as [\w+] matches one. *)
Fixpoint all_word (s : string) : bool :=
  match s with
  | EmptyString => true
  | String c rest => is_word c && all_word rest
  end.

(** The line items stored for the items of a payload: each is the cast of
    its item, with a quantity of at least 1. *)
Definition stored_line (pf : Platform) (item : JsVal) (l : LineItem) : Prop :=
  exists fs, item = JObj fs
             /\ cast_ObjectId pf (lookup "productId" fs) = Some (Some (productId l))
             /\ cast_Number pf (lookup "quantity" fs) = Some (quantity l)
             /\ Qltb (quantity l) 1 = false.

(** The parameters [post_upload] passes to [s3.upload] for a data URI of
    subtype [t] and payload [payload]. *)
Definition upload_params (pf : Platform) (w : World) (t payload : string) : S3Params :=
  {| Key := ToString pf (JNum (inject_Z (Date_now w))) ++ "." ++ ToString pf (JStr t);
     Body := payload;
     ContentType := "image/" ++ ToString pf (JStr t) |}.

(** A world in which S3 refuses every upload. *)
Definition refusing_world : World :=
  {| Date_now := Date_now Sample.world;
     new_ObjectId := new_ObjectId Sample.world;
     bcrypt_hash := bcrypt_hash Sample.world;
     s3_upload := fun _ => inr "AccessDenied";
     s3_deleteObject := fun _ => false |}.

(** [Sample.platform] over a decoder that finds [k] bytes more than
    [Sample.base64_length] counts: with it a short text stands for one that
    decodes to [k] more bytes. *)
Definition platform_longer (k : Z) : Platform :=
  {| ObjectId_isValid := ObjectId_isValid Sample.platform;
     cast_ObjectId := cast_ObjectId Sample.platform;
     cast_String := cast_String Sample.platform;
     cast_Number := cast_Number Sample.platform;
     query_String := query_String Sample.platform;
     parseFloat := parseFloat Sample.platform;
     ToString := ToString Sample.platform;
     bcrypt_compare := bcrypt_compare Sample.platform;
     Buffer_base64_length := fun s => k + Sample.base64_length s;
     Date_toJSON := Date_toJSON Sample.platform;
     exn_message := exn_message Sample.platform |}.

(** A line item the Order schema can cast, with the identifier its
    [productId] casts to: an object whose quantity casts to a number of at
    least 1 and whose [_id], if it has one, casts. *)
Definition castable_line (pf : Platform) (item : JsVal) (i : ObjectId) : Prop :=
  exists fs q, item = JObj fs
               /\ cast_ObjectId pf (lookup "productId" fs) = Some (Some i)
               /\ cast_Number pf (lookup "quantity" fs) = Some q
               /\ Qltb q 1 = false
               /\ (lookup "_id" fs = JUndefined
                   \/ cast_ObjectId pf (lookup "_id" fs) <> None).

(** The [_id] of the line item stored for the [m]-th item of a payload:
    the caller's, cast, when the item has one, and the identifier Mongoose
    generates for that subdocument otherwise. *)
Definition kept_id (pf : Platform) (w : World) (m : nat) (item : JsVal) (l : LineItem)
  : Prop :=
  exists fs, item = JObj fs
             /\ (lookup "_id" fs = JUndefined /\ item_id l = Some (new_ObjectId w (S m))
                 \/ lookup "_id" fs <> JUndefined
                    /\ cast_ObjectId pf (lookup "_id" fs) = Some (item_id l)).

(** * Properties *)

(** ** Reasoning about handlers *)

Section Hoare.
Context {A : Type}.
Implicit Types (N : A -> Db -> Prop) (S : Response -> Db -> Prop) (T : Exn -> Db -> Prop).

Lemma hoare_ret a db N S T : N a db -> hoare (ret a) db N S T.
Proof. exact (fun H => H). Qed.

Lemma hoare_reply code b db N S T :
  S {| status := code; body := b |} db -> hoare (reply code b) db N S T.
Proof. exact (fun H => H). Qed.

Lemma hoare_throw e db N S T : T e db -> hoare (throw e) db N S T.
Proof. exact (fun H => H). Qed.

Lemma hoare_read (q : Db -> A) db N S T : N (q db) db -> hoare (read q) db N S T.
Proof. exact (fun H => H). Qed.

Lemma hoare_attempt (o : option A) e db N S T :
  (forall a, o = Some a -> N a db) -> (o = None -> T e db) ->
  hoare (attempt o e) db N S T.
Proof. destruct o; cbn; auto. Qed.

Lemma hoare_conseq h db N S T (N' : A -> Db -> Prop) (S' : Response -> Db -> Prop)
    (T' : Exn -> Db -> Prop) :
  hoare h db N S T ->
  (forall a d, N a d -> N' a d) -> (forall r d, S r d -> S' r d) ->
  (forall e d, T e d -> T' e d) ->
  hoare h db N' S' T'.
Proof. unfold hoare. destruct (h db) as [[a | r | e] d]; auto. Qed.
End Hoare.

Lemma hoare_bind {A B} (m : Handler A) (k : A -> Handler B) db
    (N : B -> Db -> Prop) (S : Response -> Db -> Prop) (T : Exn -> Db -> Prop) :
  hoare m db (fun a d => hoare (k a) d N S T) S T -> hoare (bind m k) db N S T.
Proof. unfold hoare, bind. destruct (m db) as [[a | r | e] d]; auto. Qed.

Lemma hoare_write (f : Db -> Db) db N S T : N tt (f db) -> hoare (write f) db N S T.
Proof. exact (fun H => H). Qed.

Lemma hoare_reject_if (c : bool) code msg db N S T :
  (c = true -> S (error_response code msg) db) -> (c = false -> N tt db) ->
  hoare (reject_if c code msg) db N S T.
Proof. destruct c; cbn; auto. Qed.

(** What [run] answers, from what the route does. *)
Lemma hoare_run pf (h : Route) failure db (P : Response -> Db -> Prop) :
  hoare h db (fun _ _ => False) P
    (fun e d => P {| status := 500;
                     body := JObj [("error", JStr failure);
                                   ("details", JStr (exn_message pf e))] |} d) ->
  P (fst (run pf h failure db)) (snd (run pf h failure db)).
Proof.
  unfold hoare, run. destruct (h db) as [[a | r | e] d]; cbn; auto.
  intros [].
Qed.

Ltac hoare_step :=
  cbv beta;
  lazymatch goal with
  | |- hoare (bind _ _) _ _ _ _ => apply hoare_bind
  | |- hoare (reject_if _ _ _) _ _ _ _ => apply hoare_reject_if; intros
  | |- hoare (attempt _ _) _ _ _ _ => apply hoare_attempt; intros
  | |- hoare (ret _) _ _ _ _ => apply hoare_ret
  | |- hoare (reply _ _) _ _ _ _ => apply hoare_reply
  | |- hoare (throw _) _ _ _ _ => apply hoare_throw
  | |- hoare (read _) _ _ _ _ => apply hoare_read
  | |- hoare (write _) _ _ _ _ => apply hoare_write
  | |- hoare (if ?c then _ else _) _ _ _ _ => destruct c eqn:?
  | |- hoare (match ?x with _ => _ end) _ _ _ _ => destruct x eqn:?
  end.

(** The Mongoose reads. *)

Lemma findOne_email_spec pf coll v db :
  hoare (findOne_email pf coll v) db
    (fun r d => d = db /\ exists sel, query_String pf v = Some sel
                                      /\ r = find (fun a => sel (email a)) (coll db))
    (fun _ _ => False) (fun _ d => d = db).
Proof.
  unfold findOne_email. repeat hoare_step; cbn; eauto.
Qed.

Lemma findById_spec pf {D} (coll : Db -> list D) id_of v db :
  hoare (findById pf coll id_of v) db
    (fun r d => d = db /\ forall x, r = Some x ->
                  In x (coll db) /\ cast_ObjectId pf v = Some (Some (id_of x)))
    (fun _ _ => False) (fun _ d => d = db).
Proof.
  unfold findById. repeat hoare_step; cbn; auto.
  split; [reflexivity | intros x Hx].
  destruct a as [i | ]; [ | discriminate].
  apply find_some in Hx. destruct Hx as [Hin Heq].
  apply String.eqb_eq in Heq. subst i. auto.
Qed.

Lemma Image_find_in_spec pf vs db :
  hoare (Image_find_in pf vs) db
    (fun found d => d = db /\ exists ids, cast_ids pf vs = inr ids
       /\ found = filter (fun i => existsb (String.eqb (image_id i)) ids) (Image db))
    (fun _ _ => False) (fun _ d => d = db).
Proof.
  unfold Image_find_in. repeat hoare_step; cbn; eauto.
Qed.

(** ** The order workflow *)

Section OrderWorkflow.
Variable pf : Platform.
Variable w : World.

Lemma check_items_spec items db :
  hoare (check_items pf items) db
    (fun _ d => d = db /\ Forall (item_ok pf) items)
    (fun r d => d = db /\ status r = 400) (fun _ d => d = db).
Proof.
  induction items as [ | item rest IH]; cbn [check_items].
  - apply hoare_ret. auto.
  - repeat hoare_step; cbn; auto.
    eapply hoare_conseq; [apply IH | | | ]; cbn; auto.
    intros _ d [-> Hrest]. split; [reflexivity | ].
    constructor; [ | exact Hrest].
    exists a, a0. apply negb_false_iff in H0. apply orb_false_iff in H2.
    destruct H2 as [Hint Hlt]. apply negb_false_iff in Hint. auto.
Qed.

Lemma products_map_productId_spec items db :
  hoare (products_map_productId items) db
    (fun pids d => d = db /\ exists xs, items = JArr xs /\ map_productId xs = Some pids)
    (fun _ _ => False) (fun _ d => d = db).
Proof.
  unfold products_map_productId. repeat hoare_step; cbn; eauto.
Qed.

Lemma required_String_spec path v db :
  hoare (required_String pf path v) db
    (fun _ d => d = db) (fun _ _ => False) (fun _ d => d = db).
Proof. unfold required_String. repeat hoare_step; cbn; auto. Qed.

Lemma required_ObjectId_spec path v db :
  hoare (required_ObjectId pf path v) db
    (fun _ d => d = db) (fun _ _ => False) (fun _ d => d = db).
Proof. unfold required_ObjectId. repeat hoare_step; cbn; auto. Qed.

Lemma cast_item_id_spec n v db :
  hoare (cast_item_id pf w n v) db
    (fun id d => d = db
                 /\ (v = JUndefined /\ id = Some (new_ObjectId w (S n))
                     \/ v <> JUndefined /\ cast_ObjectId pf v = Some id))
    (fun _ _ => False) (fun _ d => d = db).
Proof.
  unfold cast_item_id.
  destruct v; repeat hoare_step; cbn; auto;
    (split; [reflexivity | right; split; [discriminate | assumption]]).
Qed.

Lemma cast_line_items_spec items : forall n db,
  hoare (cast_line_items pf w n items) db
    (fun ls d => d = db /\ List.length ls = List.length items)
    (fun _ _ => False) (fun _ d => d = db).
Proof.
  induction items as [ | item rest IH]; intros n db; cbn [cast_line_items].
  - apply hoare_ret. auto.
  - destruct item; try (apply hoare_throw; reflexivity).
    apply hoare_bind.
    eapply hoare_conseq; [apply required_ObjectId_spec | | | ]; cbn; auto.
    intros pid d ->.
    apply hoare_bind, hoare_attempt; [intros q Hq | reflexivity].
    apply hoare_bind.
    destruct (Qltb q 1); [apply hoare_throw; reflexivity | apply hoare_ret].
    apply hoare_bind.
    eapply hoare_conseq; [apply cast_item_id_spec | | | ]; cbn beta; auto.
    intros id d [-> _]. apply hoare_bind.
    eapply hoare_conseq; [apply IH | | | ]; cbn; auto.
    intros ls d [-> Hlen]. auto.
Qed.

(** [Order.create] either throws before writing or appends one order, stamped
    by the schema defaults. *)
Lemma Order_create_spec user items name addr payment total db :
  hoare (Order_create pf w user items name addr payment total) db
    (fun o d => d = set_Order (Order db ++ [o])%list db
                /\ paymentStatus o = "pending" /\ createdAt o = Date_now w
                /\ forall xs, items = JArr xs -> List.length (products o) = List.length xs)
    (fun _ _ => False) (fun _ d => d = db).
Proof.
  unfold Order_create.
  apply hoare_bind.
  eapply hoare_conseq; [apply required_ObjectId_spec | | | ]; cbn; auto.
  intros uid d ->. apply hoare_bind.
  apply hoare_conseq with
    (N := fun ls d => d = db /\ forall xs, items = JArr xs -> List.length ls = List.length xs)
    (S := fun _ _ => False) (T := fun _ d => d = db); auto.
  { destruct items; try (apply hoare_throw; reflexivity).
    eapply hoare_conseq; [apply cast_line_items_spec | | | ]; cbn; auto.
    intros ls d [-> Hlen]. split; [reflexivity | ]. intros ys [= <-]. exact Hlen. }
  cbn. intros ls d [-> Hlen].
  do 3 (apply hoare_bind;
        eapply hoare_conseq; [apply required_String_spec | | | ]; cbn; auto;
        intros ? ? ->).
  repeat hoare_step; cbn; auto.
Qed.

(** The route, step by step: a response other than 201 and every exception
    leave the database as it was; a 201 comes with one order appended, after
    every check of the handler has passed. *)
Lemma post_create_order_spec body db :
  hoare (post_create_order pf w body) db (fun _ _ => False)
    (fun r d =>
       (status r <> 201 /\ d = db)
       \/ (status r = 201 /\ counted pf db body
           /\ exists o, d = set_Order (Order db ++ [o])%list db
                        /\ paymentStatus o = "pending" /\ createdAt o = Date_now w
                        /\ forall xs, field "products" body = JArr xs ->
                                      List.length (products o) = List.length xs))
    (fun _ d => d = db).
Proof.
  unfold post_create_order.
  apply hoare_bind, hoare_reject_if; intros Hreq.
  { left. split; [discriminate | reflexivity]. }
  apply hoare_bind, hoare_reject_if; intros Hvalid.
  { left. split; [discriminate | reflexivity]. }
  apply hoare_bind, hoare_attempt; [intros each Heach | reflexivity].
  apply hoare_bind.
  eapply hoare_conseq; [apply check_items_spec | | | ]; cbn; auto.
  2:{ intros r d [-> Hr]. left. split; [rewrite Hr; discriminate | reflexivity]. }
  intros _ d [-> Hitems]. apply hoare_bind.
  eapply hoare_conseq; [apply findById_spec | | | ]; cbn; auto; [ | tauto].
  intros found d [-> Hfound]. apply hoare_bind, hoare_reject_if; intros Huser.
  { left. split; [discriminate | reflexivity]. }
  apply hoare_bind.
  eapply hoare_conseq; [apply products_map_productId_spec | | | ]; cbn; auto; [ | tauto].
  intros pids d [-> (xs & Hxs & Hpids)]. apply hoare_bind.
  eapply hoare_conseq; [apply Image_find_in_spec | | | ]; cbn; auto; [ | tauto].
  intros imgs d [-> (ids & Hids & Himgs)]. apply hoare_bind, hoare_reject_if; intros Hcount.
  { left. split; [discriminate | reflexivity]. }
  apply hoare_bind.
  eapply hoare_conseq; [apply Order_create_spec | | | ]; cbn; auto; [ | tauto].
  intros o d (-> & Hpending & Hstamp & Hlen). right.
  split; [reflexivity | ]. split.
  - repeat apply orb_false_iff in Hreq as [Hreq ?].
    repeat match goal with H : negb _ = false |- _ => apply negb_false_iff in H end.
    split; [unfold required_present; repeat split; assumption | ].
    split; [assumption | ].
    split.
    + destruct found as [u | ]; [ | discriminate].
      unfold resolves_user. exists u. apply Hfound. reflexivity.
    + exists xs, pids, ids. rewrite Hxs in Heach. cbn in Heach.
      injection Heach as <-. apply Nat.eqb_eq in Hcount. subst imgs. auto.
  - exists o. auto.
Qed.
End OrderWorkflow.

(** *** The product check counts

    [foundProducts.length !== productIds.length] compares the number of
    images found with the number of line items.  Identifiers of stored
    images are distinct, so the two agree only when the line items name
    distinct images that all exist. *)

Section Counting.
Variable pf : Platform.

Lemma cast_ids_length vs : forall ids,
  cast_ids pf vs = inr ids -> (List.length ids <= List.length vs)%nat.
Proof.
  induction vs as [ | v rest IH]; cbn; intros ids H.
  - injection H as <-. auto.
  - destruct (cast_ObjectId pf v) as [o | ]; [ | discriminate].
    destruct (cast_ids pf rest) as [bad | ids']; [discriminate | ].
    injection H as <-. specialize (IH ids' eq_refl).
    destruct o; cbn; lia.
Qed.

Lemma cast_ids_full vs : forall ids,
  cast_ids pf vs = inr ids -> List.length ids = List.length vs ->
  forall v, In v vs -> exists i, In i ids /\ cast_ObjectId pf v = Some (Some i).
Proof.
  induction vs as [ | v rest IH]; cbn; intros ids H Hlen x Hx; [contradiction | ].
  destruct (cast_ObjectId pf v) as [o | ] eqn:Hv; [ | discriminate].
  destruct (cast_ids pf rest) as [bad | ids'] eqn:Hrest; [discriminate | ].
  injection H as <-. pose proof (cast_ids_length rest ids' Hrest) as Hle.
  destruct o as [i | ]; cbn in Hlen; [ | lia].
  destruct Hx as [<- | Hx].
  - exists i. cbn. auto.
  - destruct (IH ids' eq_refl ltac:(lia) x Hx) as (j & Hj & Hc).
    exists j. cbn. auto.
Qed.

Lemma NoDup_map_filter {X Y} (f : X -> Y) (p : X -> bool) l :
  NoDup (map f l) -> NoDup (map f (filter p l)).
Proof.
  induction l as [ | x l IH]; cbn; intros H; [constructor | ].
  inversion H as [ | ? ? Hnotin Hrest]; subst.
  destruct (p x); cbn; auto.
  constructor; auto.
  intros Hin. apply Hnotin. apply in_map_iff in Hin.
  destruct Hin as (y & Hy & Hin). apply filter_In in Hin.
  apply in_map_iff. exists y. tauto.
Qed.

Lemma map_productId_In xs : forall pids,
  map_productId xs = Some pids ->
  forall item, In item xs ->
    exists pid, get_prop "productId" item = Some pid /\ In pid pids.
Proof.
  induction xs as [ | x rest IH]; cbn; intros pids H item Hin; [contradiction | ].
  destruct (get_prop "productId" x) as [pid | ] eqn:Hx; [ | discriminate].
  destruct (map_productId rest) as [pids' | ]; [ | discriminate].
  injection H as <-. destruct Hin as [<- | Hin].
  - exists pid. cbn. auto.
  - destruct (IH pids' eq_refl item Hin) as (q & Hq & Hq'). exists q. cbn. auto.
Qed.

Lemma found_all_resolve imgs pids ids :
  NoDup (map image_id imgs) ->
  cast_ids pf pids = inr ids ->
  List.length (filter (fun i => existsb (String.eqb (image_id i)) ids) imgs)
  = List.length pids ->
  forall v, In v pids ->
    exists i, In i imgs /\ cast_ObjectId pf v = Some (Some (image_id i)).
Proof.
  intros Hnd Hids Hcount v Hv.
  set (found := filter (fun i => existsb (String.eqb (image_id i)) ids) imgs) in *.
  assert (Hnd' : NoDup (map image_id found)) by (apply NoDup_map_filter, Hnd).
  assert (Hincl : incl (map image_id found) ids).
  { intros x Hx. apply in_map_iff in Hx. destruct Hx as (i & <- & Hi).
    apply filter_In in Hi. destruct Hi as [_ Hi].
    apply existsb_exists in Hi. destruct Hi as (y & Hy & Heq).
    apply String.eqb_eq in Heq. rewrite Heq. exact Hy. }
  pose proof (cast_ids_length pids ids Hids) as Hle.
  pose proof (NoDup_incl_length Hnd' Hincl) as Hle'.
  rewrite length_map in Hle'.
  assert (Hlen : List.length ids = List.length pids) by lia.
  destruct (cast_ids_full pids ids Hids Hlen v Hv) as (i & Hi & Hc).
  assert (Hback : incl ids (map image_id found)).
  { apply NoDup_length_incl; auto. rewrite length_map. lia. }
  apply Hback in Hi. apply in_map_iff in Hi. destruct Hi as (img & <- & Himg).
  apply filter_In in Himg. exists img. tauto.
Qed.

Lemma map_productId_nth xs : forall pids n item pid,
  map_productId xs = Some pids -> nth_error xs n = Some item ->
  get_prop "productId" item = Some pid -> nth_error pids n = Some pid.
Proof.
  induction xs as [ | x rest IH]; cbn; intros pids n item pid H Hn Hpid.
  - destruct n; discriminate.
  - destruct (get_prop "productId" x) as [q | ] eqn:Hx; [ | discriminate].
    destruct (map_productId rest) as [pids' | ]; [ | discriminate].
    injection H as <-. destruct n as [ | n]; cbn in *.
    + injection Hn as <-. congruence.
    + eapply IH; eauto.
Qed.

Lemma cast_ids_nth vs : forall ids n v i,
  cast_ids pf vs = inr ids -> List.length ids = List.length vs ->
  nth_error vs n = Some v -> cast_ObjectId pf v = Some (Some i) ->
  nth_error ids n = Some i.
Proof.
  induction vs as [ | x rest IH]; cbn; intros ids n v i H Hlen Hn Hv.
  - destruct n; discriminate.
  - destruct (cast_ObjectId pf x) as [o | ] eqn:Hx; [ | discriminate].
    destruct (cast_ids pf rest) as [bad | ids'] eqn:Hrest; [discriminate | ].
    injection H as <-. pose proof (cast_ids_length rest ids' Hrest) as Hle.
    destruct o as [j | ]; cbn in Hlen; [ | lia].
    destruct n as [ | n]; cbn in *.
    + injection Hn as <-. congruence.
    + apply (IH ids' n v i eq_refl); auto.
Qed.

(** The count agrees only when the identifiers asked for are distinct. *)
Lemma found_all_distinct imgs pids ids :
  NoDup (map image_id imgs) ->
  cast_ids pf pids = inr ids ->
  List.length (filter (fun i => existsb (String.eqb (image_id i)) ids) imgs)
  = List.length pids ->
  NoDup ids /\ List.length ids = List.length pids.
Proof.
  intros Hnd Hids Hcount.
  set (found := filter (fun i => existsb (String.eqb (image_id i)) ids) imgs) in *.
  assert (Hnd' : NoDup (map image_id found)) by (apply NoDup_map_filter, Hnd).
  assert (Hincl : incl (map image_id found) ids).
  { intros x Hx. apply in_map_iff in Hx. destruct Hx as (i & <- & Hi).
    apply filter_In in Hi. destruct Hi as [_ Hi].
    apply existsb_exists in Hi. destruct Hi as (y & Hy & Heq).
    apply String.eqb_eq in Heq. rewrite Heq. exact Hy. }
  pose proof (cast_ids_length pids ids Hids) as Hle.
  pose proof (NoDup_incl_length Hnd' Hincl) as Hle'.
  rewrite length_map in Hle'.
  split; [ | lia].
  apply (NoDup_incl_NoDup Hnd'); [rewrite length_map; lia | exact Hincl].
Qed.

(** With distinct image identifiers, what the handler counted is what the
    workflow asks for. *)
Lemma counted_passes_checks db body :
  NoDup (map image_id (Image db)) -> counted pf db body -> passes_checks pf db body.
Proof.
  intros Hnd (Hreq & Hvalid & Huser & items & pids & ids & Hitems & Hok & Hmap & Hids & Hcount).
  unfold passes_checks. do 3 (split; [assumption | ]).
  exists items. do 2 (split; [assumption | ]).
  apply Forall_forall. intros item Hin.
  destruct (map_productId_In items pids Hmap item Hin) as (pid & Hpid & Hpin).
  exists pid. split; [assumption | ].
  apply (found_all_resolve (Image db) pids ids); assumption.
Qed.
End Counting.

(** *** Running a handler forward *)

Lemma bind_next {A B} (m : Handler A) (k : A -> Handler B) db a d :
  m db = (Next a, d) -> bind m k db = k a d.
Proof. unfold bind. intros ->. reflexivity. Qed.

Lemma bind_sent {A B} (m : Handler A) (k : A -> Handler B) db r d :
  m db = (Sent r, d) -> bind m k db = (Sent r, d).
Proof. unfold bind. intros ->. reflexivity. Qed.

Lemma bind_thrown {A B} (m : Handler A) (k : A -> Handler B) db e d :
  m db = (Thrown e, d) -> bind m k db = (Thrown e, d).
Proof. unfold bind. intros ->. reflexivity. Qed.

Lemma reject_if_false c code msg db :
  c = false -> reject_if c code msg db = (Next tt, db).
Proof. intros ->. reflexivity. Qed.

Lemma reject_if_true c code msg db :
  c = true -> reject_if c code msg db = (Sent (error_response code msg), db).
Proof. intros ->. reflexivity. Qed.

Lemma filter_none {X} (l : list X) : filter (fun _ => false) l = [].
Proof. induction l; cbn; auto. Qed.

Lemma required_String_next pf path v s db :
  cast_String pf v = Some s -> s <> "" ->
  required_String pf path v db = (Next s, db).
Proof.
  intros Hc Hs. apply String.eqb_neq in Hs.
  unfold required_String, bind. rewrite Hc. cbn. rewrite Hs. reflexivity.
Qed.

Lemma required_ObjectId_next pf path v i db :
  cast_ObjectId pf v = Some (Some i) ->
  required_ObjectId pf path v db = (Next i, db).
Proof. intros Hc. unfold required_ObjectId, bind. rewrite Hc. reflexivity. Qed.

Lemma findById_next pf {D} (coll : Db -> list D) id_of v i db :
  cast_ObjectId pf v = Some (Some i) ->
  findById pf coll id_of v db
  = (Next (find (fun d => String.eqb (id_of d) i) (coll db)), db).
Proof. intros Hc. unfold findById, bind. rewrite Hc. reflexivity. Qed.

Lemma findOne_email_next pf coll v sel db :
  query_String pf v = Some sel ->
  findOne_email pf coll v db = (Next (find (fun a => sel (email a)) (coll db)), db).
Proof. intros Hq. unfold findOne_email, bind. rewrite Hq. reflexivity. Qed.

(** ** Order creation *)

Lemma run_post_create_order pf w body db :
  let res := app pf w (POST_create_order body) db in
  (status (fst res) <> 201 /\ snd res = db)
  \/ (status (fst res) = 201 /\ counted pf db body
      /\ exists o, snd res = set_Order (Order db ++ [o])%list db
                   /\ paymentStatus o = "pending" /\ createdAt o = Date_now w
                   /\ forall xs, field "products" body = JArr xs ->
                                 List.length (products o) = List.length xs).
Proof.
  cbv zeta. cbn [app].
  apply (hoare_run pf (post_create_order pf w body) "Order creation failed" db
           (fun r d =>
              (status r <> 201 /\ d = db)
              \/ (status r = 201 /\ counted pf db body
                  /\ exists o, d = set_Order (Order db ++ [o])%list db
                       /\ paymentStatus o = "pending" /\ createdAt o = Date_now w
                       /\ forall xs, field "products" body = JArr xs ->
                                     List.length (products o) = List.length xs))).
  eapply hoare_conseq; [apply post_create_order_spec | | | ]; cbn; auto.
  intros e d ->. left. split; [discriminate | reflexivity].
Qed.

(** Whatever the platform and the database, an order that names the same
    product in two line items is never stored. *)
Lemma repeated_product_is_never_stored pf w db b items m n item1 item2 v1 v2 id :
  NoDup (map image_id (Image db)) ->
  field "products" b = JArr items ->
  m <> n ->
  nth_error items m = Some item1 -> get_prop "productId" item1 = Some v1 ->
  nth_error items n = Some item2 -> get_prop "productId" item2 = Some v2 ->
  cast_ObjectId pf v1 = Some (Some id) -> cast_ObjectId pf v2 = Some (Some id) ->
  let res := app pf w (POST_create_order b) db in
  status (fst res) <> 201 /\ snd res = db.
Proof.
  intros Hnd Hitems Hmn Hm Hv1 Hn Hv2 Hc1 Hc2. cbv zeta.
  destruct (run_post_create_order pf w b db) as [H | (_ & Hcounted & _)];
    [exact H | exfalso].
  destruct Hcounted as (_ & _ & _ & xs & pids & ids & Hxs & _ & Hmap & Hids & Hcount).
  rewrite Hitems in Hxs. injection Hxs as <-.
  destruct (found_all_distinct pf (Image db) pids ids Hnd Hids Hcount) as [Hdistinct Hlen].
  pose proof (map_productId_nth items pids m item1 v1 Hmap Hm Hv1) as Hp1.
  pose proof (map_productId_nth items pids n item2 v2 Hmap Hn Hv2) as Hp2.
  pose proof (cast_ids_nth pf pids ids m v1 id Hids Hlen Hp1 Hc1) as Hi1.
  pose proof (cast_ids_nth pf pids ids n v2 id Hids Hlen Hp2 Hc2) as Hi2.
  apply Hmn. apply (proj1 (NoDup_nth_error ids) Hdistinct).
  - apply nth_error_Some. rewrite Hi1. discriminate.
  - congruence.
Qed.

(** C1 (the code departs from the specification).  Two line items for the same
    product: the user exists, the product exists, every identifier is valid
    and every check of the workflow passes, yet the handler answers 404 "One
    or more products not found" and stores nothing, because it compares the
    number of images found (1) with the number of line items (2), not with
    the number of distinct identifiers. *)
Theorem C1_repeated_product_is_reported_missing :
  let body := Sample.order_body
                (JArr [Sample.line "64c0000000000000000000a1" 1;
                       Sample.line "64c0000000000000000000a1" 2]) (JNum 24) in
  passes_checks Sample.platform Sample.db body
  /\ app Sample.platform Sample.world (POST_create_order body) Sample.db
     = (error_response 404 "One or more products not found", Sample.db).
Proof.
  cbv zeta. split; [ | vm_compute; reflexivity].
  split; [repeat split | ]. split; [reflexivity | ].
  split; [exists Sample.alice; split; [left | ]; reflexivity | ].
  eexists. split; [reflexivity | ].
  split; repeat constructor.
  - eexists _, _. repeat split.
  - eexists _, _. repeat split.
  - eexists. split; [reflexivity | ].
    exists Sample.mug. split; [left | ]; reflexivity.
  - eexists. split; [reflexivity | ].
    exists Sample.mug. split; [left | ]; reflexivity.
Qed.

(** C2.  Whenever order creation answers 201, exactly one order has been
    appended to the collection, its [paymentStatus] is "pending" and its
    [createdAt] is the instant of the request; and a [paymentStatus] the
    caller put in the body changes nothing: the handler answers and stores
    what it does for the body without it. *)
Theorem C2_stored_order_is_pending pf w body db r db' :
  app pf w (POST_create_order body) db = (r, db') ->
  status r = 201 ->
  (exists o, Order db' = (Order db ++ [o])%list
             /\ paymentStatus o = "pending" /\ createdAt o = Date_now w)
  /\ forall v fs, body = JObj (("paymentStatus", v) :: fs) ->
       app pf w (POST_create_order (JObj fs)) db = (r, db').
Proof.
  intros Happ H201. split.
  - pose proof (run_post_create_order pf w body db) as H. cbv zeta in H.
    rewrite Happ in H. cbn [fst snd] in H.
    destruct H as [[Hne _] | (_ & _ & o & -> & Hp & Hc & _)]; [contradiction | ].
    exists o. auto.
  - intros v fs ->. rewrite <- Happ. reflexivity.
Qed.

Lemma C2_stored_order_is_pending_witness :
  let body := JObj (("paymentStatus", JStr "paid")
                    :: [("userId", JStr "64b000000000000000000001");
                        ("products", JArr [Sample.line "64c0000000000000000000a1" 2]);
                        ("name", JStr "Alice Martin");
                        ("address", JStr "1 Main Street");
                        ("paymentType", JStr "card");
                        ("amount", JNum 24)]) in
  let res := app Sample.platform Sample.world (POST_create_order body) Sample.db in
  (exists o, Order (snd res) = (Order Sample.db ++ [o])%list
             /\ paymentStatus o = "pending" /\ createdAt o = Date_now Sample.world)
  /\ forall v fs, body = JObj (("paymentStatus", v) :: fs) ->
       app Sample.platform Sample.world (POST_create_order (JObj fs)) Sample.db
       = (fst res, snd res).
Proof.
  cbv zeta.
  apply (C2_stored_order_is_pending Sample.platform Sample.world).
  - apply surjective_pairing.
  - vm_compute. reflexivity.
Defined.

(** C3.  An order-creation request that is not answered 201 leaves the whole
    database, and so the Orders collection, as it was; and a request that
    fails any check of the workflow (a required field missing, an identifier
    of the wrong form, a quantity that is not a positive integer, a user or
    a product that does not exist) is not answered 201.  Stored images have
    distinct identifiers. *)
Theorem C3_failed_order_creates_nothing pf w body db :
  let res := app pf w (POST_create_order body) db in
  (status (fst res) <> 201 -> snd res = db)
  /\ (NoDup (map image_id (Image db)) -> ~ passes_checks pf db body ->
      status (fst res) <> 201 /\ Order (snd res) = Order db).
Proof.
  cbv zeta. pose proof (run_post_create_order pf w body db) as H. cbv zeta in H.
  split.
  - intros Hne. destruct H as [[_ Hdb] | [H201 _]]; [assumption | contradiction].
  - intros Hnd Hfail. destruct H as [[Hne Hdb] | (_ & Hcounted & _)].
    + rewrite Hdb. auto.
    + exfalso. apply Hfail. apply counted_passes_checks; assumption.
Qed.

Lemma C3_failed_order_creates_nothing_witness :
  let body := JObj [("userId", JStr "64b0000000000000000000ff");
                    ("products", JArr [Sample.line "64c0000000000000000000a1" 2]);
                    ("name", JStr "Alice Martin");
                    ("address", JStr "1 Main Street");
                    ("paymentType", JStr "card");
                    ("amount", JNum 24)] in
  let res := app Sample.platform Sample.world (POST_create_order body) Sample.db in
  fst res = error_response 404 "User not found"
  /\ snd res = Sample.db /\ status (fst res) <> 201 /\ Order (snd res) = Order Sample.db.
Proof.
  cbv zeta.
  pose proof (C3_failed_order_creates_nothing Sample.platform Sample.world
    (JObj [("userId", JStr "64b0000000000000000000ff");
           ("products", JArr [Sample.line "64c0000000000000000000a1" 2]);
           ("name", JStr "Alice Martin");
           ("address", JStr "1 Main Street");
           ("paymentType", JStr "card");
           ("amount", JNum 24)]) Sample.db) as [Hquiet Hchecks].
  split; [vm_compute; reflexivity | ].
  split; [apply Hquiet; vm_compute; discriminate | ].
  apply Hchecks.
  - repeat constructor. intros [].
  - intros (_ & _ & (u & [<- | []] & Hcast) & _). vm_compute in Hcast. discriminate Hcast.
Defined.

(** C4 (the specification does not hold as stated).  An order for an empty list of products
    is answered 201 and stored: [!products] is false for [[]], the loop over
    the line items has nothing to reject, and zero images found equals zero
    identifiers asked for. *)
Lemma C4_empty_products_counterexample :
  let body := Sample.order_body (JArr []) (JNum 24) in
  let res := app Sample.platform Sample.world (POST_create_order body) Sample.db in
  field "products" body = JArr []
  /\ status (fst res) = 201
  /\ List.length (Order (snd res)) = S (List.length (Order Sample.db))
  /\ map products (Order (snd res)) = [[]].
Proof. cbv zeta. repeat split; vm_compute; reflexivity. Qed.

(** An order for no product at all, from a stored user, with the other
    properties the Order schema can cast, is stored and answered 201. *)
Lemma empty_order_is_stored pf w body db uid u nm ad pt am :
  field "products" body = JArr [] ->
  truthy (field "userId" body) = true ->
  truthy (field "name" body) = true ->
  truthy (field "address" body) = true ->
  truthy (field "paymentType" body) = true ->
  truthy (field "amount" body) = true ->
  ObjectId_isValid pf (field "userId" body) = true ->
  cast_ObjectId pf (field "userId" body) = Some (Some uid) ->
  find (fun a => String.eqb (account_id a) uid) (userModel db) = Some u ->
  cast_String pf (field "name" body) = Some nm -> nm <> "" ->
  cast_String pf (field "address" body) = Some ad -> ad <> "" ->
  cast_String pf (field "paymentType" body) = Some pt -> pt <> "" ->
  cast_Number pf (field "amount" body) = Some am ->
  let o := {| order_id := new_ObjectId w 0; userId := uid; products := [];
              order_name := nm; address := ad; paymentType := pt; amount := am;
              paymentStatus := "pending"; createdAt := Date_now w |} in
  app pf w (POST_create_order body) db
  = ({| status := 201; body := JObj [("order", order_json pf JStr JStr o)] |},
     set_Order (Order db ++ [o])%list db).
Proof.
  intros Hitems Hu Hn Ha Hp Ht Hvalid Hcast Hfind Hnm Hnm' Had Had' Hpt Hpt' Ham o.
  cbn [app]. unfold run, post_create_order.
  rewrite (bind_next _ _ db tt db)
    by (apply reject_if_false; rewrite Hitems, Hu, Hn, Ha, Hp, Ht; reflexivity).
  rewrite (bind_next _ _ db tt db)
    by (apply reject_if_false; rewrite Hvalid; reflexivity).
  rewrite Hitems.
  rewrite (bind_next _ _ db [] db) by reflexivity.
  rewrite (bind_next _ _ db tt db) by reflexivity.
  rewrite (bind_next _ _ db _ db (findById_next _ _ _ _ uid db Hcast)).
  rewrite Hfind.
  rewrite (bind_next _ _ db tt db) by reflexivity.
  rewrite (bind_next _ _ db [] db) by reflexivity.
  rewrite (bind_next _ _ db [] db)
    by (cbn; unfold read; f_equal; f_equal; apply filter_none).
  rewrite (bind_next _ _ db tt db) by reflexivity.
  rewrite (bind_next _ _ db o (set_Order (Order db ++ [o])%list db)); [reflexivity | ].
  unfold Order_create.
  rewrite (bind_next _ _ db _ db (required_ObjectId_next _ _ _ uid db Hcast)).
  rewrite (bind_next _ _ db [] db) by reflexivity.
  rewrite (bind_next _ _ db _ db (required_String_next _ _ _ nm db Hnm Hnm')).
  rewrite (bind_next _ _ db _ db (required_String_next _ _ _ ad db Had Had')).
  rewrite (bind_next _ _ db _ db (required_String_next _ _ _ pt db Hpt Hpt')).
  rewrite Ham. reflexivity.
Qed.

(** The loop over the line items never answers that a field is missing. *)
Lemma check_items_other_answers pf items db :
  hoare (check_items pf items) db (fun _ _ => True)
    (fun r _ => r <> error_response 400 "All fields are required") (fun _ _ => True).
Proof.
  induction items as [ | item rest IH]; cbn [check_items].
  - apply hoare_ret. exact I.
  - repeat hoare_step; cbn; auto; try (unfold error_response; intros [=]).
Qed.

(** The response "All fields are required" comes from the first check of
    the handler and from nowhere else. *)
Lemma missing_field_answer pf w body db :
  hoare (post_create_order pf w body) db (fun _ _ => False)
    (fun r _ =>
       r = error_response 400 "All fields are required" ->
       negb (truthy (field "userId" body)) || negb (truthy (field "products" body))
       || negb (truthy (field "name" body)) || negb (truthy (field "address" body))
       || negb (truthy (field "paymentType" body)) || negb (truthy (field "amount" body))
       = true)
    (fun _ _ => True).
Proof.
  unfold post_create_order.
  apply hoare_bind, hoare_reject_if; intros Hreq; [intros _; exact Hreq | ].
  apply hoare_bind, hoare_reject_if; intros Hvalid; [intros [=] | ].
  apply hoare_bind, hoare_attempt; [intros each Heach | intros _; exact I].
  apply hoare_bind.
  eapply hoare_conseq;
    [apply check_items_other_answers | cbn beta
     | cbn beta; intros r _ Hr Heq; destruct (Hr Heq) | auto].
  intros _ d _. apply hoare_bind.
  eapply hoare_conseq;
    [apply findById_spec | cbn beta | cbn beta; intros _ _ [] | auto].
  intros found d' _. apply hoare_bind, hoare_reject_if; intros Huser; [intros [=] | ].
  apply hoare_bind.
  eapply hoare_conseq;
    [apply products_map_productId_spec | cbn beta | cbn beta; intros _ _ [] | auto].
  intros pids d'' _. apply hoare_bind.
  eapply hoare_conseq;
    [apply Image_find_in_spec | cbn beta | cbn beta; intros _ _ [] | auto].
  intros imgs d3 _. apply hoare_bind, hoare_reject_if; intros Hcount; [intros [=] | ].
  apply hoare_bind.
  eapply hoare_conseq;
    [apply (Order_create_spec pf w) | cbn beta | cbn beta; intros _ _ [] | auto].
  intros o d4 _. apply hoare_reply. intros [=].
Qed.

(** C4, amended.  For an order-creation payload whose five other required
    properties ([userId], [name], [address], [paymentType], [amount]) are
    truthy, the handler answers 400 "All fields are required" exactly when
    the value of [products] is absent or falsy, and then the database is
    unchanged.  The empty list is not such a value: when [products] is the
    empty list, [userId] is a valid identifier of a stored user, [name],
    [address] and [paymentType] cast to non-empty strings and [amount] to a
    number, the handler stores an order with no line item and answers 201
    with it. *)
Theorem C4_only_a_falsy_products_is_missing pf w body db :
  truthy (field "userId" body) = true ->
  truthy (field "name" body) = true ->
  truthy (field "address" body) = true ->
  truthy (field "paymentType" body) = true ->
  truthy (field "amount" body) = true ->
  let res := app pf w (POST_create_order body) db in
  (fst res = error_response 400 "All fields are required"
   <-> truthy (field "products" body) = false)
  /\ (truthy (field "products" body) = false -> snd res = db)
  /\ (field "products" body = JArr [] ->
      forall uid u nm ad pt am,
        ObjectId_isValid pf (field "userId" body) = true ->
        cast_ObjectId pf (field "userId" body) = Some (Some uid) ->
        find (fun a => String.eqb (account_id a) uid) (userModel db) = Some u ->
        cast_String pf (field "name" body) = Some nm -> nm <> "" ->
        cast_String pf (field "address" body) = Some ad -> ad <> "" ->
        cast_String pf (field "paymentType" body) = Some pt -> pt <> "" ->
        cast_Number pf (field "amount" body) = Some am ->
        let o := {| order_id := new_ObjectId w 0; userId := uid; products := [];
                    order_name := nm; address := ad; paymentType := pt; amount := am;
                    paymentStatus := "pending"; createdAt := Date_now w |} in
        res = ({| status := 201;
                  body := JObj [("order", order_json pf JStr JStr o)] |},
               set_Order (Order db ++ [o])%list db)).
Proof.
  intros Hu Hn Ha Hp Ht res.
  assert (Hfalsy : truthy (field "products" body) = false ->
                   res = (error_response 400 "All fields are required", db)).
  { intros Hitems. subst res. cbn [app]. unfold run, post_create_order.
    rewrite (bind_sent _ _ db (error_response 400 "All fields are required") db);
      [reflexivity | ].
    apply reject_if_true. rewrite Hitems, Hu. reflexivity. }
  split; [split | split].
  - intros Hres.
    assert (Hreq : fst res = error_response 400 "All fields are required" ->
                   negb (truthy (field "userId" body))
                   || negb (truthy (field "products" body))
                   || negb (truthy (field "name" body))
                   || negb (truthy (field "address" body))
                   || negb (truthy (field "paymentType" body))
                   || negb (truthy (field "amount" body)) = true).
    { subst res. cbn [app].
      apply (hoare_run pf (post_create_order pf w body) "Order creation failed" db
               (fun r _ => r = error_response 400 "All fields are required" -> _)).
      eapply hoare_conseq; [apply missing_field_answer | | | ]; cbn beta; auto.
      intros e d _ [=]. }
    specialize (Hreq Hres). rewrite Hu, Hn, Ha, Hp, Ht in Hreq. cbn in Hreq.
    rewrite !orb_false_r in Hreq. apply negb_true_iff. exact Hreq.
  - intros Hitems. rewrite (Hfalsy Hitems). reflexivity.
  - intros Hitems. rewrite (Hfalsy Hitems). reflexivity.
  - intros Hitems uid u nm ad pt am Hvalid Hcast Hfind Hnm Hnm' Had Had' Hpt Hpt' Ham.
    exact (empty_order_is_stored pf w body db uid u nm ad pt am Hitems Hu Hn Ha Hp Ht
             Hvalid Hcast Hfind Hnm Hnm' Had Had' Hpt Hpt' Ham).
Qed.

Lemma C4_only_a_falsy_products_is_missing_witness :
  let body := Sample.order_body (JArr []) (JNum 24) in
  let res := app Sample.platform Sample.world (POST_create_order body) Sample.db in
  let o := {| order_id := "6553f1000000000000000000";
              userId := "64b000000000000000000001"; products := [];
              order_name := "Alice Martin"; address := "1 Main Street";
              paymentType := "card"; amount := 24;
              paymentStatus := "pending"; createdAt := 1700000000000 |} in
  (fst res = error_response 400 "All fields are required"
   <-> truthy (field "products" body) = false)
  /\ res = ({| status := 201;
               body := JObj [("order", order_json Sample.platform JStr JStr o)] |},
            set_Order (Order Sample.db ++ [o])%list Sample.db).
Proof.
  intros body res o.
  destruct (C4_only_a_falsy_products_is_missing Sample.platform Sample.world body
              Sample.db eq_refl eq_refl eq_refl eq_refl eq_refl)
    as (Hmissing & _ & Hstored).
  split; [exact Hmissing | ].
  apply (Hstored eq_refl "64b000000000000000000001" Sample.alice
           "Alice Martin" "1 Main Street" "card" 24%Q);
    solve [reflexivity | discriminate].
Defined.

(** C5 (the code departs from the specification).  Whatever else the payload holds,
    an [amount] that is the number zero makes [!amount] true: the handler
    answers 400 "All fields are required" and stores nothing, although the
    property is present and the Order schema accepts the value. *)
Theorem C5_zero_amount_is_rejected_as_missing pf w db rest :
  app pf w (POST_create_order (JObj (("amount", JNum 0) :: rest))) db
  = (error_response 400 "All fields are required", db).
Proof.
  cbn [app]. unfold run, post_create_order, bind.
  change (field "amount" (JObj (("amount", JNum 0) :: rest))) with (JNum 0).
  change (truthy (JNum 0)) with false.
  cbn [negb]. rewrite orb_true_r. reflexivity.
Qed.

(** ** Login and registration *)

Section Accounts.
Variable pf : Platform.
Variable w : World.

Lemma run_login admin b db :
  app pf w (login_request admin b) db
  = run pf (login pf (accounts admin) (if admin then "admin" else "user")
              (if admin then admin_summary else user_summary) b)
      "Login failed" db.
Proof. destruct admin; reflexivity. Qed.

Lemma run_registration admin b db :
  app pf w (registration admin b) db
  = run pf (register pf w (accounts admin)
              (if admin then set_adminModel else set_userModel)
              (if admin then "Admin" else "User")
              (if admin then "admin" else "user") b)
      "Registration failed" db.
Proof. destruct admin; reflexivity. Qed.

Lemma find_exact_none e (l : list Account) :
  (forall x, In x l -> email x <> e) -> find (fun x => String.eqb e (email x)) l = None.
Proof.
  intros H. destruct (find _ l) as [x | ] eqn:Hf; [ | reflexivity].
  apply find_some in Hf. destruct Hf as [Hin Heq].
  apply String.eqb_eq in Heq. symmetry in Heq. destruct (H x Hin Heq).
Qed.

Lemma find_exact_some e (l : list Account) a :
  In a l -> email a = e ->
  exists x, find (fun x => String.eqb e (email x)) l = Some x /\ In x l /\ email x = e.
Proof.
  intros Hin He. destruct (find _ l) as [x | ] eqn:Hf.
  - exists x. split; [reflexivity | ]. apply find_some in Hf.
    destruct Hf as [Hx Heq]. apply String.eqb_eq in Heq. auto.
  - exfalso. apply (find_none _ _ Hf) in Hin. rewrite He, String.eqb_refl in Hin.
    discriminate.
Qed.

Lemma login_unknown_email coll key summary b e db :
  exact_match pf ->
  field "email" b = JStr e -> truthy (field "email" b) = true ->
  truthy (field "password" b) = true ->
  (forall x, In x (coll db) -> email x <> e) ->
  run pf (login pf coll key summary b) "Login failed" db
  = (error_response 401 "Invalid email or password", db).
Proof.
  intros Hpf He Hte Htp Hnone. unfold run, login.
  rewrite (bind_next _ _ db tt db)
    by (apply reject_if_false; rewrite Hte, Htp; reflexivity).
  rewrite He.
  rewrite (bind_next _ _ db _ db (findOne_email_next _ _ _ _ db (Hpf e))).
  rewrite (find_exact_none e (coll db) Hnone). reflexivity.
Qed.

Lemma login_wrong_password coll key summary b e db :
  exact_match pf ->
  field "email" b = JStr e -> truthy (field "email" b) = true ->
  truthy (field "password" b) = true ->
  (exists a, In a (coll db) /\ email a = e) ->
  (forall a, In a (coll db) -> email a = e ->
             bcrypt_compare pf (field "password" b) (password a) = Some false) ->
  run pf (login pf coll key summary b) "Login failed" db
  = (error_response 401 "Invalid email or password", db).
Proof.
  intros Hpf He Hte Htp (a & Hin & Ha) Hwrong. unfold run, login.
  rewrite (bind_next _ _ db tt db)
    by (apply reject_if_false; rewrite Hte, Htp; reflexivity).
  rewrite He in *.
  rewrite (bind_next _ _ db _ db (findOne_email_next _ _ _ _ db (Hpf e))).
  destruct (find_exact_some e (coll db) a Hin Ha) as (x & -> & Hx & Hxe).
  rewrite (bind_next _ _ db false db)
    by (rewrite (Hwrong x Hx Hxe); reflexivity).
  reflexivity.
Qed.

Lemma login_uncomparable_password coll key summary b e db :
  exact_match pf ->
  field "email" b = JStr e -> truthy (field "email" b) = true ->
  truthy (field "password" b) = true ->
  (exists a, In a (coll db) /\ email a = e) ->
  (forall a, In a (coll db) -> email a = e ->
             bcrypt_compare pf (field "password" b) (password a) = None) ->
  run pf (login pf coll key summary b) "Login failed" db
  = ({| status := 500;
        body := JObj [("error", JStr "Login failed");
                      ("details", JStr (exn_message pf BcryptError))] |}, db).
Proof.
  intros Hpf He Hte Htp (a & Hin & Ha) Hthrows. unfold run, login.
  rewrite (bind_next _ _ db tt db)
    by (apply reject_if_false; rewrite Hte, Htp; reflexivity).
  rewrite He in *.
  rewrite (bind_next _ _ db _ db (findOne_email_next _ _ _ _ db (Hpf e))).
  destruct (find_exact_some e (coll db) a Hin Ha) as (x & -> & Hx & Hxe).
  rewrite (bind_thrown _ _ db BcryptError db)
    by (rewrite (Hthrows x Hx Hxe); reflexivity).
  reflexivity.
Qed.

Lemma register_duplicate coll set label key b e a db :
  exact_match pf ->
  field "email" b = JStr e -> In a (coll db) -> email a = e ->
  exists msg,
    run pf (register pf w coll set label key b) "Registration failed" db
    = (error_response 400 msg, db).
Proof.
  intros Hpf He Hin Ha. unfold run, register.
  destruct (negb (truthy (field "firstName" b)) || negb (truthy (field "secondName" b))
            || negb (truthy (field "email" b)) || negb (truthy (field "password" b)))
    eqn:Hreq.
  - exists "All fields are required".
    rewrite (bind_sent _ _ db _ db) by reflexivity. reflexivity.
  - rewrite (bind_next _ _ db tt db) by reflexivity.
    rewrite He.
    rewrite (bind_next _ _ db _ db (findOne_email_next _ _ _ _ db (Hpf e))).
    destruct (find_exact_some e (coll db) a Hin Ha) as (x & -> & _).
    exists "Email already registered". reflexivity.
Qed.
End Accounts.

(** Two failed logins, of an admin or of a user, both with an email and a
    password supplied: one names an email no stored account has, the other
    an email of a stored account with a password that bcrypt compares and
    does not match.  Both are answered the same response, status 401 with
    the message "Invalid email or password", and neither changes the
    database. *)
Lemma compared_passwords_answer_alike pf w db admin unknown known e1 e2 :
  exact_match pf ->
  field "email" unknown = JStr e1 -> e1 <> "" ->
  truthy (field "password" unknown) = true ->
  (forall x, In x (accounts admin db) -> email x <> e1) ->
  field "email" known = JStr e2 -> e2 <> "" ->
  truthy (field "password" known) = true ->
  (exists a, In a (accounts admin db) /\ email a = e2) ->
  (forall a, In a (accounts admin db) -> email a = e2 ->
             bcrypt_compare pf (field "password" known) (password a) = Some false) ->
  app pf w (login_request admin unknown) db
  = (error_response 401 "Invalid email or password", db)
  /\ app pf w (login_request admin known) db
     = (error_response 401 "Invalid email or password", db).
Proof.
  intros Hpf He1 Hne1 Hp1 Hnone He2 Hne2 Hp2 Hex Hwrong.
  apply String.eqb_neq in Hne1, Hne2.
  rewrite !run_login. split.
  - apply login_unknown_email with (e := e1); auto.
    rewrite He1. cbn. rewrite Hne1. reflexivity.
  - apply login_wrong_password with (e := e2); auto.
    rewrite He2. cbn. rewrite Hne2. reflexivity.
Qed.

(** C6 (the code departs from the specification).  The two branches of a
    login that fails carry the same response, but a password that is not a
    string never reaches the second one: [bcrypt.compare] throws on it, and
    the handler's [catch] answers 500 "Login failed".  So for one and the
    same truthy password [p] that bcrypt cannot compare, such as the number
    5, the login with an email no stored account has is answered 401
    "Invalid email or password", and the login with the email of a stored
    account is answered 500: the two responses differ in status and in
    message, and tell whether the email is registered.  Neither changes the
    database. *)
Theorem C6_uncomparable_password_reveals_the_email pf w db admin e1 e2 p :
  exact_match pf ->
  e1 <> "" -> e2 <> "" -> truthy p = true ->
  (forall x, In x (accounts admin db) -> email x <> e1) ->
  (exists a, In a (accounts admin db) /\ email a = e2) ->
  (forall a, In a (accounts admin db) -> email a = e2 ->
             bcrypt_compare pf p (password a) = None) ->
  let unknown := JObj [("email", JStr e1); ("password", p)] in
  let known := JObj [("email", JStr e2); ("password", p)] in
  app pf w (login_request admin unknown) db
  = (error_response 401 "Invalid email or password", db)
  /\ app pf w (login_request admin known) db
     = ({| status := 500;
           body := JObj [("error", JStr "Login failed");
                         ("details", JStr (exn_message pf BcryptError))] |}, db)
  /\ status (fst (app pf w (login_request admin unknown) db))
     <> status (fst (app pf w (login_request admin known) db)).
Proof.
  intros Hpf Hne1 Hne2 Hp Hnone Hex Hthrows unknown known.
  apply String.eqb_neq in Hne1, Hne2.
  assert (H1 : app pf w (login_request admin unknown) db
               = (error_response 401 "Invalid email or password", db)).
  { rewrite run_login. apply login_unknown_email with (e := e1); auto.
    cbn. rewrite Hne1. reflexivity. }
  assert (H2 : app pf w (login_request admin known) db
               = ({| status := 500;
                     body := JObj [("error", JStr "Login failed");
                                   ("details", JStr (exn_message pf BcryptError))] |},
                  db)).
  { rewrite run_login. apply login_uncomparable_password with (e := e2); auto.
    cbn. rewrite Hne2. reflexivity. }
  split; [exact H1 | split; [exact H2 | ]].
  rewrite H1, H2. discriminate.
Qed.

Lemma C6_uncomparable_password_reveals_the_email_witness :
  let unknown := JObj [("email", JStr "mallory@example.com"); ("password", JNum 5)] in
  let known := JObj [("email", JStr "alice@example.com"); ("password", JNum 5)] in
  forall_both (fun admin =>
    app Sample.platform Sample.world (login_request admin unknown) Sample.db
    = (error_response 401 "Invalid email or password", Sample.db)
    /\ app Sample.platform Sample.world (login_request admin known) Sample.db
       = ({| status := 500;
             body := JObj [("error", JStr "Login failed");
                           ("details", JStr "data and hash must be strings")] |},
          Sample.db)
    /\ status (fst (app Sample.platform Sample.world (login_request admin unknown)
                      Sample.db))
       <> status (fst (app Sample.platform Sample.world (login_request admin known)
                         Sample.db))).
Proof.
  cbv zeta. unfold forall_both. split.
  - apply (C6_uncomparable_password_reveals_the_email Sample.platform Sample.world
             Sample.db true "mallory@example.com" "alice@example.com" (JNum 5));
      try solve [reflexivity | discriminate | intros s; reflexivity].
    + intros x [<- | []]. discriminate.
    + exists Sample.alice. split; [left | ]; reflexivity.
  - apply (C6_uncomparable_password_reveals_the_email Sample.platform Sample.world
             Sample.db false "mallory@example.com" "alice@example.com" (JNum 5));
      try solve [reflexivity | discriminate | intros s; reflexivity].
    + intros x [<- | []]. discriminate.
    + exists Sample.alice. split; [left | ]; reflexivity.
Defined.

(** C8.  A registration, of an admin or of a user, whose email is exactly
    the email of a stored account of the same collection is answered 400,
    and the database, so the number of accounts, is what it was. *)
Theorem C8_duplicate_email_is_rejected pf w db admin b e a :
  exact_match pf ->
  field "email" b = JStr e -> In a (accounts admin db) -> email a = e ->
  let res := app pf w (registration admin b) db in
  status (fst res) = 400 /\ snd res = db
  /\ List.length (accounts admin (snd res)) = List.length (accounts admin db).
Proof.
  intros Hpf He Hin Ha. cbv zeta. rewrite run_registration.
  destruct (register_duplicate pf w (accounts admin)
              (if admin then set_adminModel else set_userModel)
              (if admin then "Admin" else "User") (if admin then "admin" else "user")
              b e a db Hpf He Hin Ha) as (msg & ->).
  cbn. auto.
Qed.

Lemma C8_duplicate_email_is_rejected_witness :
  let b := JObj [("firstName", JStr "Alice"); ("secondName", JStr "Again");
                 ("email", JStr "alice@example.com"); ("password", JStr "x")] in
  forall_both (fun admin =>
    let res := app Sample.platform Sample.world (registration admin b) Sample.db in
    status (fst res) = 400 /\ snd res = Sample.db
    /\ List.length (accounts admin (snd res)) = List.length (accounts admin Sample.db)).
Proof.
  cbv zeta. unfold forall_both. split.
  - apply (C8_duplicate_email_is_rejected Sample.platform Sample.world Sample.db true
             _ "alice@example.com" Sample.alice);
      [intros s; reflexivity | reflexivity | left; reflexivity | reflexivity].
  - apply (C8_duplicate_email_is_rejected Sample.platform Sample.world Sample.db false
             _ "alice@example.com" Sample.alice);
      [intros s; reflexivity | reflexivity | left; reflexivity | reflexivity].
Defined.

(** ** Data URIs *)

Lemma split_word_app sep t rest :
  is_word sep = false -> all_word t = true ->
  split sep (t ++ String sep rest) = t :: split sep rest.
Proof.
  intros Hsep. induction t as [ | c t IH]; cbn; intros Ht.
  - rewrite Ascii.eqb_refl. reflexivity.
  - apply andb_true_iff in Ht. destruct Ht as [Hc Ht].
    destruct (Ascii.eqb_spec c sep) as [-> | _]; [congruence | ].
    rewrite (IH Ht). reflexivity.
Qed.

Lemma split_word sep t :
  is_word sep = false -> all_word t = true -> split sep t = [t].
Proof.
  intros Hsep. induction t as [ | c t IH]; cbn; intros Ht; [reflexivity | ].
  apply andb_true_iff in Ht. destruct Ht as [Hc Ht].
  destruct (Ascii.eqb_spec c sep) as [-> | _]; [congruence | ].
  rewrite (IH Ht). reflexivity.
Qed.

Lemma skip_word_app t rest :
  all_word t = true -> skip_word (t ++ String ";" rest) = String ";" rest.
Proof.
  induction t as [ | c t IH]; cbn; intros Ht; [reflexivity | ].
  apply andb_true_iff in Ht. destruct Ht as [-> Ht]. auto.
Qed.

Lemma data_uri_parts t payload :
  t <> "" -> all_word t = true ->
  let s := "data:image/" ++ t ++ ";base64," ++ payload in
  startsWith s "data:image/" = true
  /\ strip_data_uri s = payload
  /\ media_subtype s = Some t.
Proof.
  intros Ht Hword. cbv zeta. split; [ | split].
  - destruct t; [contradiction | reflexivity].
  - unfold strip_data_uri. cbn [strip_prefix append Ascii.eqb Bool.eqb].
    destruct t as [ | c t']; [contradiction | ].
    cbn in Hword. apply andb_true_iff in Hword. destruct Hword as [Hc Hword].
    cbn [append]. rewrite Hc.
    change (";base64," ++ payload) with (String ";" ("base64," ++ payload)).
    rewrite (skip_word_app t' _ Hword). reflexivity.
  - unfold media_subtype.
    change (";base64," ++ payload) with (String ";" ("base64," ++ payload)).
    assert (Hsemi : split ";" ("data:image/" ++ t ++ String ";" ("base64," ++ payload))
                    = ("data:image/" ++ t) :: split ";" ("base64," ++ payload)).
    { cbn [append split Ascii.eqb Bool.eqb].
      rewrite (split_word_app ";" t _ eq_refl Hword). reflexivity. }
    rewrite Hsemi. cbn [hd append split Ascii.eqb Bool.eqb].
    rewrite (split_word "/" t eq_refl Hword). reflexivity.
Qed.

(** ** Payload sizes *)

Lemma exceeds_MB_iff n (k : Z) :
  exceeds_MB n (inject_Z k) = true <-> k * 1048576 < n.
Proof.
  unfold exceeds_MB, Qltb. rewrite negb_true_iff.
  rewrite <- not_true_iff_false, Qle_bool_iff.
  unfold Qle, Qdiv, Qmult, Qinv, inject_Z. cbn. lia.
Qed.

Lemma exceeds_1MB n : exceeds_MB n 1 = true <-> 1048576 < n.
Proof. apply (exceeds_MB_iff n 1). Qed.

Lemma exceeds_5MB n : exceeds_MB n 5 = true <-> 5242880 < n.
Proof. apply (exceeds_MB_iff n 5). Qed.

Section Sizes.
Variable pf : Platform.
Variable w : World.

(** A registration answers 413 only from the size check of its picture. *)
Lemma register_413 coll set label key b db :
  hoare (register pf w coll set label key b) db (fun _ _ => False)
    (fun r _ => status r = 413 ->
       exists s, field "profilePicture" b = JStr s
                 /\ 1048576 < Buffer_base64_length pf (strip_data_uri s))
    (fun _ _ => True).
Proof.
  unfold register, findOne_email, profile_picture_data, Account_create, required_String.
  repeat hoare_step; cbn; try discriminate; auto.
  eexists. split; [reflexivity | ]. apply exceeds_1MB. assumption.
Qed.

(** An upload answers 413 only from the size check of its image. *)
Lemma upload_413 b db :
  hoare (post_upload pf w b) db (fun _ _ => False)
    (fun r _ => status r = 413 ->
       exists s, field "image" b = JStr s
                 /\ 5242880 < Buffer_base64_length pf (strip_data_uri s))
    (fun _ _ => True).
Proof.
  unfold post_upload, Image_save, required_String.
  repeat hoare_step; cbn; try discriminate; auto.
  eexists. split; [reflexivity | ]. apply exceeds_5MB. assumption.
Qed.

Lemma register_too_large admin b s db :
  picture_checked pf db admin b s ->
  1048576 < Buffer_base64_length pf (strip_data_uri s) ->
  app pf w (registration admin b) db
  = (error_response 413 "Profile picture size exceeds 1MB limit", db).
Proof.
  intros (Hf & Hs & He & Hp & (sel & Hsel & Hnone) & Hpic & Hstart & t & Ht & Hok) Hbig.
  rewrite run_registration. unfold run, register.
  rewrite (bind_next _ _ db tt db)
    by (apply reject_if_false; rewrite Hf, Hs, He, Hp; reflexivity).
  rewrite (bind_next _ _ db _ db (findOne_email_next _ _ _ _ db Hsel)).
  rewrite Hnone.
  rewrite (bind_next _ _ db tt db) by reflexivity.
  rewrite Hpic.
  assert (Htruthy : truthy (JStr s) = true).
  { destruct s; [discriminate Hstart | reflexivity]. }
  unfold profile_picture_data. rewrite Htruthy.
  rewrite (bind_sent _ _ db (error_response 413 "Profile picture size exceeds 1MB limit") db);
    [reflexivity | ].
  rewrite (bind_next _ _ db tt db)
    by (apply reject_if_false; rewrite Hstart; reflexivity).
  rewrite (bind_next _ _ db tt db)
    by (apply reject_if_false; rewrite Ht, Hok; reflexivity).
  apply bind_sent, reject_if_true, exceeds_1MB, Hbig.
Qed.

Lemma picture_accepted admin b s db :
  picture_checked pf db admin b s ->
  Buffer_base64_length pf (strip_data_uri s) <= 1048576 ->
  profile_picture_data pf (field "profilePicture" b) db = (Next s, db).
Proof.
  intros (_ & _ & _ & _ & _ & Hpic & Hstart & t & Ht & Hok) Hsmall.
  rewrite Hpic.
  assert (Htruthy : truthy (JStr s) = true).
  { destruct s; [discriminate Hstart | reflexivity]. }
  unfold profile_picture_data. rewrite Htruthy.
  rewrite (bind_next _ _ db tt db)
    by (apply reject_if_false; rewrite Hstart; reflexivity).
  rewrite (bind_next _ _ db tt db)
    by (apply reject_if_false; rewrite Ht, Hok; reflexivity).
  rewrite (bind_next _ _ db tt db); [reflexivity | ].
  apply reject_if_false. apply not_true_iff_false. rewrite exceeds_1MB. lia.
Qed.

Lemma upload_too_large b s db :
  upload_checked pf b s ->
  5242880 < Buffer_base64_length pf (strip_data_uri s) ->
  app pf w (POST_upload b) db
  = (error_response 413 "Image size exceeds 5MB limit", db).
Proof.
  intros (Himg & Hs & Hname & Hprice & p & Hp & Hpos) Hbig.
  apply String.eqb_neq in Hs.
  cbn [app]. unfold run, post_upload.
  rewrite (bind_next _ _ db tt db).
  2:{ apply reject_if_false. rewrite Himg, Hname. cbn. rewrite Hs.
      destruct (field "price" b); try reflexivity. contradiction. }
  rewrite Hp.
  rewrite (bind_next _ _ db tt db) by (apply reject_if_false, Hpos).
  rewrite Himg.
  rewrite (bind_sent _ _ db (error_response 413 "Image size exceeds 5MB limit") db);
    [reflexivity | ].
  apply reject_if_true, exceeds_5MB, Hbig.
Qed.
End Sizes.

(** The size check at its boundaries, in terms of the number of bytes the
    handler itself measures, that is, of what is left of the string once
    the prefix has been replaced. *)
Lemma measured_size_boundaries pf w db :
  (forall admin b s,
      field "profilePicture" b = JStr s ->
      Buffer_base64_length pf (strip_data_uri s) = 1048576 ->
      status (fst (app pf w (registration admin b) db)) <> 413
      /\ (picture_checked pf db admin b s ->
          profile_picture_data pf (field "profilePicture" b) db = (Next s, db)))
  /\ (forall admin b s,
         picture_checked pf db admin b s ->
         Buffer_base64_length pf (strip_data_uri s) = 1048577 ->
         app pf w (registration admin b) db
         = (error_response 413 "Profile picture size exceeds 1MB limit", db))
  /\ (forall b s,
         field "image" b = JStr s ->
         Buffer_base64_length pf (strip_data_uri s) = 5242880 ->
         status (fst (app pf w (POST_upload b) db)) <> 413)
  /\ (forall b s,
         upload_checked pf b s ->
         Buffer_base64_length pf (strip_data_uri s) = 5242881 ->
         app pf w (POST_upload b) db
         = (error_response 413 "Image size exceeds 5MB limit", db)).
Proof.
  split; [ | split; [ | split]].
  - intros admin b s Hpic Hlen. split.
    + rewrite run_registration.
      apply (hoare_run pf _ "Registration failed" db (fun r _ => status r <> 413)).
      eapply hoare_conseq; [apply register_413 | | | ]; cbn; auto; [ | discriminate].
      intros r _ H H413. destruct (H H413) as (s' & Hs' & Hbig).
      rewrite Hpic in Hs'. injection Hs' as <-. lia.
    + intros Hchecked. apply (picture_accepted pf admin b s db Hchecked). lia.
  - intros admin b s Hchecked Hlen. apply (register_too_large pf w admin b s db); [assumption | lia].
  - intros b s Himg Hlen. cbn [app].
    apply (hoare_run pf _ "Upload failed" db (fun r _ => status r <> 413)).
    eapply hoare_conseq; [apply upload_413 | | | ]; cbn; auto; [ | discriminate].
    intros r _ H H413. destruct (H H413) as (s' & Hs' & Hbig).
    rewrite Himg in Hs'. injection Hs' as <-. lia.
  - intros b s Hchecked Hlen. apply (upload_too_large pf w b s db); [assumption | lia].
Qed.

(** The expression [/^data:image\/\w+;base64,/] does not match a header
    with a parameter or with a subtype that is not one word: the string
    is left whole. *)
Lemma strip_data_uri_parameter payload :
  strip_data_uri ("data:image/png;x;base64," ++ payload)
  = "data:image/png;x;base64," ++ payload.
Proof. reflexivity. Qed.

Lemma strip_data_uri_svg payload :
  strip_data_uri ("data:image/svg+xml;base64," ++ payload)
  = "data:image/svg+xml;base64," ++ payload.
Proof. reflexivity. Qed.

(** C9 (the code departs from the specification).  Where the data URI is
    [data:image/<t>;base64,<payload>] with [t] one word, the handlers
    measure the payload and the boundaries are the ones of the
    specification: a profile picture whose payload decodes to exactly
    1048576 bytes is not answered 413 and is the picture kept, one of
    1048577 bytes is answered 413; an uploaded image whose payload decodes to
    exactly 5242880 bytes is not answered 413, one of 5242881 bytes is.  But
    the prefix is replaced by an expression that matches only that form.
    The header of [data:image/png;x;base64,<payload>] passes both format
    checks of a registration, which read the subtype [png] off it, and the
    header of [data:image/svg+xml;base64,<payload>] is as good as any for
    an upload; neither is matched, so the whole string goes to the decoder,
    which skips the characters that are not of the base64 alphabet and
    decodes the others of the header (20 and 23 of them) before the payload.
    Then a profile picture whose payload decodes to exactly 1048576 bytes,
    and an image whose payload decodes to exactly 5242880 bytes, are
    answered 413, and nothing is stored. *)
Theorem C9_unmatched_header_is_measured pf w db :
  (forall admin b t payload,
      t <> "" -> all_word t = true ->
      let s := "data:image/" ++ t ++ ";base64," ++ payload in
      field "profilePicture" b = JStr s ->
      (Buffer_base64_length pf payload = 1048576 ->
       status (fst (app pf w (registration admin b) db)) <> 413
       /\ (picture_checked pf db admin b s ->
           profile_picture_data pf (field "profilePicture" b) db = (Next s, db)))
      /\ (Buffer_base64_length pf payload = 1048577 ->
          picture_checked pf db admin b s ->
          app pf w (registration admin b) db
          = (error_response 413 "Profile picture size exceeds 1MB limit", db)))
  /\ (forall b t payload,
         t <> "" -> all_word t = true ->
         let s := "data:image/" ++ t ++ ";base64," ++ payload in
         field "image" b = JStr s ->
         (Buffer_base64_length pf payload = 5242880 ->
          status (fst (app pf w (POST_upload b) db)) <> 413)
         /\ (Buffer_base64_length pf payload = 5242881 ->
             upload_checked pf b s ->
             app pf w (POST_upload b) db
             = (error_response 413 "Image size exceeds 5MB limit", db)))
  /\ (forall admin b payload,
         let s := "data:image/png;x;base64," ++ payload in
         picture_checked pf db admin b s ->
         Buffer_base64_length pf payload = 1048576 ->
         Buffer_base64_length pf payload < Buffer_base64_length pf s ->
         app pf w (registration admin b) db
         = (error_response 413 "Profile picture size exceeds 1MB limit", db))
  /\ (forall b payload,
         let s := "data:image/svg+xml;base64," ++ payload in
         upload_checked pf b s ->
         Buffer_base64_length pf payload = 5242880 ->
         Buffer_base64_length pf payload < Buffer_base64_length pf s ->
         app pf w (POST_upload b) db
         = (error_response 413 "Image size exceeds 5MB limit", db)).
Proof.
  destruct (measured_size_boundaries pf w db) as (Hpic & Hpic' & Himg & Himg').
  split; [ | split; [ | split]].
  - intros admin b t payload Ht Hword s Hfield.
    destruct (data_uri_parts t payload Ht Hword) as (_ & Hstrip & _).
    fold s in Hstrip. split.
    + intros Hlen. apply (Hpic admin b s Hfield). rewrite Hstrip. exact Hlen.
    + intros Hlen Hchecked. apply (Hpic' admin b s Hchecked). rewrite Hstrip. exact Hlen.
  - intros b t payload Ht Hword s Hfield.
    destruct (data_uri_parts t payload Ht Hword) as (_ & Hstrip & _).
    fold s in Hstrip. split.
    + intros Hlen. apply (Himg b s Hfield). rewrite Hstrip. exact Hlen.
    + intros Hlen Hchecked. apply (Himg' b s Hchecked). rewrite Hstrip. exact Hlen.
  - intros admin b payload s Hchecked Hlen Hmore.
    apply (register_too_large pf w admin b s db Hchecked).
    unfold s at 1. rewrite strip_data_uri_parameter. fold s. lia.
  - intros b payload s Hchecked Hlen Hmore.
    apply (upload_too_large pf w b s db Hchecked).
    unfold s at 1. rewrite strip_data_uri_svg. fold s. lia.
Qed.

Lemma C9_unmatched_header_is_measured_witness :
  let payload := "iVBORw0KGgo=" in
  let person picture :=
    JObj [("firstName", JStr "Bob"); ("secondName", JStr "Stone");
          ("email", JStr "bob@example.com"); ("password", JStr "s3cret");
          ("profilePicture", JStr picture)] in
  let product picture :=
    JObj [("image", JStr picture); ("name", JStr "Cup"); ("price", JNum 3)] in
  let png := "data:image/png;base64," ++ payload in
  let parameter := "data:image/png;x;base64," ++ payload in
  let svg := "data:image/svg+xml;base64," ++ payload in
  (Buffer_base64_length (platform_longer 1048568) payload = 1048576
   /\ status (fst (app (platform_longer 1048568) Sample.world
                     (registration false (person png)) Sample.db)) <> 413
   /\ profile_picture_data (platform_longer 1048568)
        (field "profilePicture" (person png)) Sample.db = (Next png, Sample.db)
   /\ app (platform_longer 1048569) Sample.world (registration false (person png))
        Sample.db
      = (error_response 413 "Profile picture size exceeds 1MB limit", Sample.db))
  /\ (Buffer_base64_length (platform_longer 5242872) payload = 5242880
      /\ status (fst (app (platform_longer 5242872) Sample.world
                        (POST_upload (product png)) Sample.db)) <> 413
      /\ app (platform_longer 5242873) Sample.world (POST_upload (product png))
           Sample.db
         = (error_response 413 "Image size exceeds 5MB limit", Sample.db))
  /\ app (platform_longer 1048568) Sample.world (registration false (person parameter))
       Sample.db
     = (error_response 413 "Profile picture size exceeds 1MB limit", Sample.db)
  /\ app (platform_longer 5242872) Sample.world (POST_upload (product svg)) Sample.db
     = (error_response 413 "Image size exceeds 5MB limit", Sample.db).
Proof.
  intros payload person product png parameter svg.
  assert (Hpic : forall k picture t,
             startsWith picture "data:image/" = true ->
             media_subtype picture = Some t ->
             existsb (String.eqb t) ["jpeg"; "jpg"; "png"] = true ->
             picture_checked (platform_longer k) Sample.db false (person picture) picture).
  { intros k picture t Hstart Ht Hok. repeat split; try assumption.
    - exists (String.eqb "bob@example.com"). split; reflexivity.
    - exists t. split; assumption. }
  assert (Hup : forall k picture,
             picture <> "" -> upload_checked (platform_longer k) (product picture) picture).
  { intros k picture Hne. repeat split; try assumption; try discriminate.
    exists 3%Q. split; reflexivity. }
  split; [ | split; [ | split]].
  - destruct (proj1 (C9_unmatched_header_is_measured (platform_longer 1048568)
                       Sample.world Sample.db)
                false (person png) "png" payload) as [Hexact _];
      [discriminate | reflexivity | reflexivity | ].
    destruct (Hexact eq_refl) as [H413 Hkept].
    split; [reflexivity | split; [exact H413 | split]].
    + exact (Hkept (Hpic 1048568 png "png" eq_refl eq_refl eq_refl)).
    + destruct (proj1 (C9_unmatched_header_is_measured (platform_longer 1048569)
                         Sample.world Sample.db)
                  false (person png) "png" payload) as [_ Hover];
        [discriminate | reflexivity | reflexivity | ].
      exact (Hover eq_refl (Hpic 1048569 png "png" eq_refl eq_refl eq_refl)).
  - destruct (proj1 (proj2 (C9_unmatched_header_is_measured (platform_longer 5242872)
                              Sample.world Sample.db))
                (product png) "png" payload) as [Hexact _];
      [discriminate | reflexivity | reflexivity | ].
    split; [reflexivity | split; [exact (Hexact eq_refl) | ]].
    destruct (proj1 (proj2 (C9_unmatched_header_is_measured (platform_longer 5242873)
                              Sample.world Sample.db))
                (product png) "png" payload) as [_ Hover];
      [discriminate | reflexivity | reflexivity | ].
    exact (Hover eq_refl (Hup 5242873 png ltac:(discriminate))).
  - apply (proj1 (proj2 (proj2 (C9_unmatched_header_is_measured
                                  (platform_longer 1048568) Sample.world Sample.db)))
             false (person parameter) payload).
    + exact (Hpic 1048568 parameter "png" eq_refl eq_refl eq_refl).
    + reflexivity.
    + reflexivity.
  - apply (proj2 (proj2 (proj2 (C9_unmatched_header_is_measured
                                  (platform_longer 5242872) Sample.world Sample.db)))
             (product svg) payload).
    + exact (Hup 5242872 svg ltac:(discriminate)).
    + reflexivity.
    + reflexivity.
Defined.

(** ** Cart items *)

Lemma cast_ids_bad pf ids bad :
  In bad ids -> cast_ObjectId pf bad = None -> exists v, cast_ids pf ids = inl v.
Proof.
  induction ids as [ | x rest IH]; cbn; intros Hin Hbad; [contradiction | ].
  destruct (cast_ObjectId pf x) as [o | ] eqn:Hx; [ | eauto].
  destruct Hin as [-> | Hin]; [congruence | ].
  destruct (IH Hin Hbad) as (v & ->). eauto.
Qed.

(** C10.  The cart-items handler answers 400 exactly when [ids] is not a
    list.  When [ids] is a list, no element is checked with
    [ObjectId.isValid] (the answer is the same whatever that function
    says): the list goes to the lookup as it is, and an element the lookup
    cannot cast to an identifier ends the request with status 500 and the
    error "Fetch failed". *)
Theorem C10_cart_items_ids_are_not_validated pf w db b :
  let r := fst (app pf w (POST_cart_items b) db) in
  (status r = 400 <-> Array_isArray (field "ids" b) = false)
  /\ (forall f, app (with_isValid f pf) w (POST_cart_items b) db
                = app pf w (POST_cart_items b) db)
  /\ (forall ids bad,
         field "ids" b = JArr ids -> In bad ids -> cast_ObjectId pf bad = None ->
         status r = 500 /\ field "error" (body r) = JStr "Fetch failed").
Proof.
  cbv zeta. cbn [app]. unfold run, post_cart_items, Image_find_in.
  split; [ | split].
  - destruct (field "ids" b) as [ | | | | | ids | ]; cbn;
      try (split; [reflexivity | reflexivity]).
    unfold bind. destruct (cast_ids pf ids); cbn; split; discriminate.
  - intros f. reflexivity.
  - intros ids bad -> Hin Hbad.
    destruct (cast_ids_bad pf ids bad Hin Hbad) as (v & ->). cbn. auto.
Qed.

Lemma C10_cart_items_ids_are_not_validated_witness :
  let b := JObj [("ids", JArr [JStr "64c0000000000000000000a1"; JStr "not-an-id"])] in
  let r := fst (app Sample.platform Sample.world (POST_cart_items b) Sample.db) in
  (status r = 400 <-> Array_isArray (field "ids" b) = false)
  /\ (forall f, app (with_isValid f Sample.platform) Sample.world (POST_cart_items b)
                  Sample.db
                = app Sample.platform Sample.world (POST_cart_items b) Sample.db)
  /\ status r = 500 /\ field "error" (body r) = JStr "Fetch failed".
Proof.
  cbv zeta.
  destruct (C10_cart_items_ids_are_not_validated Sample.platform Sample.world Sample.db
              (JObj [("ids", JArr [JStr "64c0000000000000000000a1"; JStr "not-an-id"])]))
    as (H400 & Hsame & H500).
  split; [exact H400 | ]. split; [exact Hsame | ].
  apply (H500 _ (JStr "not-an-id") eq_refl); [right; left; reflexivity | reflexivity].
Defined.

(** ** Passwords stay inside *)

Lemma mentions_map {X} k (f : X -> JsVal) l :
  (forall x, mentions k (f x) = false) -> mentions k (JArr (map f l)) = false.
Proof.
  intros H. induction l as [ | x l IH]; [reflexivity | ].
  cbn in *. rewrite H. exact IH.
Qed.

Lemma mentions_cons k k' v rest :
  mentions k (JObj ((k', v) :: rest))
  = String.eqb k k' || mentions k v || mentions k (JObj rest).
Proof. reflexivity. Qed.

Lemma account_without_password a :
  mentions "password" (select_minus "password" (account_json a)) = false.
Proof. reflexivity. Qed.

Lemma populate_user_discreet db id :
  mentions "password" (populate_user ["firstName"; "secondName"; "email"] db id) = false.
Proof. unfold populate_user. destruct (find _ _); reflexivity. Qed.

Lemma populate_image_discreet fields db id :
  mentions "password" (populate_image fields db id) = false.
Proof.
  unfold populate_image. destruct (find _ _); [ | reflexivity].
  destruct fields as [ks | ]; [ | reflexivity].
  cbn. repeat match goal with |- context [if ?c then _ else _] => destruct c; cbn end;
    reflexivity.
Qed.

Lemma order_json_discreet pf ref_user ref_image o :
  (forall id, mentions "password" (ref_user id) = false) ->
  (forall id, mentions "password" (ref_image id) = false) ->
  mentions "password" (order_json pf ref_user ref_image o) = false.
Proof.
  intros Hu Hi. unfold order_json.
  assert (Hitems : mentions "password"
                     (JArr (map (line_item_json ref_image) (products o))) = false).
  { apply mentions_map. intros l. cbn. rewrite Hi.
    destruct (item_id l); reflexivity. }
  cbn in *. rewrite Hu, Hitems. reflexivity.
Qed.

Section Discretion.
Variable pf : Platform.
Variable w : World.

Ltac discreet_tac :=
  intros db0; repeat hoare_step; cbv beta; cbn [body]; try exact I; try reflexivity.

Lemma check_items_discreet items : discreet (check_items pf items).
Proof.
  induction items as [ | item rest IH]; intros db; cbn [check_items].
  - apply hoare_ret. exact I.
  - repeat hoare_step; try exact I; try reflexivity. apply IH.
Qed.

Lemma post_upload_discreet b : discreet (post_upload pf w b).
Proof. unfold post_upload, Image_save, required_String. discreet_tac. Qed.

Lemma get_images_discreet : discreet get_images.
Proof.
  unfold get_images. discreet_tac. apply mentions_map. reflexivity.
Qed.

Lemma post_cart_items_discreet b : discreet (post_cart_items pf b).
Proof.
  unfold post_cart_items, Image_find_in. discreet_tac.
  apply mentions_map. reflexivity.
Qed.

Lemma delete_image_discreet id : discreet (delete_image pf w id).
Proof. unfold delete_image, findById, Image_findByIdAndDelete. discreet_tac. Qed.

Lemma login_discreet coll key summary b :
  String.eqb "password" key = false ->
  (forall a, mentions "password" (summary a) = false) ->
  discreet (login pf coll key summary b).
Proof.
  intros Hkey Hsum. unfold login, findOne_email. discreet_tac.
  rewrite !mentions_cons, Hkey, Hsum. reflexivity.
Qed.

Lemma get_admin_profile_discreet q : discreet (get_admin_profile pf q).
Proof. unfold get_admin_profile, findOne_email. discreet_tac. Qed.

Lemma get_admin_admins_discreet : discreet get_admin_admins.
Proof.
  unfold get_admin_admins. discreet_tac. apply mentions_map. reflexivity.
Qed.

Lemma get_admin_users_discreet : discreet get_admin_users.
Proof.
  unfold get_admin_users. discreet_tac. apply mentions_map. reflexivity.
Qed.

Lemma order_reply_discreet ref_user ref_image o :
  (forall id, mentions "password" (ref_user id) = false) ->
  (forall id, mentions "password" (ref_image id) = false) ->
  mentions "password" (JObj [("order", order_json pf ref_user ref_image o)]) = false.
Proof.
  intros Hu Hi. pose proof (order_json_discreet pf ref_user ref_image o Hu Hi) as H.
  cbn in *. rewrite H. reflexivity.
Qed.

Lemma post_create_order_discreet b : discreet (post_create_order pf w b).
Proof.
  intros db. unfold post_create_order.
  apply hoare_bind, hoare_reject_if; [reflexivity | intros _ ].
  apply hoare_bind, hoare_reject_if; [reflexivity | intros _ ].
  apply hoare_bind, hoare_attempt; [intros each _ | intros; exact I].
  apply hoare_bind.
  eapply hoare_conseq; [apply check_items_discreet | | | ]; cbn beta; auto.
  intros _ d _.
  unfold findById, products_map_productId, Image_find_in.
  repeat hoare_step; cbv beta; try exact I; try reflexivity.
  eapply hoare_conseq; [apply Order_create_spec | | | ]; cbn beta; auto;
    [ | intros ? ? []].
  intros o d' _. apply hoare_reply. cbn [body].
  apply order_reply_discreet; reflexivity.
Qed.

Lemma get_orders_discreet : discreet (get_orders pf).
Proof.
  unfold get_orders. discreet_tac. apply mentions_map. intros o.
  apply order_json_discreet;
    [apply populate_user_discreet | apply populate_image_discreet].
Qed.

Lemma get_order_discreet id : discreet (get_order pf id).
Proof.
  unfold get_order, findById. discreet_tac.
  apply order_reply_discreet; [reflexivity | apply populate_image_discreet].
Qed.

(** A registration repeats [firstName] and [email] as the caller sent them;
    nothing else in its responses can have a property named [password]. *)
Lemma register_discreet coll set label key b db :
  String.eqb "password" key = false ->
  hoare (register pf w coll set label key b) db (fun _ _ => True)
    (fun r _ => mentions "password" (body r) = true ->
                mentions "password" (field "firstName" b) = true
                \/ mentions "password" (field "email" b) = true)
    (fun _ _ => True).
Proof.
  intros Hkey.
  unfold register, findOne_email, profile_picture_data, Account_create, required_String.
  repeat hoare_step; cbv beta; cbn [body]; try exact I; try (cbn; discriminate).
  all: rewrite !mentions_cons, Hkey.
  all: destruct (mentions "password" (field "firstName" b)); [auto | ].
  all: destruct (mentions "password" (field "email" b)); [auto | ].
  all: cbn; discriminate.
Qed.
End Discretion.

(** C7.  Whatever the request, the platform and the database, an object
    with a property named [password] can occur in the response only inside
    a value the caller sent in that very request and the response repeats
    (the [firstName] or the [email] of a registration).  So no response
    carries the stored password of an account: the summaries of
    registration and login and the records of the profile, of the list of
    admins, of the list of users and of the orders with their users are
    without it, as is every error. *)
Theorem C7_stored_password_never_in_response pf w db req :
  mentions "password" (body (fst (app pf w req db))) = true ->
  exists v, In v (echoed req) /\ mentions "password" v = true.
Proof.
  assert (Hdiscreet : forall (h : Route) failure,
             discreet h ->
             mentions "password" (body (fst (run pf h failure db))) = false).
  { intros h failure Hh.
    apply (hoare_run pf h failure db (fun r _ => mentions "password" (body r) = false)).
    eapply hoare_conseq; [apply (Hh db) | intros [] | auto | reflexivity]. }
  assert (Hregister : forall coll set label key b,
             String.eqb "password" key = false ->
             mentions "password"
               (body (fst (run pf (register pf w coll set label key b)
                             "Registration failed" db))) = true ->
             exists v, In v [field "firstName" b; field "email" b]
                       /\ mentions "password" v = true).
  { intros coll set label key b Hkey.
    apply (hoare_run pf _ "Registration failed" db
             (fun r _ => mentions "password" (body r) = true ->
                         exists v, In v [field "firstName" b; field "email" b]
                                   /\ mentions "password" v = true)).
    eapply hoare_conseq;
      [apply (register_discreet pf w); exact Hkey | intros [] | | discriminate].
    cbn. intros r _ H Hr. destruct (H Hr) as [Hf | He]; eauto. }
  destruct req; cbn [app echoed]; try (apply Hregister; reflexivity);
    intros Hm; exfalso; revert Hm; rewrite Hdiscreet; try discriminate.
  - apply post_upload_discreet.
  - apply get_images_discreet.
  - apply post_cart_items_discreet.
  - apply delete_image_discreet.
  - apply login_discreet; reflexivity.
  - apply get_admin_profile_discreet.
  - apply get_admin_admins_discreet.
  - apply login_discreet; reflexivity.
  - apply post_create_order_discreet.
  - apply get_orders_discreet.
  - apply get_order_discreet.
  - apply get_admin_users_discreet.
Qed.

Lemma C7_stored_password_never_in_response_witness :
  let b := JObj [("firstName", JObj [("_id", JStr "Bob"); ("password", JStr "x")]);
                 ("secondName", JStr "Stone");
                 ("email", JStr "bob@example.com");
                 ("password", JStr "s3cret")] in
  status (fst (app Sample.platform Sample.world (POST_create_users b) Sample.db)) = 201
  /\ exists v, In v (echoed (POST_create_users b)) /\ mentions "password" v = true.
Proof.
  intros b. split; [reflexivity | ].
  apply (C7_stored_password_never_in_response Sample.platform Sample.world Sample.db
           (POST_create_users b)).
  reflexivity.
Defined.

(** ** The string helpers on sample inputs *)

Example strip_data_uri_png :
  strip_data_uri "data:image/png;base64,iVBOR" = "iVBOR".
Proof. reflexivity. Qed.

Example strip_data_uri_without_subtype :
  strip_data_uri "data:image/;base64,iVBOR" = "data:image/;base64,iVBOR".
Proof. reflexivity. Qed.

Example media_subtype_png :
  media_subtype "data:image/png;base64,iVBOR" = Some "png".
Proof. reflexivity. Qed.

Example media_subtype_absent : media_subtype "iVBOR" = None.
Proof. reflexivity. Qed.

Example last_segment_key :
  last_segment "https://shop.s3.eu-north-1.amazonaws.com/1700000000000.png"
  = "1700000000000.png".
Proof. reflexivity. Qed.

Example empty_array_is_truthy : truthy (JArr []) = true /\ truthy (JNum 0) = false.
Proof. split; reflexivity. Qed.

(** ** Scenarios on the sample platform *)

Example register_twice :
  let b := JObj [("firstName", JStr "A"); ("secondName", JStr "B");
                 ("email", JStr "a@b.com"); ("password", JStr "x")] in
  let first := app Sample.platform Sample.world (POST_create_users b) Sample.db in
  let second := app Sample.platform Sample.world (POST_create_users b) (snd first) in
  status (fst first) = 201
  /\ field "email" (field "user" (body (fst first))) = JStr "a@b.com"
  /\ fst second = error_response 400 "Email already registered"
  /\ snd second = snd first.
Proof. cbv zeta. repeat split; vm_compute; reflexivity. Qed.

Example delete_twice :
  let first := app Sample.platform Sample.world
                 (DELETE_delete_image "64c0000000000000000000a1") Sample.db in
  let second := app Sample.platform Sample.world
                  (DELETE_delete_image "64c0000000000000000000a1") (snd first) in
  status (fst first) = 200 /\ Image (snd first) = []
  /\ fst second = error_response 404 "Image not found".
Proof. cbv zeta. repeat split; vm_compute; reflexivity. Qed.

Example upload_then_list :
  let b := JObj [("image", JStr "data:image/png;base64,iVBORw0KGgo=");
                 ("name", JStr "Cup"); ("price", JStr "3")] in
  let up := app Sample.platform Sample.world (POST_upload b) Sample.db in
  fst up = {| status := 200;
              body := JObj [("url", JStr "https://shop.s3.eu-north-1.amazonaws.com/1700000000000.png")] |}
  /\ map url (Image (snd up))
     = ["https://shop.s3.eu-north-1.amazonaws.com/1699999999999.png";
        "https://shop.s3.eu-north-1.amazonaws.com/1700000000000.png"].
Proof. cbv zeta. split; vm_compute; reflexivity. Qed.

Example order_for_one_mug :
  let b := Sample.order_body (JArr [Sample.line "64c0000000000000000000a1" 2]) (JNum 24) in
  let res := app Sample.platform Sample.world (POST_create_order b) Sample.db in
  status (fst res) = 201
  /\ map paymentStatus (Order (snd res)) = ["pending"]
  /\ map (fun o => map quantity (products o)) (Order (snd res)) = [[2%Q]].
Proof. cbv zeta. repeat split; vm_compute; reflexivity. Qed.

Example login_with_a_number_as_password :
  fst (app Sample.platform Sample.world
         (POST_user_login (JObj [("email", JStr "alice@example.com");
                                 ("password", JNum 5)])) Sample.db)
  = {| status := 500;
       body := JObj [("error", JStr "Login failed");
                     ("details", JStr "data and hash must be strings")] |}.
Proof. vm_compute. reflexivity. Qed.

(** * Further properties of the handlers *)

(** ** What each handler writes *)

Section Writes.
Variable pf : Platform.
Variable w : World.

Lemma Account_create_spec coll set first second mail hashed picture db :
  hoare (Account_create pf w coll set first second mail hashed picture) db
    (fun a d => d = set (coll db ++ [a])%list db
                /\ account_id a = new_ObjectId w 0
                /\ cast_String pf first = Some (firstName a)
                /\ cast_String pf second = Some (secondName a)
                /\ cast_String pf mail = Some (email a)
                /\ password a = hashed /\ profilePicture a = picture
                /\ forall x, In x (coll db) -> email x <> email a)
    (fun _ _ => False) (fun _ d => d = db).
Proof.
  unfold Account_create, required_String.
  repeat hoare_step; cbn; auto.
  repeat split; auto.
  intros x Hx Heq.
  match goal with H : existsb _ _ = false |- _ =>
    rewrite <- not_true_iff_false in H; apply H end.
  apply existsb_exists. exists x. split; [assumption | ].
  apply String.eqb_eq. assumption.
Qed.

Lemma profile_picture_data_spec picture db :
  hoare (profile_picture_data pf picture) db
    (fun s d => d = db /\ (s = "" \/ picture = JStr s))
    (fun r d => d = db /\ (status r = 400 \/ status r = 413))
    (fun _ d => d = db).
Proof.
  unfold profile_picture_data. repeat hoare_step; cbn; auto.
Qed.

(** A registration either stores nothing, or answers 201 after appending
    one account. *)
Lemma register_spec coll set label key b db :
  hoare (register pf w coll set label key b) db (fun _ _ => False)
    (fun r d =>
       (status r <> 200 /\ status r <> 201 /\ d = db)
       \/ (status r = 201
           /\ exists a, d = set (coll db ++ [a])%list db
                /\ account_id a = new_ObjectId w 0
                /\ cast_String pf (field "firstName" b) = Some (firstName a)
                /\ cast_String pf (field "secondName" b) = Some (secondName a)
                /\ cast_String pf (field "email" b) = Some (email a)
                /\ bcrypt_hash w (field "password" b) 10 = Some (password a)
                /\ (profilePicture a = ""
                    \/ field "profilePicture" b = JStr (profilePicture a))
                /\ (forall x, In x (coll db) -> email x <> email a)
                /\ body r = JObj [("message", JStr (label ++ " registered successfully"));
                                  (key, JObj [("firstName", field "firstName" b);
                                              ("email", field "email" b);
                                              ("profilePicture",
                                               JStr (profilePicture a))])]))
    (fun _ d => d = db).
Proof.
  unfold register.
  apply hoare_bind, hoare_reject_if; intros Hreq.
  { left. repeat split; discriminate. }
  apply hoare_bind.
  eapply hoare_conseq; [apply findOne_email_spec | | | ]; cbn beta; auto; [ | tauto].
  intros existing d [-> _].
  apply hoare_bind, hoare_reject_if; intros Hexisting.
  { left. repeat split; discriminate. }
  apply hoare_bind.
  eapply hoare_conseq; [apply profile_picture_data_spec | | | ]; cbn beta; auto.
  2:{ intros r d [-> [Hr | Hr]]; left; rewrite Hr; repeat split; discriminate. }
  intros picture d [-> Hpicture].
  apply hoare_bind, hoare_attempt; [intros hashed Hhashed | reflexivity].
  apply hoare_bind.
  eapply hoare_conseq; [apply Account_create_spec | | | ]; cbn beta; auto; [ | tauto].
  intros a d (-> & Hid & Hf & Hs & He & Hp & Hpic & Hfresh).
  apply hoare_reply. right. split; [reflexivity | ].
  exists a. subst hashed picture. repeat split; auto.
Qed.

Lemma Image_save_spec location name parsedPrice descr db :
  hoare (Image_save pf w location name parsedPrice descr) db
    (fun doc d => d = set_Image (Image db ++ [doc])%list db
                  /\ image_id doc = new_ObjectId w 0
                  /\ url doc = location /\ price doc = parsedPrice
                  /\ cast_String pf name = Some (image_name doc)
                  /\ cast_String pf descr = Some (description doc))
    (fun _ _ => False) (fun _ d => d = db).
Proof.
  unfold Image_save, required_String. repeat hoare_step; cbn; auto.
  repeat split; auto.
Qed.

(** An upload either stores nothing, or answers 200 with the location S3
    returned after appending one image under that location. *)
Lemma post_upload_spec b db :
  hoare (post_upload pf w b) db (fun _ _ => False)
    (fun r d =>
       (status r <> 200 /\ status r <> 201 /\ d = db)
       \/ (status r = 200
           /\ exists doc, d = set_Image (Image db ++ [doc])%list db
                /\ image_id doc = new_ObjectId w 0
                /\ body r = JObj [("url", JStr (url doc))]
                /\ parseFloat pf (field "price" b) = Some (price doc)
                /\ Qltb (price doc) 0 = false
                /\ cast_String pf (field "name" b) = Some (image_name doc)))
    (fun _ d => d = db).
Proof.
  unfold post_upload.
  apply hoare_bind, hoare_reject_if; intros Hreq.
  { left. repeat split; discriminate. }
  destruct (parseFloat pf (field "price" b)) as [p | ] eqn:Hp.
  2:{ apply hoare_reply. left. repeat split; discriminate. }
  apply hoare_bind, hoare_reject_if; intros Hneg.
  { left. repeat split; discriminate. }
  destruct (field "image" b) as [ | | | | s | | ] eqn:Himg;
    try (apply hoare_throw; reflexivity).
  apply hoare_bind, hoare_reject_if; intros Hsize.
  { left. repeat split; discriminate. }
  destruct (s3_upload w _) as [location | msg]; [ | apply hoare_throw; reflexivity].
  apply hoare_bind.
  eapply hoare_conseq; [apply Image_save_spec | | | ]; cbn beta; auto; [ | tauto].
  intros doc d (-> & Hid & Hurl & Hprice & Hname & _).
  apply hoare_reply. right. split; [reflexivity | ].
  exists doc. subst location p. repeat split; auto.
Qed.

(** A deletion either changes nothing, or answers 200 after removing the
    image it found under the identifier. *)
Lemma delete_image_spec id db :
  hoare (delete_image pf w id) db (fun _ _ => False)
    (fun r d =>
       (status r <> 200 /\ status r <> 201 /\ d = db)
       \/ (status r = 200
           /\ exists i img, cast_ObjectId pf (JStr id) = Some (Some i)
                /\ In img (Image db) /\ image_id img = i
                /\ d = set_Image (remove_image i (Image db)) db))
    (fun _ d => d = db).
Proof.
  unfold delete_image.
  apply hoare_bind, hoare_reject_if; intros Hvalid.
  { left. repeat split; discriminate. }
  apply hoare_bind.
  eapply hoare_conseq; [apply findById_spec | | | ]; cbn beta; auto; [ | tauto].
  intros image d [-> Himage].
  destruct image as [img | ].
  2:{ apply hoare_reply. left. repeat split; discriminate. }
  destruct (Himage img eq_refl) as [Hin Hcast].
  unfold Image_findByIdAndDelete.
  repeat hoare_step; cbn; try congruence;
    right; (split; [reflexivity | ]); exists (image_id img), img;
    repeat split; congruence.
Qed.
End Writes.

Section OrderWrites.
Variable pf : Platform.
Variable w : World.

Lemma required_ObjectId_full path v db :
  hoare (required_ObjectId pf path v) db
    (fun i d => d = db /\ cast_ObjectId pf v = Some (Some i))
    (fun _ _ => False) (fun _ d => d = db).
Proof.
  unfold required_ObjectId. repeat hoare_step; cbn; auto.
  split; congruence.
Qed.

Lemma required_String_full path v db :
  hoare (required_String pf path v) db
    (fun s d => d = db /\ cast_String pf v = Some s)
    (fun _ _ => False) (fun _ d => d = db).
Proof. unfold required_String. repeat hoare_step; cbn; auto. Qed.

Lemma cast_line_items_full items : forall n db,
  hoare (cast_line_items pf w n items) db
    (fun ls d => d = db /\ Forall2 (stored_line pf) items ls)
    (fun _ _ => False) (fun _ d => d = db).
Proof.
  induction items as [ | item rest IH]; intros n db; cbn [cast_line_items].
  - apply hoare_ret. auto.
  - destruct item; try (apply hoare_throw; reflexivity).
    apply hoare_bind.
    eapply hoare_conseq; [apply required_ObjectId_full | | | ]; cbn beta; auto.
    intros pid d [-> Hpid].
    apply hoare_bind, hoare_attempt; [intros q Hq | reflexivity].
    apply hoare_bind.
    destruct (Qltb q 1) eqn:Hmin; [apply hoare_throw; reflexivity | apply hoare_ret].
    apply hoare_bind.
    eapply hoare_conseq; [apply cast_item_id_spec | | | ]; cbn beta; auto.
    intros id d [-> _]. apply hoare_bind.
    eapply hoare_conseq; [apply IH | | | ]; cbn beta; auto.
    intros ls d [-> Hrest]. apply hoare_ret. split; [reflexivity | ].
    constructor; [ | exact Hrest].
    exists fs. cbn. auto.
Qed.

Lemma Order_create_full user items name addr payment total db :
  hoare (Order_create pf w user items name addr payment total) db
    (fun o d => d = set_Order (Order db ++ [o])%list db
                /\ order_id o = new_ObjectId w 0
                /\ cast_ObjectId pf user = Some (Some (userId o))
                /\ (exists xs, items = JArr xs /\ Forall2 (stored_line pf) xs (products o))
                /\ cast_String pf name = Some (order_name o)
                /\ cast_String pf addr = Some (address o)
                /\ cast_String pf payment = Some (paymentType o)
                /\ cast_Number pf total = Some (amount o)
                /\ paymentStatus o = "pending" /\ createdAt o = Date_now w)
    (fun _ _ => False) (fun _ d => d = db).
Proof.
  unfold Order_create.
  apply hoare_bind.
  eapply hoare_conseq; [apply required_ObjectId_full | | | ]; cbn beta; auto.
  intros uid d [-> Huid]. apply hoare_bind.
  apply hoare_conseq with
    (N := fun ls d => d = db /\ exists xs, items = JArr xs /\ Forall2 (stored_line pf) xs ls)
    (S := fun _ _ => False) (T := fun _ d => d = db); auto.
  { destruct items; try (apply hoare_throw; reflexivity).
    eapply hoare_conseq; [apply cast_line_items_full | | | ]; cbn beta; auto.
    intros ls d [-> Hls]. eauto. }
  cbn beta. intros ls d [-> Hls].
  apply hoare_bind.
  eapply hoare_conseq; [apply required_String_full | | | ]; cbn beta; auto.
  intros nm d [-> Hnm]. apply hoare_bind.
  eapply hoare_conseq; [apply required_String_full | | | ]; cbn beta; auto.
  intros ad d [-> Had]. apply hoare_bind.
  eapply hoare_conseq; [apply required_String_full | | | ]; cbn beta; auto.
  intros pt d [-> Hpt].
  apply hoare_bind, hoare_attempt; [intros am Ham | reflexivity].
  apply hoare_bind, hoare_write, hoare_ret. cbn. repeat split; auto.
Qed.

(** The route with everything it establishes about the order it stores. *)
Lemma post_create_order_full b db :
  hoare (post_create_order pf w b) db (fun _ _ => False)
    (fun r d =>
       (status r <> 200 /\ status r <> 201 /\ d = db)
       \/ (status r = 201 /\ counted pf db b
           /\ exists o, d = set_Order (Order db ++ [o])%list db
                /\ body r = JObj [("order", order_json pf JStr JStr o)]
                /\ order_id o = new_ObjectId w 0
                /\ cast_ObjectId pf (field "userId" b) = Some (Some (userId o))
                /\ (exists xs, field "products" b = JArr xs
                               /\ Forall2 (stored_line pf) xs (products o))
                /\ cast_Number pf (field "amount" b) = Some (amount o)))
    (fun _ d => d = db).
Proof.
  unfold post_create_order.
  apply hoare_bind, hoare_reject_if; intros Hreq.
  { left. repeat split; discriminate. }
  apply hoare_bind, hoare_reject_if; intros Hvalid.
  { left. repeat split; discriminate. }
  apply hoare_bind, hoare_attempt; [intros each Heach | reflexivity].
  apply hoare_bind.
  eapply hoare_conseq; [apply check_items_spec | | | ]; cbn beta; auto.
  2:{ intros r d [-> Hr]. left. rewrite Hr. repeat split; discriminate. }
  intros _ d [-> Hitems]. apply hoare_bind.
  eapply hoare_conseq; [apply findById_spec | | | ]; cbn beta; auto; [ | tauto].
  intros found d [-> Hfound]. apply hoare_bind, hoare_reject_if; intros Huser.
  { left. repeat split; discriminate. }
  apply hoare_bind.
  eapply hoare_conseq; [apply products_map_productId_spec | | | ]; cbn beta; auto; [ | tauto].
  intros pids d [-> (xs & Hxs & Hpids)]. apply hoare_bind.
  eapply hoare_conseq; [apply Image_find_in_spec | | | ]; cbn beta; auto; [ | tauto].
  intros imgs d [-> (ids & Hids & Himgs)]. apply hoare_bind, hoare_reject_if; intros Hcount.
  { left. repeat split; discriminate. }
  apply hoare_bind.
  eapply hoare_conseq; [apply Order_create_full | | | ]; cbn beta; auto; [ | tauto].
  intros o d (-> & Hid & Huid & Hlines & _ & _ & _ & Ham & _ & _).
  apply hoare_reply. right.
  split; [reflexivity | ]. split.
  - repeat apply orb_false_iff in Hreq as [Hreq ?].
    repeat match goal with H : negb _ = false |- _ => apply negb_false_iff in H end.
    split; [unfold required_present; repeat split; assumption | ].
    split; [assumption | ].
    split.
    + destruct found as [u | ]; [ | discriminate].
      unfold resolves_user. exists u. apply Hfound. reflexivity.
    + exists xs, pids, ids. rewrite Hxs in Heach. cbn in Heach.
      injection Heach as <-. apply Nat.eqb_eq in Hcount. subst imgs. auto.
  - exists o. repeat split; auto.
Qed.
End OrderWrites.

(** ** One request, at most one write *)

Section Effects.
Variable pf : Platform.
Variable w : World.

Lemma read_only_unchanged (h : Route) failure db :
  hoare h db (fun _ _ => False) (fun _ d => d = db) (fun _ d => d = db) ->
  snd (run pf h failure db) = db.
Proof.
  intros H.
  apply (hoare_run pf h failure db (fun _ d => d = db)).
  eapply hoare_conseq; [exact H | | | ]; auto.
Qed.

Lemma login_reads coll key summary b db :
  hoare (login pf coll key summary b) db
    (fun _ _ => False) (fun _ d => d = db) (fun _ d => d = db).
Proof. unfold login, findOne_email. repeat hoare_step; cbn; auto. Qed.

Lemma post_cart_items_reads b db :
  hoare (post_cart_items pf b) db
    (fun _ _ => False) (fun _ d => d = db) (fun _ d => d = db).
Proof. unfold post_cart_items, Image_find_in. repeat hoare_step; cbn; auto. Qed.

Lemma get_admin_profile_reads q db :
  hoare (get_admin_profile pf q) db
    (fun _ _ => False) (fun _ d => d = db) (fun _ d => d = db).
Proof. unfold get_admin_profile, findOne_email. repeat hoare_step; cbn; auto. Qed.

Lemma get_order_reads id db :
  hoare (get_order pf id) db
    (fun _ _ => False) (fun _ d => d = db) (fun _ d => d = db).
Proof. unfold get_order, findById. repeat hoare_step; cbn; auto. Qed.

(** What a request answers and what it leaves behind: a response that is
    neither 200 nor 201 comes with the database untouched, and in every case
    the database has undergone at most one write. *)
Lemma app_outcome req db :
  let res := app pf w req db in
  (status (fst res) <> 200 -> status (fst res) <> 201 -> snd res = db)
  /\ effect w db (snd res).
Proof.
  cbv zeta.
  assert (Hrun : forall (h : Route) failure,
             hoare h db (fun _ _ => False)
               (fun r d => (status r <> 200 -> status r <> 201 -> d = db)
                           /\ effect w db d)
               (fun _ d => d = db) ->
             (status (fst (run pf h failure db)) <> 200 ->
              status (fst (run pf h failure db)) <> 201 ->
              snd (run pf h failure db) = db)
             /\ effect w db (snd (run pf h failure db))).
  { intros h failure H.
    apply (hoare_run pf h failure db
             (fun r d => (status r <> 200 -> status r <> 201 -> d = db)
                         /\ effect w db d)).
    eapply hoare_conseq; [exact H | | | ]; cbn; auto.
    intros e d ->. split; [auto | apply unchanged; reflexivity]. }
  assert (Hread : forall (h : Route) failure,
             hoare h db (fun _ _ => False) (fun _ d => d = db) (fun _ d => d = db) ->
             (status (fst (run pf h failure db)) <> 200 ->
              status (fst (run pf h failure db)) <> 201 ->
              snd (run pf h failure db) = db)
             /\ effect w db (snd (run pf h failure db))).
  { intros h failure H. apply Hrun.
    eapply hoare_conseq; [exact H | | | ]; cbn; auto.
    intros r d ->. split; [auto | apply unchanged; reflexivity]. }
  destruct req; cbn [app].
  - apply Hrun.
    eapply hoare_conseq; [apply post_upload_spec | | | ]; cbn; auto.
    intros r d [(H200 & H201 & ->) | (H200 & doc & -> & Hid & _)].
    + split; [auto | apply unchanged; reflexivity].
    + split; [contradiction | ]. apply (image_added w db _ doc); auto.
  - apply Hread. unfold get_images. repeat hoare_step; cbn; auto.
  - apply Hread, post_cart_items_reads.
  - apply Hrun.
    eapply hoare_conseq; [apply delete_image_spec | | | ]; cbn; auto.
    intros r d [(H200 & H201 & ->) | (H200 & i & img & _ & _ & _ & ->)].
    + split; [auto | apply unchanged; reflexivity].
    + split; [contradiction | ]. apply (image_removed w db _ i); auto.
  - apply Hrun. unfold post_create_admins.
    eapply hoare_conseq; [apply register_spec | | | ]; cbn; auto.
    intros r d [(H200 & H201 & ->) | (H201 & a & -> & Hid & _ & _ & _ & _ & _ & Hfresh & _)].
    + split; [auto | apply unchanged; reflexivity].
    + split; [contradiction | ]. apply (account_added w db _ true a); auto.
  - apply Hread, login_reads.
  - apply Hread, get_admin_profile_reads.
  - apply Hread. unfold get_admin_admins. repeat hoare_step; cbn; auto.
  - apply Hrun. unfold post_create_users.
    eapply hoare_conseq; [apply register_spec | | | ]; cbn; auto.
    intros r d [(H200 & H201 & ->) | (H201 & a & -> & Hid & _ & _ & _ & _ & _ & Hfresh & _)].
    + split; [auto | apply unchanged; reflexivity].
    + split; [contradiction | ]. apply (account_added w db _ false a); auto.
  - apply Hread, login_reads.
  - apply Hrun.
    eapply hoare_conseq; [apply post_create_order_full | | | ]; cbn; auto.
    intros r d [(H200 & H201 & ->) | (H201 & _ & o & -> & _ & Hid & _)].
    + split; [auto | apply unchanged; reflexivity].
    + split; [contradiction | ]. apply (order_added w db _ o); auto.
  - apply Hread. unfold get_orders. repeat hoare_step; cbn; auto.
  - apply Hread, get_order_reads.
  - apply Hread. unfold get_admin_users. repeat hoare_step; cbn; auto.
Qed.
End Effects.

(** X1.  Whatever the request, a response whose status is neither 200 nor
    201 (a 400, 401, 404, 413 or 500) comes with the database exactly as it
    was: no handler writes before it fails. *)
Theorem X1_errors_write_nothing pf w req db :
  status (fst (app pf w req db)) <> 200 ->
  status (fst (app pf w req db)) <> 201 ->
  snd (app pf w req db) = db.
Proof. exact (proj1 (app_outcome pf w req db)). Qed.

Lemma X1_errors_write_nothing_witness :
  let b := JObj [("image", JStr "data:image/png;base64,iVBORw0KGgo=");
                 ("name", JStr "Cup"); ("price", JStr "cheap")] in
  fst (app Sample.platform Sample.world (POST_upload b) Sample.db)
  = error_response 400 "Price must be a positive number"
  /\ snd (app Sample.platform Sample.world (POST_upload b) Sample.db) = Sample.db.
Proof.
  intros b. split; [reflexivity | ].
  apply (X1_errors_write_nothing Sample.platform Sample.world (POST_upload b) Sample.db);
    vm_compute; discriminate.
Defined.

(** X2.  No request removes or alters a stored user, admin or order: after
    any request each of the three collections is what it was, followed by
    at most one new record, and at most one collection has grown. *)
Theorem X2_accounts_and_orders_are_append_only pf w req db :
  let db' := snd (app pf w req db) in
  exists us ads os,
    userModel db' = (userModel db ++ us)%list
    /\ adminModel db' = (adminModel db ++ ads)%list
    /\ Order db' = (Order db ++ os)%list
    /\ (List.length us + List.length ads + List.length os <= 1)%nat.
Proof.
  cbv zeta. destruct (proj2 (app_outcome pf w req db)) as
    [-> | doc -> _ | i -> | admin a -> _ _ | o -> _].
  - exists [], [], []. rewrite !app_nil_r. cbn. auto.
  - exists [], [], []. rewrite !app_nil_r. cbn. auto.
  - exists [], [], []. rewrite !app_nil_r. cbn. auto.
  - destruct admin; cbn.
    + exists [], [a], []. rewrite !app_nil_r. cbn. auto.
    + exists [a], [], []. rewrite !app_nil_r. cbn. auto.
  - exists [], [], [o]. rewrite !app_nil_r. cbn. auto.
Qed.

(** X3.  The nine reading endpoints (the lists of images, admins, users and
    orders, the cart items, the two logins, the admin profile and the order
    by identifier) never change the database, whatever they answer. *)
Theorem X3_reading_endpoints_write_nothing pf w req db :
  read_only req = true -> snd (app pf w req db) = db.
Proof.
  destruct req; cbn [read_only app]; intros Hro; try discriminate Hro;
    apply read_only_unchanged.
  - unfold get_images. repeat hoare_step; cbn; auto.
  - apply post_cart_items_reads.
  - apply login_reads.
  - apply get_admin_profile_reads.
  - unfold get_admin_admins. repeat hoare_step; cbn; auto.
  - apply login_reads.
  - unfold get_orders. repeat hoare_step; cbn; auto.
  - apply get_order_reads.
  - unfold get_admin_users. repeat hoare_step; cbn; auto.
Qed.

Lemma X3_reading_endpoints_write_nothing_witness :
  snd (app Sample.platform Sample.world
         (POST_user_login (JObj [("email", JStr "alice@example.com");
                                 ("password", JStr "correct horse")])) Sample.db)
  = Sample.db.
Proof.
  apply (X3_reading_endpoints_write_nothing Sample.platform Sample.world).
  reflexivity.
Defined.

Lemma NoDup_snoc {X} (l : list X) (x : X) :
  NoDup l -> ~ In x l -> NoDup (l ++ [x]).
Proof.
  intros Hl Hx. apply NoDup_app; [assumption | repeat constructor; intros [] | ].
  intros y Hy [<- | []]. contradiction.
Qed.

(** X4.  Emails stay unique: if no two accounts of a collection share an
    email before a request, none do after it, whatever the request.  (The
    registration handlers look the email up first, and the unique index of
    the schema refuses what the lookup missed.) *)
Theorem X4_emails_stay_unique pf w req db admin :
  NoDup (map email (accounts admin db)) ->
  NoDup (map email (accounts admin (snd (app pf w req db)))).
Proof.
  intros Hnd. destruct (proj2 (app_outcome pf w req db)) as
    [-> | doc -> _ | i -> | admin' a -> _ Hfresh | o -> _];
    try (destruct admin; exact Hnd).
  destruct admin, admin'; cbn in *; try exact Hnd.
  - rewrite map_app. apply NoDup_snoc; [assumption | ].
    intros Hin. apply in_map_iff in Hin. destruct Hin as (x & Heq & Hx).
    apply (Hfresh x Hx Heq).
  - rewrite map_app. apply NoDup_snoc; [assumption | ].
    intros Hin. apply in_map_iff in Hin. destruct Hin as (x & Heq & Hx).
    apply (Hfresh x Hx Heq).
Qed.

Lemma X4_emails_stay_unique_witness :
  let b := JObj [("firstName", JStr "Bob"); ("secondName", JStr "Stone");
                 ("email", JStr "bob@example.com"); ("password", JStr "s3cret")] in
  map email (userModel (snd (app Sample.platform Sample.world
                               (POST_create_users b) Sample.db)))
  = ["alice@example.com"; "bob@example.com"]
  /\ NoDup (map email (accounts false
                         (snd (app Sample.platform Sample.world
                                 (POST_create_users b) Sample.db)))).
Proof.
  intros b. split; [reflexivity | ].
  apply (X4_emails_stay_unique Sample.platform Sample.world (POST_create_users b)
           Sample.db false).
  repeat constructor; intros [].
Defined.

Lemma remove_image_In i l x : In x (remove_image i l) -> In x l.
Proof.
  induction l as [ | d rest IH]; cbn; [auto | ].
  destruct (String.eqb (image_id d) i); cbn; intuition.
Qed.

Lemma remove_image_NoDup i l :
  NoDup (map image_id l) -> NoDup (map image_id (remove_image i l)).
Proof.
  induction l as [ | d rest IH]; cbn; intros H; [constructor | ].
  inversion H as [ | ? ? Hnotin Hrest]; subst.
  destruct (String.eqb (image_id d) i); cbn; [assumption | ].
  constructor; [ | auto].
  intros Hin. apply Hnotin. apply in_map_iff in Hin.
  destruct Hin as (x & Hx & Hin). apply in_map_iff. exists x.
  split; [assumption | ]. eapply remove_image_In; eassumption.
Qed.

(** X5.  Image identifiers stay distinct: if the stored images have distinct
    identifiers and the identifier Mongoose generates next is not one of
    them, the images have distinct identifiers after any request. *)
Theorem X5_image_identifiers_stay_distinct pf w req db :
  NoDup (map image_id (Image db)) ->
  ~ In (new_ObjectId w 0) (map image_id (Image db)) ->
  NoDup (map image_id (Image (snd (app pf w req db)))).
Proof.
  intros Hnd Hfresh. destruct (proj2 (app_outcome pf w req db)) as
    [-> | doc -> Hid | i -> | admin a -> _ _ | o -> _]; cbn; try exact Hnd.
  - rewrite map_app. cbn. apply NoDup_snoc; [assumption | ]. rewrite Hid. assumption.
  - apply remove_image_NoDup. assumption.
  - destruct admin; exact Hnd.
Qed.

Lemma X5_image_identifiers_stay_distinct_witness :
  let b := JObj [("image", JStr "data:image/png;base64,iVBORw0KGgo=");
                 ("name", JStr "Cup"); ("price", JStr "3")] in
  NoDup (map image_id (Image (snd (app Sample.platform Sample.world
                                     (POST_upload b) Sample.db)))).
Proof.
  intros b.
  apply (X5_image_identifiers_stay_distinct Sample.platform Sample.world
           (POST_upload b) Sample.db).
  - repeat constructor. intros [].
  - intros [H | []]. discriminate H.
Defined.

(** ** The parts of a data URI *)

(** X6.  On a data URI [data:image/<t>;base64,<payload>] whose subtype [t]
    is a non-empty run of word characters, the three string operations of
    the handlers agree with the parts: [startsWith('data:image/')] holds,
    the replacement of the prefix leaves exactly the payload, and
    [split(';')[0].split('/')[1]] is the subtype. *)
Theorem X6_data_uri_parts t payload :
  t <> "" -> all_word t = true ->
  let s := "data:image/" ++ t ++ ";base64," ++ payload in
  startsWith s "data:image/" = true
  /\ strip_data_uri s = payload
  /\ media_subtype s = Some t.
Proof. exact (data_uri_parts t payload). Qed.

Lemma X6_data_uri_parts_witness :
  startsWith "data:image/jpeg;base64,/9j/4AAQ" "data:image/" = true
  /\ strip_data_uri "data:image/jpeg;base64,/9j/4AAQ" = "/9j/4AAQ"
  /\ media_subtype "data:image/jpeg;base64,/9j/4AAQ" = Some "jpeg".
Proof.
  apply (X6_data_uri_parts "jpeg" "/9j/4AAQ"); [discriminate | reflexivity].
Defined.

(** ** Uploads *)

(** X7.  An upload answered 200 has stored exactly one new image, whose
    location is the one in the response and whose price is the parsed,
    non-negative price of the payload; every later GET /images lists the
    images stored before followed by that image, location included. *)
Theorem X7_uploaded_image_is_listed pf w b db r db' :
  app pf w (POST_upload b) db = (r, db') ->
  status r = 200 ->
  exists doc,
    Image db' = (Image db ++ [doc])%list
    /\ body r = JObj [("url", JStr (url doc))]
    /\ parseFloat pf (field "price" b) = Some (price doc)
    /\ Qltb (price doc) 0 = false
    /\ forall w',
         fst (app pf w' GET_images db')
         = {| status := 200;
              body := JArr (map image_json (Image db) ++ [image_json doc]) |}
         /\ field "url" (image_json doc) = field "url" (body r).
Proof.
  intros Happ H200.
  pose proof (hoare_run pf (post_upload pf w b) "Upload failed" db
    (fun r d =>
       (status r <> 200 /\ status r <> 201 /\ d = db)
       \/ (status r = 200
           /\ exists doc, d = set_Image (Image db ++ [doc])%list db
                /\ image_id doc = new_ObjectId w 0
                /\ body r = JObj [("url", JStr (url doc))]
                /\ parseFloat pf (field "price" b) = Some (price doc)
                /\ Qltb (price doc) 0 = false
                /\ cast_String pf (field "name" b) = Some (image_name doc)))) as H.
  cbn [app] in Happ. rewrite Happ in H. cbn [fst snd] in H.
  destruct H as [(Hne & _) | (_ & doc & -> & _ & Hbody & Hprice & Hpos & _)].
  - eapply hoare_conseq; [apply post_upload_spec | | | ]; cbn; auto.
    intros e d ->. left. repeat split; discriminate.
  - contradiction.
  - exists doc. repeat split; auto.
    + cbn. rewrite map_app. reflexivity.
    + rewrite Hbody. reflexivity.
Qed.

Lemma X7_uploaded_image_is_listed_witness :
  let b := JObj [("image", JStr "data:image/png;base64,iVBORw0KGgo=");
                 ("name", JStr "Cup"); ("price", JStr "3")] in
  let res := app Sample.platform Sample.world (POST_upload b) Sample.db in
  exists doc,
    Image (snd res) = (Image Sample.db ++ [doc])%list
    /\ body (fst res) = JObj [("url", JStr (url doc))]
    /\ parseFloat Sample.platform (field "price" b) = Some (price doc)
    /\ Qltb (price doc) 0 = false
    /\ forall w',
         fst (app Sample.platform w' GET_images (snd res))
         = {| status := 200;
              body := JArr (map image_json (Image Sample.db) ++ [image_json doc]) |}
         /\ field "url" (image_json doc) = field "url" (body (fst res)).
Proof.
  intros b res.
  apply (X7_uploaded_image_is_listed Sample.platform Sample.world b Sample.db
           (fst res) (snd res)).
  - apply surjective_pairing.
  - reflexivity.
Defined.


(** X9.  When the image of an upload is a data URI
    [data:image/<t>;base64,<payload>] that passes the checks, S3 is asked to
    store the payload under the key [<now>.<t>] with content type
    [image/<t>]; if S3 refuses, the upload is answered 500 "Upload failed"
    with the message of S3 and no image record is created. *)
Theorem X9_upload_refused_by_s3 pf w b db t payload p msg :
  t <> "" -> all_word t = true ->
  field "image" b = JStr ("data:image/" ++ t ++ ";base64," ++ payload) ->
  truthy (field "name" b) = true ->
  parseFloat pf (field "price" b) = Some p -> Qltb p 0 = false ->
  field "price" b <> JUndefined ->
  Buffer_base64_length pf payload <= 5242880 ->
  s3_upload w (upload_params pf w t payload) = inr msg ->
  app pf w (POST_upload b) db
  = ({| status := 500;
        body := JObj [("error", JStr "Upload failed");
                      ("details", JStr (exn_message pf (S3Error msg)))] |}, db).
Proof.
  intros Ht Hword Himg Hname Hp Hpos Hprice Hsize Hs3.
  destruct (data_uri_parts t payload Ht Hword) as (_ & Hstrip & Htype).
  cbn [app]. unfold run, post_upload.
  rewrite (bind_next _ _ db tt db).
  2:{ apply reject_if_false. rewrite Himg, Hname.
      destruct t; [contradiction | ]. cbn.
      destruct (field "price" b); try reflexivity. contradiction. }
  rewrite Hp.
  rewrite (bind_next _ _ db tt db) by (apply reject_if_false, Hpos).
  rewrite Himg. rewrite Hstrip, Htype.
  rewrite (bind_next _ _ db tt db).
  2:{ apply reject_if_false. apply not_true_iff_false. rewrite exceeds_5MB. lia. }
  change (type_json (Some t)) with (JStr t).
  fold (upload_params pf w t payload). rewrite Hs3. reflexivity.
Qed.

Lemma X9_upload_refused_by_s3_witness :
  let b := JObj [("image", JStr "data:image/png;base64,iVBORw0KGgo=");
                 ("name", JStr "Cup"); ("price", JNum 0)] in
  app Sample.platform refusing_world (POST_upload b) Sample.db
  = ({| status := 500;
        body := JObj [("error", JStr "Upload failed");
                      ("details", JStr "AccessDenied")] |}, Sample.db).
Proof.
  intros b.
  apply (X9_upload_refused_by_s3 Sample.platform refusing_world b Sample.db
           "png" "iVBORw0KGgo=" 0%Q "AccessDenied");
    solve [reflexivity | discriminate].
Defined.

(** ** Registration and login *)

(** X10.  A registration answered 201 has appended exactly one account to
    its own collection and left the other collections alone.  The password
    stored is what [bcrypt.hash] returned for the password of the payload,
    the email stored is the cast of the email of the payload and was not
    the email of any account before, and the picture stored is the one
    the response shows: empty, or the data URI of the payload. *)
Theorem X10_registered_account pf w admin b db r db' :
  app pf w (registration admin b) db = (r, db') ->
  status r = 201 ->
  exists a,
    accounts admin db' = (accounts admin db ++ [a])%list
    /\ accounts (negb admin) db' = accounts (negb admin) db
    /\ Image db' = Image db /\ Order db' = Order db
    /\ bcrypt_hash w (field "password" b) 10 = Some (password a)
    /\ cast_String pf (field "email" b) = Some (email a)
    /\ (forall x, In x (accounts admin db) -> email x <> email a)
    /\ (profilePicture a = "" \/ field "profilePicture" b = JStr (profilePicture a))
    /\ field "profilePicture" (field (if admin then "admin" else "user") (body r))
       = JStr (profilePicture a).
Proof.
  intros Happ H201. rewrite run_registration in Happ.
  pose proof (hoare_run pf
    (register pf w (accounts admin) (if admin then set_adminModel else set_userModel)
       (if admin then "Admin" else "User") (if admin then "admin" else "user") b)
    "Registration failed" db
    (fun r d =>
       (status r <> 200 /\ status r <> 201 /\ d = db)
       \/ (status r = 201
           /\ exists a, d = (if admin then set_adminModel else set_userModel)
                              (accounts admin db ++ [a])%list db
                /\ account_id a = new_ObjectId w 0
                /\ cast_String pf (field "firstName" b) = Some (firstName a)
                /\ cast_String pf (field "secondName" b) = Some (secondName a)
                /\ cast_String pf (field "email" b) = Some (email a)
                /\ bcrypt_hash w (field "password" b) 10 = Some (password a)
                /\ (profilePicture a = ""
                    \/ field "profilePicture" b = JStr (profilePicture a))
                /\ (forall x, In x (accounts admin db) -> email x <> email a)
                /\ body r = JObj [("message",
                                   JStr ((if admin then "Admin" else "User")
                                         ++ " registered successfully"));
                                  (if admin then "admin" else "user",
                                   JObj [("firstName", field "firstName" b);
                                         ("email", field "email" b);
                                         ("profilePicture",
                                          JStr (profilePicture a))])]))) as H.
  rewrite Happ in H. cbn [fst snd] in H.
  destruct H as [(_ & Hne & _) | (_ & a & -> & _ & _ & _ & He & Hp & Hpic & Hfresh & Hbody)].
  - eapply hoare_conseq; [apply register_spec | | | ]; cbn; auto.
    intros e d ->. left. repeat split; discriminate.
  - contradiction.
  - exists a. rewrite Hbody. destruct admin; cbn; repeat split; auto.
Qed.

Lemma X10_registered_account_witness :
  let b := JObj [("firstName", JStr "Bob"); ("secondName", JStr "Stone");
                 ("email", JStr "bob@example.com"); ("password", JStr "s3cret")] in
  let res := app Sample.platform Sample.world (registration false b) Sample.db in
  exists a,
    accounts false (snd res) = (accounts false Sample.db ++ [a])%list
    /\ accounts (negb false) (snd res) = accounts (negb false) Sample.db
    /\ Image (snd res) = Image Sample.db /\ Order (snd res) = Order Sample.db
    /\ bcrypt_hash Sample.world (field "password" b) 10 = Some (password a)
    /\ cast_String Sample.platform (field "email" b) = Some (email a)
    /\ (forall x, In x (accounts false Sample.db) -> email x <> email a)
    /\ (profilePicture a = "" \/ field "profilePicture" b = JStr (profilePicture a))
    /\ field "profilePicture" (field "user" (body (fst res))) = JStr (profilePicture a).
Proof.
  intros b res.
  apply (X10_registered_account Sample.platform Sample.world false b Sample.db
           (fst res) (snd res)).
  - apply surjective_pairing.
  - reflexivity.
Defined.

(** X11.  A registration with every required field and a new email whose
    profile picture is a non-empty string is answered 400 "Invalid base64
    image format" when the string does not start with [data:image/], and
    400 "Invalid image format. Use JPEG or PNG" when it does but its
    subtype is not exactly [jpeg], [jpg] or [png]; either way nothing is
    stored. *)
Theorem X11_picture_format_is_checked pf w admin b db s sel :
  truthy (field "firstName" b) = true -> truthy (field "secondName" b) = true ->
  truthy (field "email" b) = true -> truthy (field "password" b) = true ->
  query_String pf (field "email" b) = Some sel ->
  find (fun a => sel (email a)) (accounts admin db) = None ->
  field "profilePicture" b = JStr s -> s <> "" ->
  (startsWith s "data:image/" = false ->
   app pf w (registration admin b) db
   = (error_response 400 "Invalid base64 image format", db))
  /\ (startsWith s "data:image/" = true ->
      match media_subtype s with
      | Some t => existsb (String.eqb t) ["jpeg"; "jpg"; "png"]
      | None => false
      end = false ->
      app pf w (registration admin b) db
      = (error_response 400 "Invalid image format. Use JPEG or PNG", db)).
Proof.
  intros Hf Hs He Hp Hsel Hnone Hpic Hne.
  apply String.eqb_neq in Hne.
  rewrite run_registration. unfold run, register.
  rewrite (bind_next _ _ db tt db)
    by (apply reject_if_false; rewrite Hf, Hs, He, Hp; reflexivity).
  rewrite (bind_next _ _ db _ db (findOne_email_next _ _ _ _ db Hsel)).
  rewrite Hnone.
  rewrite (bind_next _ _ db tt db) by reflexivity.
  rewrite Hpic. unfold profile_picture_data. cbn [truthy]. rewrite Hne. cbn [negb].
  split.
  - intros Hprefix.
    rewrite (bind_sent _ _ db (error_response 400 "Invalid base64 image format") db);
      [reflexivity | ].
    apply bind_sent, reject_if_true. rewrite Hprefix. reflexivity.
  - intros Hprefix Htype.
    rewrite (bind_sent _ _ db
               (error_response 400 "Invalid image format. Use JPEG or PNG") db);
      [reflexivity | ].
    rewrite (bind_next _ _ db tt db)
      by (apply reject_if_false; rewrite Hprefix; reflexivity).
    apply bind_sent, reject_if_true. rewrite Htype. reflexivity.
Qed.

Lemma X11_picture_format_is_checked_witness :
  let b := JObj [("firstName", JStr "Bob"); ("secondName", JStr "Stone");
                 ("email", JStr "bob@example.com"); ("password", JStr "s3cret");
                 ("profilePicture", JStr "data:image/gif;base64,R0lGODlh")] in
  app Sample.platform Sample.world (registration true b) Sample.db
  = (error_response 400 "Invalid image format. Use JPEG or PNG", Sample.db).
Proof.
  intros b.
  apply (proj2 (X11_picture_format_is_checked Sample.platform Sample.world true b
                  Sample.db "data:image/gif;base64,R0lGODlh"
                  (String.eqb "bob@example.com")
                  eq_refl eq_refl eq_refl eq_refl eq_refl eq_refl eq_refl
                  ltac:(discriminate)));
    reflexivity.
Defined.

Section Logins.
Variable pf : Platform.

Lemma login_spec coll key summary b db :
  hoare (login pf coll key summary b) db (fun _ _ => False)
    (fun r _ =>
       (status r = 400
        <-> negb (truthy (field "email" b)) || negb (truthy (field "password" b)) = true)
       /\ (status r = 200 ->
           exists sel a,
             query_String pf (field "email" b) = Some sel
             /\ find (fun x => sel (email x)) (coll db) = Some a
             /\ bcrypt_compare pf (field "password" b) (password a) = Some true
             /\ body r = JObj [("message", JStr "Login successful"); (key, summary a)]))
    (fun _ _ =>
       negb (truthy (field "email" b)) || negb (truthy (field "password" b)) = false).
Proof.
  unfold login.
  apply hoare_bind, hoare_reject_if; intros Hreq.
  { cbn. split; [tauto | discriminate]. }
  apply hoare_bind.
  eapply hoare_conseq; [apply findOne_email_spec | | | ]; cbn beta; auto; [ | tauto].
  intros found d [-> (sel & Hsel & ->)].
  destruct (find _ (coll db)) as [a | ] eqn:Hfind.
  2:{ apply hoare_reply. cbn. rewrite Hreq. split; [split | ]; discriminate. }
  apply hoare_bind, hoare_attempt; [intros isMatch HisMatch | auto].
  destruct isMatch; apply hoare_reply; cbn; rewrite Hreq.
  - split; [split; discriminate | ]. intros _. exists sel, a. auto.
  - split; [split | ]; discriminate.
Qed.
End Logins.

(** X12.  A login, of an admin or of a user, is answered 200 only when the
    email condition selects a stored account of that collection and
    [bcrypt.compare] accepts the password of the payload against the
    password stored for that account; the response then carries the summary
    of that very account. *)
Theorem X12_login_succeeds_only_on_a_match pf w admin b db :
  status (fst (app pf w (login_request admin b) db)) = 200 ->
  exists sel a,
    query_String pf (field "email" b) = Some sel
    /\ find (fun x => sel (email x)) (accounts admin db) = Some a
    /\ bcrypt_compare pf (field "password" b) (password a) = Some true
    /\ body (fst (app pf w (login_request admin b) db))
       = JObj [("message", JStr "Login successful");
               (if admin then "admin" else "user",
                (if admin then admin_summary else user_summary) a)].
Proof.
  rewrite run_login.
  apply (hoare_run pf _ "Login failed" db
           (fun r _ => status r = 200 ->
              exists sel a,
                query_String pf (field "email" b) = Some sel
                /\ find (fun x => sel (email x)) (accounts admin db) = Some a
                /\ bcrypt_compare pf (field "password" b) (password a) = Some true
                /\ body r = JObj [("message", JStr "Login successful");
                                  (if admin then "admin" else "user",
                                   (if admin then admin_summary else user_summary) a)])).
  eapply hoare_conseq; [apply login_spec | | | ]; cbn; auto; [tauto | discriminate].
Qed.

Lemma X12_login_succeeds_only_on_a_match_witness :
  let b := JObj [("email", JStr "alice@example.com");
                 ("password", JStr "correct horse")] in
  exists sel a,
    query_String Sample.platform (field "email" b) = Some sel
    /\ find (fun x => sel (email x)) (accounts false Sample.db) = Some a
    /\ bcrypt_compare Sample.platform (field "password" b) (password a) = Some true
    /\ body (fst (app Sample.platform Sample.world (login_request false b) Sample.db))
       = JObj [("message", JStr "Login successful"); ("user", user_summary a)].
Proof.
  intros b.
  apply (X12_login_succeeds_only_on_a_match Sample.platform Sample.world false b
           Sample.db).
  reflexivity.
Defined.

(** X13.  A login is answered 400 exactly when the email or the password of
    the payload is absent or falsy (the empty string included); every other
    payload gets as far as the lookup. *)
Theorem X13_login_requires_both_fields pf w admin b db :
  status (fst (app pf w (login_request admin b) db)) = 400
  <-> negb (truthy (field "email" b)) || negb (truthy (field "password" b)) = true.
Proof.
  rewrite run_login.
  apply (hoare_run pf _ "Login failed" db
           (fun r _ => status r = 400
              <-> negb (truthy (field "email" b))
                  || negb (truthy (field "password" b)) = true)).
  eapply hoare_conseq; [apply login_spec | | | ]; cbn; auto; [tauto | ].
  intros e d ->. split; discriminate.
Qed.

(** ** Orders, cart items and deletion *)

Lemma Forall2_In_r {X Y} (R : X -> Y -> Prop) xs ys :
  Forall2 R xs ys -> forall y, In y ys -> exists x, In x xs /\ R x y.
Proof.
  induction 1 as [ | x y xs ys Hxy _ IH]; intros z Hz; [contradiction | ].
  destruct Hz as [<- | Hz].
  - exists x. cbn. auto.
  - destruct (IH z Hz) as (x' & Hx' & HR). exists x'. cbn. auto.
Qed.

Lemma run_post_create_order_full pf w b db :
  let res := app pf w (POST_create_order b) db in
  status (fst res) = 201 ->
  counted pf db b
  /\ exists o, snd res = set_Order (Order db ++ [o])%list db
       /\ body (fst res) = JObj [("order", order_json pf JStr JStr o)]
       /\ order_id o = new_ObjectId w 0
       /\ cast_ObjectId pf (field "userId" b) = Some (Some (userId o))
       /\ (exists xs, field "products" b = JArr xs
                      /\ Forall2 (stored_line pf) xs (products o))
       /\ cast_Number pf (field "amount" b) = Some (amount o).
Proof.
  cbv zeta. cbn [app].
  apply (hoare_run pf (post_create_order pf w b) "Order creation failed" db
           (fun r d => status r = 201 ->
              counted pf db b
              /\ exists o, d = set_Order (Order db ++ [o])%list db
                   /\ body r = JObj [("order", order_json pf JStr JStr o)]
                   /\ order_id o = new_ObjectId w 0
                   /\ cast_ObjectId pf (field "userId" b) = Some (Some (userId o))
                   /\ (exists xs, field "products" b = JArr xs
                                  /\ Forall2 (stored_line pf) xs (products o))
                   /\ cast_Number pf (field "amount" b) = Some (amount o))).
  eapply hoare_conseq; [apply post_create_order_full | | | ]; cbn; auto;
    [ | discriminate].
  intros r d [(_ & Hne & _) | (_ & Hcounted & Ho)] H201; [contradiction | auto].
Qed.

(** X14.  An order that is stored refers to what exists: when order creation
    answers 201 (the stored images having distinct identifiers), the
    [userId] of the new order is the identifier of a stored user, every
    line item has the identifier of a stored image and a quantity of at
    least 1, and there is one stored line item per item of the payload. *)
Theorem X14_stored_order_refers_to_existing_records pf w b db :
  NoDup (map image_id (Image db)) ->
  let res := app pf w (POST_create_order b) db in
  status (fst res) = 201 ->
  exists o,
    Order (snd res) = (Order db ++ [o])%list
    /\ (exists u, In u (userModel db) /\ account_id u = userId o)
    /\ Forall (fun l => (exists i, In i (Image db) /\ image_id i = productId l)
                        /\ Qltb (quantity l) 1 = false) (products o)
    /\ exists xs, field "products" b = JArr xs
                  /\ List.length (products o) = List.length xs.
Proof.
  intros Hnd res H201. subst res.
  destruct (run_post_create_order_full pf w b db H201)
    as (Hcounted & o & -> & _ & _ & Huid & (xs & Hxs & Hlines) & _).
  destruct Hcounted as (_ & _ & (u & Hu & Hucast) & items & pids & ids
                        & Hitems & _ & Hmap & Hids & Hcount).
  rewrite Hxs in Hitems. injection Hitems as <-.
  exists o. split; [reflexivity | ]. split; [ | split].
  - exists u. split; [assumption | congruence].
  - apply Forall_forall. intros l Hl.
    destruct (Forall2_In_r _ _ _ Hlines l Hl) as (item & Hitem & fs & -> & Hpid & _ & Hq).
    split; [ | assumption].
    destruct (map_productId_In xs pids Hmap _ Hitem) as (pid & Hget & Hpin).
    cbn in Hget. injection Hget as <-.
    destruct (found_all_resolve pf (Image db) pids ids Hnd Hids Hcount _ Hpin)
      as (img & Himg & Hcast).
    exists img. split; [assumption | congruence].
  - exists xs. split; [assumption | ]. symmetry. eapply Forall2_length. eassumption.
Qed.

Lemma X14_stored_order_refers_to_existing_records_witness :
  let b := Sample.order_body (JArr [Sample.line "64C0000000000000000000A1" 2]) (JNum 24) in
  let res := app Sample.platform Sample.world (POST_create_order b) Sample.db in
  exists o,
    Order (snd res) = (Order Sample.db ++ [o])%list
    /\ (exists u, In u (userModel Sample.db) /\ account_id u = userId o)
    /\ Forall (fun l => (exists i, In i (Image Sample.db) /\ image_id i = productId l)
                        /\ Qltb (quantity l) 1 = false) (products o)
    /\ exists xs, field "products" b = JArr xs
                  /\ List.length (products o) = List.length xs.
Proof.
  intros b res.
  apply (X14_stored_order_refers_to_existing_records Sample.platform Sample.world b
           Sample.db).
  - repeat constructor. intros [].
  - reflexivity.
Defined.

Lemma find_snoc {X} (p : X -> bool) l x :
  (forall y, In y l -> p y = false) -> p x = true -> find p (l ++ [x]) = Some x.
Proof.
  intros Hl Hx. induction l as [ | y l IH]; cbn.
  - rewrite Hx. reflexivity.
  - rewrite (Hl y (or_introl eq_refl)). apply IH.
    intros z Hz. apply Hl. right. assumption.
Qed.

(** X15.  An order that has been created can be read back: after a creation
    answered 201 whose new identifier is one the platform reads as itself
    and no older order has, GET /order/:id with that identifier answers 200
    with the order stored, its products populated from the images, and
    leaves the database alone. *)
Theorem X15_created_order_is_read_back pf w w' b db :
  let oid := new_ObjectId w 0 in
  let res := app pf w (POST_create_order b) db in
  status (fst res) = 201 ->
  ObjectId_isValid pf (JStr oid) = true ->
  cast_ObjectId pf (JStr oid) = Some (Some oid) ->
  ~ In oid (map order_id (Order db)) ->
  exists o,
    body (fst res) = JObj [("order", order_json pf JStr JStr o)]
    /\ order_id o = oid
    /\ app pf w' (GET_order oid) (snd res)
       = ({| status := 200;
             body := JObj [("order",
                            order_json pf JStr (populate_image None (snd res)) o)] |},
          snd res).
Proof.
  intros oid res H201 Hvalid Hcast Hfresh. subst res.
  destruct (run_post_create_order_full pf w b db H201)
    as (_ & o & Hdb & Hbody & Hid & _).
  exists o. split; [assumption | ]. split; [assumption | ].
  rewrite Hdb. cbn [app]. unfold run, get_order.
  rewrite (bind_next _ _ _ tt _) by (apply reject_if_false; rewrite Hvalid; reflexivity).
  rewrite (bind_next _ _ _ _ _ (findById_next _ _ _ _ oid _ Hcast)).
  cbn [Order set_Order].
  rewrite (find_snoc _ (Order db) o); [reflexivity | | ].
  - intros y Hy. apply String.eqb_neq. intros Heq. apply Hfresh.
    apply in_map_iff. exists y. auto.
  - apply String.eqb_eq. assumption.
Qed.

Lemma X15_created_order_is_read_back_witness :
  let b := Sample.order_body (JArr [Sample.line "64c0000000000000000000a1" 2]) (JNum 24) in
  let res := app Sample.platform Sample.world (POST_create_order b) Sample.db in
  exists o,
    body (fst res) = JObj [("order", order_json Sample.platform JStr JStr o)]
    /\ order_id o = new_ObjectId Sample.world 0
    /\ app Sample.platform refusing_world (GET_order (new_ObjectId Sample.world 0)) (snd res)
       = ({| status := 200;
             body := JObj [("order",
                            order_json Sample.platform JStr
                              (populate_image None (snd res)) o)] |},
          snd res).
Proof.
  intros b res.
  apply (X15_created_order_is_read_back Sample.platform Sample.world refusing_world b
           Sample.db); try reflexivity.
  intros [].
Defined.

Lemma cast_ids_In pf vs : forall ids,
  cast_ids pf vs = inr ids ->
  forall i, In i ids <-> exists v, In v vs /\ cast_ObjectId pf v = Some (Some i).
Proof.
  induction vs as [ | v rest IH]; cbn; intros ids H i.
  - injection H as <-. split; [intros [] | intros (v & [] & _)].
  - destruct (cast_ObjectId pf v) as [o | ] eqn:Hv; [ | discriminate].
    destruct (cast_ids pf rest) as [bad | ids'] eqn:Hrest; [discriminate | ].
    injection H as <-. specialize (IH ids' eq_refl i).
    destruct o as [j | ]; cbn; rewrite ?IH; split.
    + intros [<- | (x & Hx & Hc)]; [exists v; auto | exists x; auto].
    + intros (x & [<- | Hx] & Hc); [left; congruence | right; exists x; auto].
    + intros (x & Hx & Hc). exists x. auto.
    + intros (x & [<- | Hx] & Hc); [congruence | exists x; auto].
Qed.

Lemma cast_ids_inl pf vs : forall bad,
  cast_ids pf vs = inl bad -> In bad vs /\ cast_ObjectId pf bad = None.
Proof.
  induction vs as [ | v rest IH]; cbn; intros bad H; [discriminate | ].
  destruct (cast_ObjectId pf v) as [o | ] eqn:Hv.
  - destruct (cast_ids pf rest) as [bad' | ids']; [ | discriminate].
    injection H as <-. destruct (IH bad' eq_refl). auto.
  - injection H as <-. auto.
Qed.

(** X16.  What /cart-items answers depends only on which identifiers are
    sent, not on their order nor on how often each is repeated: two lists
    with the same elements, all of which cast to identifiers, get the same
    response, each matching image listed once in storage order. *)
Theorem X16_cart_items_depend_on_the_set_of_ids pf w b1 b2 db vs1 vs2 ids :
  field "ids" b1 = JArr vs1 -> field "ids" b2 = JArr vs2 ->
  (forall v, In v vs1 <-> In v vs2) ->
  cast_ids pf vs1 = inr ids ->
  app pf w (POST_cart_items b1) db = app pf w (POST_cart_items b2) db
  /\ fst (app pf w (POST_cart_items b1) db)
     = {| status := 200;
          body := JArr (map image_json
                          (filter (fun i => existsb (String.eqb (image_id i)) ids)
                             (Image db))) |}.
Proof.
  intros H1 H2 Hsame Hids.
  cbn [app]. unfold run, post_cart_items, Image_find_in. rewrite H1, H2, Hids.
  destruct (cast_ids pf vs2) as [bad | ids2] eqn:Hids2.
  - exfalso. destruct (cast_ids_inl pf vs2 bad Hids2) as [Hin Hbad].
    apply Hsame in Hin. destruct (cast_ids_bad pf vs1 bad Hin Hbad) as (v & Hv).
    congruence.
  - split; [ | reflexivity].
    assert (Hfilter : filter (fun i => existsb (String.eqb (image_id i)) ids) (Image db)
                      = filter (fun i => existsb (String.eqb (image_id i)) ids2) (Image db)).
    { apply filter_ext. intros img. apply eq_true_iff_eq.
      rewrite !existsb_exists. split; intros (x & Hx & Heq); exists x; (split; [ | assumption]).
      - apply (cast_ids_In pf vs2 ids2 Hids2).
        apply (cast_ids_In pf vs1 ids Hids) in Hx. destruct Hx as (v & Hv & Hc).
        exists v. split; [apply Hsame | ]; assumption.
      - apply (cast_ids_In pf vs1 ids Hids).
        apply (cast_ids_In pf vs2 ids2 Hids2) in Hx. destruct Hx as (v & Hv & Hc).
        exists v. split; [apply Hsame | ]; assumption. }
    cbn. unfold read, bind. cbn. rewrite Hfilter. reflexivity.
Qed.

Lemma X16_cart_items_depend_on_the_set_of_ids_witness :
  let b1 := JObj [("ids", JArr [JStr "64c0000000000000000000a1"])] in
  let b2 := JObj [("ids", JArr [JStr "64c0000000000000000000a1";
                                JStr "64c0000000000000000000a1"])] in
  app Sample.platform Sample.world (POST_cart_items b1) Sample.db
  = app Sample.platform Sample.world (POST_cart_items b2) Sample.db
  /\ fst (app Sample.platform Sample.world (POST_cart_items b1) Sample.db)
     = {| status := 200;
          body := JArr (map image_json
                          (filter (fun i => existsb (String.eqb (image_id i))
                                              ["64c0000000000000000000a1"])
                             (Image Sample.db))) |}.
Proof.
  intros b1 b2.
  apply (X16_cart_items_depend_on_the_set_of_ids Sample.platform Sample.world b1 b2
           Sample.db [JStr "64c0000000000000000000a1"]
           [JStr "64c0000000000000000000a1"; JStr "64c0000000000000000000a1"]);
    try reflexivity.
  intros v. cbn. tauto.
Defined.

Lemma remove_image_find i l :
  NoDup (map image_id l) ->
  find (fun d => String.eqb (image_id d) i) (remove_image i l) = None.
Proof.
  induction l as [ | d rest IH]; cbn; intros H; [reflexivity | ].
  inversion H as [ | ? ? Hnotin Hrest]; subst.
  destruct (String.eqb (image_id d) i) eqn:Hd.
  - apply String.eqb_eq in Hd. subst i.
    destruct (find _ rest) as [x | ] eqn:Hf; [ | reflexivity].
    apply find_some in Hf. destruct Hf as [Hx Heq]. apply String.eqb_eq in Heq.
    exfalso. apply Hnotin. apply in_map_iff. exists x. auto.
  - cbn. rewrite Hd. auto.
Qed.

Lemma remove_image_others i l x :
  image_id x <> i -> In x l -> In x (remove_image i l).
Proof.
  intros Hx. induction l as [ | d rest IH]; cbn; [auto | ].
  intros [<- | Hin].
  - apply String.eqb_neq in Hx. rewrite Hx. left. reflexivity.
  - destruct (String.eqb (image_id d) i); [assumption | right; auto].
Qed.

(** X17.  Deleting a stored image by a valid identifier answers 200 and
    removes that image and no other, leaving users, admins and orders (also
    the orders that refer to the image) as they were; deleting it again
    answers 404 "Image not found" and changes nothing.  Stored images have
    distinct identifiers. *)
Theorem X17_delete_once_then_not_found pf w w' db id i img :
  ObjectId_isValid pf (JStr id) = true ->
  cast_ObjectId pf (JStr id) = Some (Some i) ->
  NoDup (map image_id (Image db)) ->
  In img (Image db) -> image_id img = i ->
  let first := app pf w (DELETE_delete_image id) db in
  let second := app pf w' (DELETE_delete_image id) (snd first) in
  fst first = {| status := 200;
                 body := JObj [("message", JStr "Product deleted successfully")] |}
  /\ (forall x, In x (Image (snd first)) <-> In x (Image db) /\ image_id x <> i)
  /\ userModel (snd first) = userModel db /\ adminModel (snd first) = adminModel db
  /\ Order (snd first) = Order db
  /\ second = (error_response 404 "Image not found", snd first).
Proof.
  intros Hvalid Hcast Hnd Hin Hid.
  assert (Hfind : exists x, find (fun d => String.eqb (image_id d) i) (Image db) = Some x).
  { destruct (find _ (Image db)) as [x | ] eqn:Hf; [eauto | ].
    apply (find_none _ _ Hf) in Hin. rewrite Hid, String.eqb_refl in Hin. discriminate. }
  destruct Hfind as (x & Hx).
  assert (Hfirst : app pf w (DELETE_delete_image id) db
                   = ({| status := 200;
                         body := JObj [("message", JStr "Product deleted successfully")] |},
                      set_Image (remove_image i (Image db)) db)).
  { cbn [app]. unfold run, delete_image.
    rewrite (bind_next _ _ _ tt _) by (apply reject_if_false; rewrite Hvalid; reflexivity).
    rewrite (bind_next _ _ _ _ _ (findById_next _ _ _ _ i _ Hcast)).
    rewrite Hx. cbv zeta.
    rewrite (bind_next _ _ db tt db) by (destruct (s3_deleteObject w _); reflexivity).
    unfold Image_findByIdAndDelete, bind. rewrite Hcast. reflexivity. }
  cbv zeta. rewrite Hfirst. cbn [fst snd].
  split; [reflexivity | ]. split; [ | repeat split].
  - intros y. cbn [Image set_Image]. split.
    + intros Hy. split; [eapply remove_image_In; eassumption | ].
      intros Heq. pose proof (remove_image_find i (Image db) Hnd) as Hnone.
      apply (find_none _ _ Hnone) in Hy. rewrite Heq, String.eqb_refl in Hy. discriminate.
    + intros [Hy Hne]. apply remove_image_others; assumption.
  - cbn [app]. unfold run, delete_image.
    rewrite (bind_next _ _ _ tt _) by (apply reject_if_false; rewrite Hvalid; reflexivity).
    rewrite (bind_next _ _ _ _ _ (findById_next _ _ _ _ i _ Hcast)).
    cbn [Image set_Image]. rewrite (remove_image_find i (Image db) Hnd). reflexivity.
Qed.

Lemma X17_delete_once_then_not_found_witness :
  let first := app Sample.platform Sample.world
                 (DELETE_delete_image "64c0000000000000000000a1") Sample.db in
  let second := app Sample.platform refusing_world
                  (DELETE_delete_image "64c0000000000000000000a1") (snd first) in
  fst first = {| status := 200;
                 body := JObj [("message", JStr "Product deleted successfully")] |}
  /\ (forall x, In x (Image (snd first))
                <-> In x (Image Sample.db) /\ image_id x <> "64c0000000000000000000a1")
  /\ userModel (snd first) = userModel Sample.db
  /\ adminModel (snd first) = adminModel Sample.db
  /\ Order (snd first) = Order Sample.db
  /\ second = (error_response 404 "Image not found", snd first).
Proof.
  apply (X17_delete_once_then_not_found Sample.platform Sample.world refusing_world
           Sample.db "64c0000000000000000000a1" "64c0000000000000000000a1" Sample.mug);
    try reflexivity.
  - repeat constructor. intros [].
  - left. reflexivity.
Defined.

(** ** The order workflow, check by check *)

Section OrderChecks.
Variable pf : Platform.
Variable w : World.

Lemma check_items_next items db :
  Forall (item_ok pf) items -> check_items pf items db = (Next tt, db).
Proof.
  induction 1 as [ | item rest (pid & qty & Hpid & Hvalid & Hqty & Hint & Hlt) _ IH];
    cbn [check_items]; [reflexivity | ].
  rewrite Hpid. rewrite (bind_next _ _ db pid db) by reflexivity.
  rewrite (bind_next _ _ db tt db) by (apply reject_if_false; rewrite Hvalid; reflexivity).
  rewrite Hqty. rewrite (bind_next _ _ db qty db) by reflexivity.
  rewrite (bind_next _ _ db tt db)
    by (apply reject_if_false; rewrite Hint, Hlt; reflexivity).
  exact IH.
Qed.

Lemma item_ok_map_productId items :
  Forall (item_ok pf) items -> exists pids, map_productId items = Some pids.
Proof.
  induction 1 as [ | item rest (pid & _ & Hpid & _) _ (pids & IH)]; cbn.
  - eauto.
  - rewrite Hpid, IH. eauto.
Qed.

Lemma cast_ids_inr vs :
  (forall v, In v vs -> cast_ObjectId pf v <> None) -> exists ids, cast_ids pf vs = inr ids.
Proof.
  intros Hall. destruct (cast_ids pf vs) as [bad | ids] eqn:H; [ | eauto].
  destruct (cast_ids_inl pf vs bad H) as [Hin Hbad]. destruct (Hall bad Hin Hbad).
Qed.

(** The steps of the route up to the lookup of the user. *)
Lemma post_create_order_to_user b db items uid :
  required_present b ->
  ObjectId_isValid pf (field "userId" b) = true ->
  field "products" b = JArr items -> Forall (item_ok pf) items ->
  cast_ObjectId pf (field "userId" b) = Some (Some uid) ->
  exists k,
    post_create_order pf w b db
    = k (find (fun u => String.eqb (account_id u) uid) (userModel db)) db
    /\ k None db = (Sent (error_response 404 "User not found"), db)
    /\ forall u, k (Some u) db
       = bind (products_map_productId (JArr items))
           (fun productIds =>
              bind (Image_find_in pf productIds)
                (fun foundProducts =>
                   bind (reject_if
                           (negb (Nat.eqb (List.length foundProducts)
                                    (List.length productIds)))
                           404 "One or more products not found")
                     (fun _ =>
                        bind (Order_create pf w (field "userId" b) (JArr items)
                                (field "name" b) (field "address" b)
                                (field "paymentType" b) (field "amount" b))
                          (fun order =>
                             reply 201
                               (JObj [("order", order_json pf JStr JStr order)])))))
           db.
Proof.
  intros (Hu & Hp & Hn & Ha & Ht & Hm) Hvalid Hitems Hok Hcast.
  eexists (fun found =>
             bind (reject_if (match found with None => true | Some _ => false end)
                     404 "User not found") _).
  split; [ | split].
  - unfold post_create_order.
    rewrite (bind_next _ _ db tt db)
      by (apply reject_if_false; rewrite Hu, Hp, Hn, Ha, Ht, Hm; reflexivity).
    rewrite (bind_next _ _ db tt db)
      by (apply reject_if_false; rewrite Hvalid; reflexivity).
    rewrite Hitems.
    rewrite (bind_next _ _ db items db) by reflexivity.
    rewrite (bind_next _ _ db tt db (check_items_next items db Hok)).
    rewrite (bind_next _ _ db _ db (findById_next _ _ _ _ uid db Hcast)).
    reflexivity.
  - reflexivity.
  - intros u. reflexivity.
Qed.
End OrderChecks.

(** X18.  An order whose fields are present, whose identifiers are valid and
    whose quantities are positive integers, but whose [userId] is the
    identifier of no stored user, is answered 404 "User not found" and
    stores nothing. *)
Theorem X18_order_for_an_unknown_user pf w b db items uid :
  required_present b ->
  ObjectId_isValid pf (field "userId" b) = true ->
  field "products" b = JArr items -> Forall (item_ok pf) items ->
  cast_ObjectId pf (field "userId" b) = Some (Some uid) ->
  (forall u, In u (userModel db) -> account_id u <> uid) ->
  app pf w (POST_create_order b) db = (error_response 404 "User not found", db).
Proof.
  intros Hreq Hvalid Hitems Hok Hcast Hnone.
  destruct (post_create_order_to_user pf w b db items uid Hreq Hvalid Hitems Hok Hcast)
    as (k & Hk & Hnot & _).
  cbn [app]. unfold run. rewrite Hk.
  assert (Hfind : find (fun u => String.eqb (account_id u) uid) (userModel db) = None).
  { destruct (find _ (userModel db)) as [u | ] eqn:Hf; [ | reflexivity].
    apply find_some in Hf. destruct Hf as [Hin Heq]. apply String.eqb_eq in Heq.
    destruct (Hnone u Hin Heq). }
  rewrite Hfind, Hnot. reflexivity.
Qed.

Lemma X18_order_for_an_unknown_user_witness :
  let b := JObj [("userId", JStr "64b0000000000000000000ff");
                 ("products", JArr [Sample.line "64c0000000000000000000a1" 2]);
                 ("name", JStr "Alice Martin"); ("address", JStr "1 Main Street");
                 ("paymentType", JStr "card"); ("amount", JNum 24)] in
  app Sample.platform Sample.world (POST_create_order b) Sample.db
  = (error_response 404 "User not found", Sample.db).
Proof.
  intros b.
  apply (X18_order_for_an_unknown_user Sample.platform Sample.world b Sample.db
           [Sample.line "64c0000000000000000000a1" 2] "64b0000000000000000000ff");
    try reflexivity.
  - repeat split.
  - repeat constructor. eexists _, _. repeat split.
  - intros u [<- | []]. discriminate.
Defined.

(** X19.  An order that passes the checks of form and names an existing
    user, all of whose product identifiers cast, but one of whose line items
    names an identifier no stored image has, is answered 404 "One or more
    products not found" and stores nothing.  Stored images have distinct
    identifiers. *)
Theorem X19_order_for_a_missing_product pf w b db items uid u item pid i :
  required_present b ->
  ObjectId_isValid pf (field "userId" b) = true ->
  field "products" b = JArr items -> Forall (item_ok pf) items ->
  cast_ObjectId pf (field "userId" b) = Some (Some uid) ->
  In u (userModel db) -> account_id u = uid ->
  NoDup (map image_id (Image db)) ->
  (forall x p, In x items -> get_prop "productId" x = Some p ->
               cast_ObjectId pf p <> None) ->
  In item items -> get_prop "productId" item = Some pid ->
  cast_ObjectId pf pid = Some (Some i) ->
  (forall img, In img (Image db) -> image_id img <> i) ->
  app pf w (POST_create_order b) db
  = (error_response 404 "One or more products not found", db).
Proof.
  intros Hreq Hvalid Hitems Hok Hcast Hu Huid Hnd Hcasts Hitem Hpid Hi Hmissing.
  destruct (post_create_order_to_user pf w b db items uid Hreq Hvalid Hitems Hok Hcast)
    as (k & Hk & _ & Hsome).
  cbn [app]. unfold run. rewrite Hk.
  destruct (find _ (userModel db)) as [u' | ] eqn:Hf.
  2:{ apply (find_none _ _ Hf) in Hu. rewrite Huid, String.eqb_refl in Hu. discriminate. }
  rewrite Hsome.
  destruct (item_ok_map_productId pf items Hok) as (pids & Hpids).
  unfold products_map_productId. rewrite Hpids.
  rewrite (bind_next _ _ db pids db) by reflexivity.
  destruct (cast_ids_inr pf pids) as (ids & Hids).
  { intros v Hv Hnone.
    assert (Hex : exists x, In x items /\ get_prop "productId" x = Some v).
    { clear - Hpids Hv. revert pids Hpids Hv.
      induction items as [ | x rest IH]; cbn; intros pids Hpids Hv.
      - injection Hpids as <-. destruct Hv.
      - destruct (get_prop "productId" x) as [q | ] eqn:Hx; [ | discriminate].
        destruct (map_productId rest) as [pids' | ]; [ | discriminate].
        injection Hpids as <-. destruct Hv as [<- | Hv]; [eauto | ].
        destruct (IH pids' eq_refl Hv) as (y & Hy & Hq). eauto. }
    destruct Hex as (x & Hx & Hget). apply (Hcasts x v Hx Hget Hnone). }
  unfold Image_find_in. rewrite Hids.
  rewrite (bind_next _ _ db _ db) by reflexivity.
  rewrite (bind_sent _ _ db (error_response 404 "One or more products not found") db);
    [reflexivity | ].
  apply reject_if_true. apply negb_true_iff. apply Nat.eqb_neq. intros Hcount.
  destruct (map_productId_In items pids Hpids item Hitem) as (pid' & Hpid' & Hin).
  rewrite Hpid in Hpid'. injection Hpid' as <-.
  destruct (found_all_resolve pf (Image db) pids ids Hnd Hids Hcount pid Hin)
    as (img & Himg & Hc).
  apply (Hmissing img Himg). congruence.
Qed.

Lemma X19_order_for_a_missing_product_witness :
  let b := Sample.order_body
             (JArr [Sample.line "64c0000000000000000000a1" 1;
                    Sample.line "64c0000000000000000000ff" 1]) (JNum 24) in
  app Sample.platform Sample.world (POST_create_order b) Sample.db
  = (error_response 404 "One or more products not found", Sample.db).
Proof.
  intros b.
  apply (X19_order_for_a_missing_product Sample.platform Sample.world b Sample.db
           [Sample.line "64c0000000000000000000a1" 1;
            Sample.line "64c0000000000000000000ff" 1]
           "64b000000000000000000001" Sample.alice
           (Sample.line "64c0000000000000000000ff" 1)
           (JStr "64c0000000000000000000ff") "64c0000000000000000000ff");
    try reflexivity.
  - repeat split.
  - repeat constructor; eexists _, _; repeat split.
  - left. reflexivity.
  - repeat constructor. intros [].
  - intros x p [<- | [<- | []]] [= <-]; discriminate.
  - right. left. reflexivity.
  - intros img [<- | []]. discriminate.
Defined.

Section OrderSuccess.
Variable pf : Platform.
Variable w : World.

Lemma castable_lines_ids xs ids :
  Forall2 (castable_line pf) xs ids ->
  exists pids, map_productId xs = Some pids /\ cast_ids pf pids = inr ids
               /\ List.length pids = List.length ids.
Proof.
  induction 1 as [ | item i xs ids (fs & q & -> & Hcast & _) _ (pids & Hmap & Hids & Hlen)].
  - exists []. auto.
  - exists (lookup "productId" fs :: pids). cbn. rewrite Hmap, Hcast, Hids, Hlen. auto.
Qed.

Lemma cast_item_id_next n v db :
  v = JUndefined \/ cast_ObjectId pf v <> None ->
  exists id, cast_item_id pf w n v db = (Next id, db).
Proof.
  intros [-> | Hcast]; [eexists; reflexivity | ].
  unfold cast_item_id.
  destruct (cast_ObjectId pf v) as [id | ] eqn:Hv; [ | contradiction].
  destruct v; eexists; reflexivity.
Qed.

Lemma cast_line_items_next xs ids :
  Forall2 (castable_line pf) xs ids ->
  forall n db, exists ls, cast_line_items pf w n xs db = (Next ls, db).
Proof.
  induction 1 as [ | item i xs ids (fs & q & -> & Hcast & Hq & Hmin & Hid) _ IH];
    intros n db.
  - exists []. reflexivity.
  - destruct (IH (S n) db) as (ls & Hls).
    destruct (cast_item_id_next n (lookup "_id" fs) db Hid) as (id & Hitem).
    cbn [cast_line_items].
    rewrite (bind_next _ _ db _ db (required_ObjectId_next _ _ _ i db Hcast)).
    rewrite Hq. rewrite (bind_next _ _ db q db) by reflexivity.
    rewrite Hmin. rewrite (bind_next _ _ db tt db) by reflexivity.
    rewrite (bind_next _ _ db id db Hitem).
    rewrite (bind_next _ _ db ls db Hls). eexists. reflexivity.
Qed.

(** Distinct identifiers, each of an image: as many images found as
    identifiers asked for. *)
Lemma found_count_exact imgs ids :
  NoDup (map image_id imgs) -> NoDup ids ->
  (forall i, In i ids -> exists img, In img imgs /\ image_id img = i) ->
  List.length (filter (fun i => existsb (String.eqb (image_id i)) ids) imgs)
  = List.length ids.
Proof.
  intros Hnd Hids Hall.
  set (found := filter (fun i => existsb (String.eqb (image_id i)) ids) imgs).
  assert (Hnd' : NoDup (map image_id found)) by (apply NoDup_map_filter, Hnd).
  assert (Hincl : incl (map image_id found) ids).
  { intros x Hx. apply in_map_iff in Hx. destruct Hx as (i & <- & Hi).
    apply filter_In in Hi. destruct Hi as [_ Hi].
    apply existsb_exists in Hi. destruct Hi as (y & Hy & Heq).
    apply String.eqb_eq in Heq. rewrite Heq. exact Hy. }
  assert (Hback : incl ids (map image_id found)).
  { intros i Hi. destruct (Hall i Hi) as (img & Himg & <-).
    apply in_map. apply filter_In. split; [assumption | ].
    apply existsb_exists. exists (image_id img). split; [assumption | ].
    apply String.eqb_refl. }
  pose proof (NoDup_incl_length Hnd' Hincl) as H1.
  pose proof (NoDup_incl_length Hids Hback) as H2.
  rewrite length_map in H1, H2. fold found. lia.
Qed.
End OrderSuccess.

(** X20.  An order that passes every check of the workflow, whose line items
    name pairwise distinct images and whose fields the Order schema can cast
    (quantities of at least 1, non-empty name, address and payment type, a
    numeric amount) is stored and answered 201 with the order stored.
    Stored images have distinct identifiers. *)
Theorem X20_order_for_distinct_products_is_stored pf w b db xs ids nm ad pt am :
  passes_checks pf db b ->
  NoDup (map image_id (Image db)) ->
  field "products" b = JArr xs ->
  Forall2 (castable_line pf) xs ids -> NoDup ids ->
  cast_String pf (field "name" b) = Some nm -> nm <> "" ->
  cast_String pf (field "address" b) = Some ad -> ad <> "" ->
  cast_String pf (field "paymentType" b) = Some pt -> pt <> "" ->
  cast_Number pf (field "amount" b) = Some am ->
  exists o,
    app pf w (POST_create_order b) db
    = ({| status := 201; body := JObj [("order", order_json pf JStr JStr o)] |},
       set_Order (Order db ++ [o])%list db)
    /\ map productId (products o) = ids
    /\ order_name o = nm /\ address o = ad /\ paymentType o = pt /\ amount o = am
    /\ paymentStatus o = "pending".
Proof.
  intros (Hreq & Hvalid & (u & Hu & Hucast) & xs' & Hxs' & Hok & Hres)
         Hnd Hxs Hlines Hids Hnm Hnm' Had Had' Hpt Hpt' Ham.
  rewrite Hxs in Hxs'. injection Hxs' as <-.
  destruct (post_create_order_to_user pf w b db xs (account_id u)
              Hreq Hvalid Hxs Hok Hucast) as (k & Hk & _ & Hsome).
  destruct (castable_lines_ids pf xs ids Hlines) as (pids & Hpids & Hcids & Hlen).
  destruct (cast_line_items_next pf w xs ids Hlines 0%nat db) as (ls & Hls).
  assert (Hstored : Forall2 (stored_line pf) xs ls).
  { pose proof (cast_line_items_full pf w xs 0%nat db) as H.
    unfold hoare in H. rewrite Hls in H. tauto. }
  assert (Hlsids : map productId ls = ids).
  { clear - Hlines Hstored. revert ls Hstored.
    induction Hlines as [ | item i xs ids (fs & q & -> & Hcast & _) _ IH];
      intros ls Hstored; inversion Hstored as [ | ? l ? ls' (fs' & Heq & Hc & _) Hrest];
      subst; [reflexivity | ].
    injection Heq as <-. cbn. f_equal; [congruence | auto]. }
  eexists {| order_id := new_ObjectId w 0; userId := account_id u; products := ls;
             order_name := nm; address := ad; paymentType := pt; amount := am;
             paymentStatus := "pending"; createdAt := Date_now w |}.
  split; [ | cbn; auto 10].
  cbn [app]. unfold run. rewrite Hk.
  destruct (find _ (userModel db)) as [u' | ] eqn:Hf.
  2:{ apply (find_none _ _ Hf) in Hu. rewrite String.eqb_refl in Hu. discriminate. }
  rewrite Hsome.
  unfold products_map_productId. rewrite Hpids.
  rewrite (bind_next _ _ db pids db) by reflexivity.
  unfold Image_find_in. rewrite Hcids.
  rewrite (bind_next _ _ db _ db) by reflexivity.
  rewrite (bind_next _ _ db tt db).
  2:{ apply reject_if_false. apply negb_false_iff. apply Nat.eqb_eq.
      rewrite Hlen. apply found_count_exact; [assumption | assumption | ].
      intros i Hi.
      destruct (Forall2_In_r _ _ _ Hlines i Hi) as (item & Hitem & fs & q & -> & Hc & _).
      rewrite Forall_forall in Hres.
      destruct (Hres _ Hitem) as (pid & Hget & img & Himg & Hcimg).
      cbn in Hget. injection Hget as <-.
      exists img. split; [assumption | congruence]. }
  match goal with |- context [set_Order (Order db ++ [?o])%list db] =>
    rewrite (bind_next _ _ db o (set_Order (Order db ++ [o])%list db)); [reflexivity | ]
  end.
  unfold Order_create.
  rewrite (bind_next _ _ db _ db (required_ObjectId_next _ _ _ (account_id u) db Hucast)).
  rewrite (bind_next _ _ db ls db Hls).
  rewrite (bind_next _ _ db _ db (required_String_next _ _ _ nm db Hnm Hnm')).
  rewrite (bind_next _ _ db _ db (required_String_next _ _ _ ad db Had Had')).
  rewrite (bind_next _ _ db _ db (required_String_next _ _ _ pt db Hpt Hpt')).
  rewrite Ham. reflexivity.
Qed.

Lemma X20_order_for_distinct_products_is_stored_witness :
  let b := Sample.order_body (JArr [Sample.line "64c0000000000000000000a1" 2]) (JNum 24) in
  exists o,
    app Sample.platform Sample.world (POST_create_order b) Sample.db
    = ({| status := 201;
          body := JObj [("order", order_json Sample.platform JStr JStr o)] |},
       set_Order (Order Sample.db ++ [o])%list Sample.db)
    /\ map productId (products o) = ["64c0000000000000000000a1"]
    /\ order_name o = "Alice Martin" /\ address o = "1 Main Street"
    /\ paymentType o = "card" /\ amount o = 24%Q
    /\ paymentStatus o = "pending".
Proof.
  intros b.
  apply (X20_order_for_distinct_products_is_stored Sample.platform Sample.world b
           Sample.db [Sample.line "64c0000000000000000000a1" 2]
           ["64c0000000000000000000a1"]);
    try solve [reflexivity | discriminate].
  - split; [repeat split | ]. split; [reflexivity | ].
    split; [exists Sample.alice; split; [left | ]; reflexivity | ].
    eexists. split; [reflexivity | ].
    split; repeat constructor.
    + eexists _, _. repeat split; left; reflexivity.
    + eexists. split; [reflexivity | ].
      exists Sample.mug. split; [left | ]; reflexivity.
  - repeat constructor. intros [].
  - repeat constructor. eexists _, _. repeat split; left; reflexivity.
  - repeat constructor. intros [].
Defined.

(** ** Registering, then coming back *)

Lemma registration_201 pf w admin b db :
  let res := app pf w (registration admin b) db in
  status (fst res) = 201 ->
  exists a,
    snd res = (if admin then set_adminModel else set_userModel)
                (accounts admin db ++ [a])%list db
    /\ cast_String pf (field "email" b) = Some (email a)
    /\ bcrypt_hash w (field "password" b) 10 = Some (password a)
    /\ (forall x, In x (accounts admin db) -> email x <> email a)
    /\ truthy (field "email" b) = true /\ truthy (field "password" b) = true
    /\ truthy (field "firstName" b) = true /\ truthy (field "secondName" b) = true.
Proof.
  cbv zeta. rewrite run_registration.
  apply (hoare_run pf _ "Registration failed" db
           (fun r d => status r = 201 ->
              exists a,
                d = (if admin then set_adminModel else set_userModel)
                      (accounts admin db ++ [a])%list db
                /\ cast_String pf (field "email" b) = Some (email a)
                /\ bcrypt_hash w (field "password" b) 10 = Some (password a)
                /\ (forall x, In x (accounts admin db) -> email x <> email a)
                /\ truthy (field "email" b) = true /\ truthy (field "password" b) = true
                /\ truthy (field "firstName" b) = true
                /\ truthy (field "secondName" b) = true)).
  unfold register.
  apply hoare_bind, hoare_reject_if; intros Hreq; [discriminate | ].
  repeat apply orb_false_iff in Hreq as [Hreq ?].
  repeat match goal with H : negb _ = false |- _ => apply negb_false_iff in H end.
  apply hoare_bind.
  eapply hoare_conseq; [apply findOne_email_spec | | | ]; cbn beta; auto;
    [ | tauto | discriminate].
  intros existing d [-> _].
  apply hoare_bind, hoare_reject_if; intros Hexisting; [discriminate | ].
  apply hoare_bind.
  eapply hoare_conseq; [apply profile_picture_data_spec | | | ]; cbn beta; auto;
    [ | intros r d [-> [Hr | Hr]]; rewrite Hr; discriminate | discriminate].
  intros picture d [-> _].
  apply hoare_bind, hoare_attempt; [intros hashed Hhashed | discriminate].
  apply hoare_bind.
  eapply hoare_conseq; [apply Account_create_spec | | | ]; cbn beta; auto;
    [ | tauto | discriminate].
  intros a d (-> & _ & _ & _ & He & Hp & _ & Hfresh).
  apply hoare_reply. intros _. exists a. subst hashed. repeat split; auto.
Qed.

(** X21.  Registering twice: when a registration whose email is a string (a
    string the platform casts to itself and matches by equality) has been
    answered 201, the same payload sent again is answered 400 "Email already
    registered" and stores nothing more. *)
Theorem X21_second_registration_is_refused pf w w' admin b e db :
  exact_match pf ->
  field "email" b = JStr e -> cast_String pf (JStr e) = Some e ->
  let first := app pf w (registration admin b) db in
  status (fst first) = 201 ->
  app pf w' (registration admin b) (snd first)
  = (error_response 400 "Email already registered", snd first).
Proof.
  intros Hpf He Hcast first H201. subst first.
  destruct (registration_201 pf w admin b db H201)
    as (a & -> & Hea & _ & _ & Hte & Htp & Htf & Hts).
  rewrite He, Hcast in Hea. injection Hea as Hea.
  rewrite run_registration. unfold run, register.
  rewrite (bind_next _ _ _ tt _)
    by (apply reject_if_false; rewrite Htf, Hts, Hte, Htp; reflexivity).
  rewrite He.
  rewrite (bind_next _ _ _ _ _ (findOne_email_next _ _ _ _ _ (Hpf e))).
  assert (Hfound : exists x,
             find (fun y => String.eqb e (email y))
               (accounts admin
                  ((if admin then set_adminModel else set_userModel)
                     (accounts admin db ++ [a])%list db)) = Some x).
  { destruct (find _ _) as [x | ] eqn:Hf; [eauto | ].
    assert (Hin : In a (accounts admin
                          ((if admin then set_adminModel else set_userModel)
                             (accounts admin db ++ [a])%list db))).
    { destruct admin; cbn; apply in_or_app; right; left; reflexivity. }
    apply (find_none _ _ Hf) in Hin. rewrite <- Hea, String.eqb_refl in Hin.
    discriminate. }
  destruct Hfound as (x & ->). reflexivity.
Qed.

Lemma X21_second_registration_is_refused_witness :
  let b := JObj [("firstName", JStr "A"); ("secondName", JStr "B");
                 ("email", JStr "a@b.com"); ("password", JStr "x")] in
  let first := app Sample.platform Sample.world (registration false b) Sample.db in
  app Sample.platform refusing_world (registration false b) (snd first)
  = (error_response 400 "Email already registered", snd first).
Proof.
  intros b first.
  apply (X21_second_registration_is_refused Sample.platform Sample.world refusing_world
           false b "a@b.com" Sample.db);
    solve [reflexivity | intros s; reflexivity].
Defined.

(** X22.  Registering, then logging in: after a registration answered 201
    whose email is a string (cast to itself, matched by equality), a login
    to the same collection with that email and a password that
    [bcrypt.compare] accepts against the hash stored is answered 200 with
    the summary of the account just created. *)
Theorem X22_login_after_registration pf w w' admin b l e db :
  exact_match pf ->
  field "email" b = JStr e -> cast_String pf (JStr e) = Some e ->
  let first := app pf w (registration admin b) db in
  status (fst first) = 201 ->
  field "email" l = JStr e -> truthy (field "password" l) = true ->
  (forall h, bcrypt_hash w (field "password" b) 10 = Some h ->
             bcrypt_compare pf (field "password" l) h = Some true) ->
  exists a,
    accounts admin (snd first) = (accounts admin db ++ [a])%list
    /\ app pf w' (login_request admin l) (snd first)
       = ({| status := 200;
             body := JObj [("message", JStr "Login successful");
                           (if admin then "admin" else "user",
                            (if admin then admin_summary else user_summary) a)] |},
          snd first).
Proof.
  intros Hpf He Hcast first H201 Hle Hlp Haccept. subst first.
  destruct (registration_201 pf w admin b db H201)
    as (a & -> & Hea & Hhash & Hfresh & Hte & _).
  rewrite He, Hcast in Hea. injection Hea as Hea.
  exists a. split; [destruct admin; reflexivity | ].
  set (db1 := (if admin then set_adminModel else set_userModel)
                (accounts admin db ++ [a])%list db).
  assert (Hfind : find (fun y => String.eqb e (email y)) (accounts admin db1) = Some a).
  { assert (Heq : accounts admin db1 = (accounts admin db ++ [a])%list)
      by (destruct admin; reflexivity).
    rewrite Heq. apply find_snoc.
    - intros y Hy. apply String.eqb_neq. intros Hey. apply (Hfresh y Hy). congruence.
    - rewrite <- Hea. apply String.eqb_refl. }
  rewrite run_login. unfold run, login.
  rewrite (bind_next _ _ db1 tt db1).
  2:{ apply reject_if_false. rewrite Hle, <- He, Hte, Hlp. reflexivity. }
  rewrite Hle.
  rewrite (bind_next _ _ db1 _ db1 (findOne_email_next _ _ _ _ db1 (Hpf e))).
  rewrite Hfind.
  rewrite (bind_next _ _ db1 true db1) by (rewrite (Haccept _ Hhash); reflexivity).
  reflexivity.
Qed.

Lemma X22_login_after_registration_witness :
  let b := JObj [("firstName", JStr "Bob"); ("secondName", JStr "Stone");
                 ("email", JStr "bob@example.com"); ("password", JStr "s3cret")] in
  let l := JObj [("email", JStr "bob@example.com"); ("password", JStr "s3cret")] in
  let first := app Sample.platform Sample.world (registration true b) Sample.db in
  exists a,
    accounts true (snd first) = (accounts true Sample.db ++ [a])%list
    /\ app Sample.platform refusing_world (login_request true l) (snd first)
       = ({| status := 200;
             body := JObj [("message", JStr "Login successful");
                           ("admin", admin_summary a)] |},
          snd first).
Proof.
  intros b l first.
  apply (X22_login_after_registration Sample.platform Sample.world refusing_world
           true b l "bob@example.com" Sample.db);
    try solve [reflexivity | intros s; reflexivity].
  intros h [= <-]. reflexivity.
Defined.

(** ** The first line item at fault, and images that are gone *)




Lemma populate_image_gone fields db i :
  (forall img, In img (Image db) -> image_id img <> i) ->
  populate_image fields db i = JNull.
Proof.
  intros Hgone. unfold populate_image.
  destruct (find _ (Image db)) as [img | ] eqn:Hf; [ | reflexivity].
  apply find_some in Hf. destruct Hf as [Hin Heq]. apply String.eqb_eq in Heq.
  destruct (Hgone img Hin Heq).
Qed.

(** X24.  Deleting an image does not touch the orders that refer to it:
    after a deletion answered 200 (stored images having distinct
    identifiers), GET /orders still lists every order, and each line item
    that refers to the deleted image shows [null] for its product. *)
Theorem X24_orders_outlive_their_images pf w w' db id i :
  NoDup (map image_id (Image db)) ->
  cast_ObjectId pf (JStr id) = Some (Some i) ->
  let first := app pf w (DELETE_delete_image id) db in
  status (fst first) = 200 ->
  fst (app pf w' GET_orders (snd first))
  = {| status := 200;
       body := JArr (map (order_json pf
                            (populate_user ["firstName"; "secondName"; "email"]
                               (snd first))
                            (populate_image (Some ["name"; "price"]) (snd first)))
                       (Order db)) |}
  /\ forall o l, In o (Order db) -> In l (products o) -> productId l = i ->
       line_item_json (populate_image (Some ["name"; "price"]) (snd first)) l
       = JObj [("productId", JNull); ("quantity", JNum (quantity l));
               ("_id", id_json (item_id l))].
Proof.
  intros Hnd Hcast first H200. subst first.
  assert (Hdb : snd (app pf w (DELETE_delete_image id) db)
                = set_Image (remove_image i (Image db)) db).
  { revert H200. cbn [app].
    apply (hoare_run pf (delete_image pf w id) "Delete failed" db
             (fun r d => status r = 200 ->
                         d = set_Image (remove_image i (Image db)) db)).
    eapply hoare_conseq; [apply delete_image_spec | | | ]; cbn; auto; [ | discriminate].
    intros r d [(Hne & _) | (_ & j & img & Hj & _ & _ & ->)] H200; [contradiction | ].
    congruence. }
  rewrite Hdb. split; [reflexivity | ].
  intros o l _ _ Hl. unfold line_item_json. rewrite Hl.
  rewrite populate_image_gone; [reflexivity | ].
  cbn [Image set_Image]. intros img Himg Heq.
  pose proof (remove_image_find i (Image db) Hnd) as Hnone.
  apply (find_none _ _ Hnone) in Himg. rewrite Heq, String.eqb_refl in Himg.
  discriminate.
Qed.

Lemma X24_orders_outlive_their_images_witness :
  let b := Sample.order_body (JArr [Sample.line "64c0000000000000000000a1" 2]) (JNum 24) in
  let db1 := snd (app Sample.platform Sample.world (POST_create_order b) Sample.db) in
  let first := app Sample.platform Sample.world
                 (DELETE_delete_image "64c0000000000000000000a1") db1 in
  fst (app Sample.platform Sample.world GET_orders (snd first))
  = {| status := 200;
       body := JArr (map (order_json Sample.platform
                            (populate_user ["firstName"; "secondName"; "email"]
                               (snd first))
                            (populate_image (Some ["name"; "price"]) (snd first)))
                       (Order db1)) |}
  /\ forall o l, In o (Order db1) -> In l (products o) ->
       productId l = "64c0000000000000000000a1" ->
       line_item_json (populate_image (Some ["name"; "price"]) (snd first)) l
       = JObj [("productId", JNull); ("quantity", JNum (quantity l));
               ("_id", id_json (item_id l))].
Proof.
  intros b db1 first.
  apply (X24_orders_outlive_their_images Sample.platform Sample.world Sample.world db1
           "64c0000000000000000000a1" "64c0000000000000000000a1").
  - repeat constructor. intros [].
  - reflexivity.
  - reflexivity.
Defined.

(** ** The identifiers of line items *)

Section LineItemIds.
Variable pf : Platform.
Variable w : World.

Lemma cast_line_items_ids items : forall n db,
  hoare (cast_line_items pf w n items) db
    (fun ls d => d = db /\ List.length ls = List.length items
                 /\ forall k item l, nth_error items k = Some item ->
                                     nth_error ls k = Some l ->
                                     kept_id pf w (n + k) item l)
    (fun _ _ => False) (fun _ _ => True).
Proof.
  induction items as [ | item rest IH]; intros n db; cbn [cast_line_items].
  - apply hoare_ret. split; [reflexivity | ]. split; [reflexivity | ].
    intros [ | k] item l; discriminate.
  - destruct item; try (apply hoare_throw; exact I).
    apply hoare_bind.
    eapply hoare_conseq;
      [apply required_ObjectId_spec | cbn beta | cbn beta; intros _ _ [] | auto].
    intros pid d ->.
    apply hoare_bind, hoare_attempt; [intros q Hq | intros _; exact I].
    apply hoare_bind.
    destruct (Qltb q 1); [apply hoare_throw; exact I | apply hoare_ret].
    apply hoare_bind.
    eapply hoare_conseq;
      [apply cast_item_id_spec | cbn beta | cbn beta; intros _ _ [] | auto].
    intros id d [-> Hid]. apply hoare_bind.
    eapply hoare_conseq; [apply IH | cbn beta | cbn beta; intros _ _ [] | auto].
    intros ls d (-> & Hlen & Hrest). apply hoare_ret.
    split; [reflexivity | ]. split; [cbn; rewrite Hlen; reflexivity | ].
    intros [ | k] x l; cbn [nth_error].
    + intros [= <-] [= <-]. rewrite Nat.add_0_r. exists fs. split; [reflexivity | ].
      destruct Hid as [[Hnone ->] | [Hsome Hcast]]; [left | right]; auto.
    + intros Hx Hl. rewrite Nat.add_succ_r. exact (Hrest k x l Hx Hl).
Qed.

Lemma Order_create_ids user items name addr payment total db :
  hoare (Order_create pf w user items name addr payment total) db
    (fun o d => d = set_Order (Order db ++ [o])%list db
                /\ exists xs, items = JArr xs
                     /\ List.length (products o) = List.length xs
                     /\ forall k item l, nth_error xs k = Some item ->
                                         nth_error (products o) k = Some l ->
                                         kept_id pf w k item l)
    (fun _ _ => False) (fun _ _ => True).
Proof.
  unfold Order_create.
  apply hoare_bind.
  eapply hoare_conseq;
    [apply required_ObjectId_spec | cbn beta | cbn beta; intros _ _ [] | auto].
  intros uid d ->. apply hoare_bind.
  apply hoare_conseq with
    (N := fun ls d =>
            d = db
            /\ exists xs, items = JArr xs /\ List.length ls = List.length xs
                 /\ forall k item l, nth_error xs k = Some item ->
                                     nth_error ls k = Some l -> kept_id pf w k item l)
    (S := fun _ _ => False) (T := fun _ _ => True); auto.
  { destruct items; try (apply hoare_throw; exact I).
    eapply hoare_conseq;
      [apply cast_line_items_ids | cbn beta | cbn beta; intros _ _ [] | auto].
    intros ls d (-> & Hlen & Hls). eauto. }
  cbn beta. intros ls d [-> Hls].
  do 3 (apply hoare_bind;
        eapply hoare_conseq;
          [apply required_String_spec | cbn beta | cbn beta; intros _ _ [] | auto];
        intros ? ? ->).
  apply hoare_bind, hoare_attempt; [intros am Ham | intros _; exact I].
  apply hoare_bind, hoare_write, hoare_ret. split; [reflexivity | exact Hls].
Qed.

Lemma post_create_order_ids b db :
  hoare (post_create_order pf w b) db (fun _ _ => False)
    (fun r d =>
       status r = 201 ->
       exists o xs, d = set_Order (Order db ++ [o])%list db
         /\ body r = JObj [("order", order_json pf JStr JStr o)]
         /\ field "products" b = JArr xs
         /\ List.length (products o) = List.length xs
         /\ forall k item l, nth_error xs k = Some item ->
                             nth_error (products o) k = Some l ->
                             kept_id pf w k item l)
    (fun _ _ => True).
Proof.
  unfold post_create_order.
  apply hoare_bind, hoare_reject_if; intros Hreq; [intros [=] | ].
  apply hoare_bind, hoare_reject_if; intros Hvalid; [intros [=] | ].
  apply hoare_bind, hoare_attempt; [intros each Heach | intros _; exact I].
  apply hoare_bind.
  eapply hoare_conseq;
    [apply (check_items_spec pf) | cbn beta
     | cbn beta; intros r d [_ Hr] H201; rewrite H201 in Hr; discriminate Hr | auto].
  intros _ d [-> _]. apply hoare_bind.
  eapply hoare_conseq;
    [apply findById_spec | cbn beta | cbn beta; intros _ _ [] | auto].
  intros found d [-> _]. apply hoare_bind, hoare_reject_if; intros Huser; [intros [=] | ].
  apply hoare_bind.
  eapply hoare_conseq;
    [apply products_map_productId_spec | cbn beta | cbn beta; intros _ _ [] | auto].
  intros pids d [-> _]. apply hoare_bind.
  eapply hoare_conseq;
    [apply Image_find_in_spec | cbn beta | cbn beta; intros _ _ [] | auto].
  intros imgs d [-> _]. apply hoare_bind, hoare_reject_if; intros Hcount; [intros [=] | ].
  apply hoare_bind.
  eapply hoare_conseq;
    [apply Order_create_ids | cbn beta | cbn beta; intros _ _ [] | auto].
  intros o d (-> & xs & Hxs & Hlen & Hids). apply hoare_reply. intros _.
  exists o, xs. auto.
Qed.
End LineItemIds.

(** X25.  The [_id] of a line item is the caller's to give.  When order
    creation answers 201, the order it stored and returned has one line
    item for each item of the payload, in order, and the [_id] of each is
    the cast of the item's own [_id] when it has one (a [null] stays
    [null]) and otherwise the identifier generated for that subdocument.
    And a line item whose [_id] does not cast to an identifier is the end
    of the request, whatever the checks of the handler say, none of which
    looks at it: the order is not created and the database is unchanged. *)
Theorem X25_line_items_keep_their_ids pf w b db xs :
  field "products" b = JArr xs ->
  let res := app pf w (POST_create_order b) db in
  (status (fst res) = 201 ->
   exists o, snd res = set_Order (Order db ++ [o])%list db
             /\ body (fst res) = JObj [("order", order_json pf JStr JStr o)]
             /\ List.length (products o) = List.length xs
             /\ forall k item l, nth_error xs k = Some item ->
                                 nth_error (products o) k = Some l ->
                                 kept_id pf w k item l)
  /\ (forall fs, In (JObj fs) xs -> lookup "_id" fs <> JUndefined ->
                 cast_ObjectId pf (lookup "_id" fs) = None ->
                 status (fst res) <> 201 /\ snd res = db).
Proof.
  intros Hxs res.
  assert (Hkept : status (fst res) = 201 ->
            exists o, snd res = set_Order (Order db ++ [o])%list db
              /\ body (fst res) = JObj [("order", order_json pf JStr JStr o)]
              /\ List.length (products o) = List.length xs
              /\ forall k item l, nth_error xs k = Some item ->
                                  nth_error (products o) k = Some l ->
                                  kept_id pf w k item l).
  { subst res. cbn [app].
    apply (hoare_run pf (post_create_order pf w b) "Order creation failed" db
             (fun r d => status r = 201 ->
                exists o, d = set_Order (Order db ++ [o])%list db
                  /\ body r = JObj [("order", order_json pf JStr JStr o)]
                  /\ List.length (products o) = List.length xs
                  /\ forall k item l, nth_error xs k = Some item ->
                                      nth_error (products o) k = Some l ->
                                      kept_id pf w k item l)).
    eapply hoare_conseq;
      [apply post_create_order_ids | auto | cbn beta | cbn beta; intros _ _ _ [=]].
    intros r d H H201. destruct (H H201) as (o & ys & Hd & Hbody & Hys & Hlen & Hids).
    rewrite Hxs in Hys. injection Hys as <-. exists o. auto. }
  split; [exact Hkept | ].
  intros fs Hin Hgiven Hcast.
  assert (Hne : status (fst res) <> 201).
  { intros H201. destruct (Hkept H201) as (o & _ & _ & Hlen & Hids).
    destruct (In_nth_error _ _ Hin) as (k & Hk).
    destruct (nth_error (products o) k) as [l | ] eqn:Hl.
    - destruct (Hids k _ l Hk Hl) as (fs' & [= <-] & [[Hnone _] | [_ Hsome]]);
        congruence.
    - apply nth_error_None in Hl.
      assert (Hlt : (k < List.length xs)%nat)
        by (apply nth_error_Some; rewrite Hk; discriminate).
      lia. }
  split; [exact Hne | ].
  destruct (run_post_create_order pf w b db) as [[_ Hdb] | [H201 _]];
    [exact Hdb | contradiction].
Qed.

Lemma X25_line_items_keep_their_ids_witness :
  let item v := JObj [("productId", JStr "64c0000000000000000000a1");
                      ("quantity", JNum 2); ("_id", v)] in
  let given := Sample.order_body (JArr [item (JStr "64D0000000000000000000B7")])
                 (JNum 24) in
  let bad := Sample.order_body (JArr [item (JStr "zzz")]) (JNum 24) in
  (exists o,
      snd (app Sample.platform Sample.world (POST_create_order given) Sample.db)
      = set_Order (Order Sample.db ++ [o])%list Sample.db
      /\ map item_id (products o) = [Some "64d0000000000000000000b7"])
  /\ passes_checks Sample.platform Sample.db bad
  /\ app Sample.platform Sample.world (POST_create_order bad) Sample.db
     = ({| status := 500;
           body := JObj [("error", JStr "Order creation failed");
                         ("details",
                          JStr "Cast failed for value zzz at path products._id")] |},
        Sample.db).
Proof.
  intros item given bad. split; [ | split].
  - destruct (proj1 (X25_line_items_keep_their_ids Sample.platform Sample.world given
                       Sample.db _ eq_refl) eq_refl)
      as (o & Hdb & _ & Hlen & Hids).
    exists o. split; [exact Hdb | ].
    destruct (products o) as [ | l [ | l' ls]]; try discriminate Hlen.
    destruct (Hids 0%nat _ l eq_refl eq_refl) as (fs & [= <-] & [[Hnone _] | [_ Hcast]]);
      [discriminate Hnone | ].
    assert (Hid : Some (Some "64d0000000000000000000b7") = Some (item_id l))
      by exact Hcast.
    injection Hid as Hid. cbn [map]. rewrite <- Hid. reflexivity.
  - split; [repeat split | ]. split; [reflexivity | ].
    split; [exists Sample.alice; split; [left | ]; reflexivity | ].
    eexists. split; [reflexivity | ].
    split; repeat constructor.
    + eexists _, _. repeat split.
    + eexists. split; [reflexivity | ].
      exists Sample.mug. split; [left | ]; reflexivity.
  - reflexivity.
Defined.
